(** * machine-api-provider-aws: the instance launcher, the placement-group
      reconciler and the MachineSet annotation reconciler

    A shallow embedding of the Go sources of
    [pkg/actuators/machine/instances.go],
    [pkg/actuators/awsplacementgroup/controller.go] and
    [pkg/actuators/machineset/controller.go], with the properties of the
    specification proved about it.

    Conventions of the embedding.
    - A Go [string] is a [string]; a [*string], [*bool], [*int64] or a
      pointer to a struct is an [option]: [None] is [nil].
    - Dereferencing [nil] panics; a function that can panic returns in
      [go], whose [Panic] stops the function.
    - A slice is a [list]; the elements of a slice of pointers are taken to
      be non-nil, as the AWS SDK unmarshals them.
    - A Go function returning [(T, error)] returns a pair whose second
      component is an [option error].
    - Calls to the cloud and to the API server are steps of an environment
      whose state is threaded through; every call is appended, with its
      answer, to a trace.
    - [klog] and [logr] output is not modelled.  An error keeps its
      format string and the error it wraps, not its rendered text; a
      double quote inside a format string is written as a single quote. *)

From Stdlib Require Import ZArith Ascii String List Bool Lia DecimalString.
From stdpp Require Import base option list gmap strings sorting.

Local Open Scope string_scope.
Local Open Scope list_scope.

(** ** Go run time *)

Inductive go (A : Type) : Type :=
| Done (a : A)
| Panic.
Arguments Done {A} a.
Arguments Panic {A}.

Definition go_bind {A B : Type} (m : go A) (f : A -> go B) : go B :=
  match m with
  | Done a => f a
  | Panic => Panic
  end.

(** [aws.StringValue]: the string behind a pointer, [""] for [nil]. *)
Definition StringValue (p : option string) : string :=
  match p with
  | Some s => s
  | None => ""
  end.

(** [aws.Int64Value]. *)
Definition Int64Value (p : option Z) : Z :=
  match p with
  | Some n => n
  | None => 0%Z
  end.

(** [strconv.Itoa] and [strconv.FormatInt n 10]: the decimal digits of
    [n], after a minus sign when [n] is negative. *)
Definition Itoa (n : Z) : string := NilZero.string_of_int (Z.to_int n).

(** [strings.HasPrefix s prefix]. *)
Definition HasPrefix (s pre : string) : bool := String.prefix pre s.

(** [strings.Split s sep] for a separator of one character: the pieces of
    [s] between the separators; one piece, [s] itself, when [s] holds no
    separator. *)
Fixpoint Split (s : string) (sep : ascii) : list string :=
  match s with
  | EmptyString => [EmptyString]
  | String c rest =>
      if Ascii.eqb c sep then EmptyString :: Split rest sep
      else
        match Split rest sep with
        | piece :: pieces => String c piece :: pieces
        | [] => [String c EmptyString]
        end
  end.

(** [strings.Join elems sep]. *)
Fixpoint Join (elems : list string) (sep : string) : string :=
  match elems with
  | [] => ""
  | [elem] => elem
  | elem :: rest => elem +:+ sep +:+ Join rest sep
  end.

(** ** Errors *)

(** [machinev1beta1.MachineStatusError], the reasons used here. *)
Inductive MachineStatusError : Type :=
| InvalidConfigurationMachineError
| CreateMachineError.

(** The dynamic types of the [error] values that occur.
    [RequestFailure] is an [awserr.RequestFailure] (which is also an
    [awserr.Error]); [AwsError] is an [awserr.Error] that is not a request
    failure; [Errorf] is the result of [errors.New] or of a [fmt.Errorf]
    that formats no error, [Wrapf] of a [fmt.Errorf] that formats or wraps
    the error [cause]; [MachineError] is a [*mapierrors.MachineError],
    whose message is formatted like an [Errorf] or a [Wrapf];
    [APIStatusError] is an error of the API server, with its reason. *)
Inductive error : Type :=
| RequestFailure (statusCode : Z) (message : string)
| AwsError (code : string)
| Errorf (format : string)
| Wrapf (format : string) (cause : error)
| MachineError (reason : MachineStatusError) (message : error)
| APIStatusError (reason : string).

(** [mapierrors.InvalidMachineConfiguration] and [mapierrors.CreateMachine]. *)
Definition InvalidMachineConfiguration (message : error) : error :=
  MachineError InvalidConfigurationMachineError message.

Definition CreateMachine (message : error) : error :=
  MachineError CreateMachineError message.

(** [apierrors.IsNotFound]. *)
Definition IsNotFound (err : error) : bool :=
  match err with
  | APIStatusError reason => String.eqb reason "NotFound"
  | _ => false
  end.

(** The conversion [int32(n)] of an [int64]. *)
Definition int32 (n : Z) : Z := ((n + 2147483648) mod 4294967296 - 2147483648)%Z.

(** ** Types of the AWS SDK ([ec2]) and of the OpenShift API *)

Module ec2.

Record Tag : Type := mkTag {
  Tag_Key : option string;
  Tag_Value : option string
}.

Definition tag (k v : string) : Tag := mkTag (Some k) (Some v).

Record Filter : Type := mkFilter {
  Filter_Name : option string;
  Filter_Values : list string
}.

Record Image : Type := mkImage {
  Image_ImageId : option string;
  Image_CreationDate : option string;
  Image_RootDeviceName : option string
}.

Record DescribeImagesInput : Type := mkDescribeImagesInput {
  DescribeImagesInput_Filters : list Filter;
  DescribeImagesInput_ImageIds : list string
}.

Record DescribeImagesOutput : Type := mkDescribeImagesOutput {
  DescribeImagesOutput_Images : list Image
}.

Record SecurityGroup : Type := mkSecurityGroup {
  SecurityGroup_GroupId : option string
}.

Record DescribeSecurityGroupsInput : Type := mkDescribeSecurityGroupsInput {
  DescribeSecurityGroupsInput_Filters : list Filter
}.

Record DescribeSecurityGroupsOutput : Type := mkDescribeSecurityGroupsOutput {
  DescribeSecurityGroupsOutput_SecurityGroups : list SecurityGroup
}.

Record Subnet : Type := mkSubnet {
  Subnet_SubnetId : option string;
  Subnet_AvailabilityZone : option string
}.

Record DescribeSubnetsInput : Type := mkDescribeSubnetsInput {
  DescribeSubnetsInput_DryRun : option bool;
  DescribeSubnetsInput_Filters : list Filter;
  DescribeSubnetsInput_SubnetIds : list string
}.

Record DescribeSubnetsOutput : Type := mkDescribeSubnetsOutput {
  DescribeSubnetsOutput_Subnets : list Subnet
}.

Record AvailabilityZone : Type := mkAvailabilityZone {
  AvailabilityZone_ZoneName : option string;
  AvailabilityZone_ZoneType : option string
}.

Record DescribeAvailabilityZonesInput : Type := mkDescribeAvailabilityZonesInput {
  DescribeAvailabilityZonesInput_DryRun : option bool;
  DescribeAvailabilityZonesInput_ZoneNames : list string
}.

Record DescribeAvailabilityZonesOutput : Type := mkDescribeAvailabilityZonesOutput {
  DescribeAvailabilityZonesOutput_AvailabilityZones : list AvailabilityZone
}.

Record InstanceNetworkInterfaceSpecification : Type :=
  mkInstanceNetworkInterfaceSpecification {
    NetworkInterface_DeviceIndex : option Z;
    NetworkInterface_SubnetId : option string;
    NetworkInterface_Groups : list string;
    NetworkInterface_AssociateCarrierIpAddress : option bool;
    NetworkInterface_AssociatePublicIpAddress : option bool;
    NetworkInterface_InterfaceType : option string
  }.

Record EbsBlockDevice : Type := mkEbsBlockDevice {
  Ebs_VolumeSize : option Z;
  Ebs_VolumeType : option string;
  Ebs_Encrypted : option bool;
  Ebs_DeleteOnTermination : option bool;
  Ebs_Iops : option Z;
  Ebs_KmsKeyId : option string
}.

Record BlockDeviceMapping : Type := mkBlockDeviceMapping {
  BlockDeviceMapping_DeviceName : option string;
  BlockDeviceMapping_Ebs : option EbsBlockDevice
}.

Record TagSpecification : Type := mkTagSpecification {
  TagSpecification_ResourceType : option string;
  TagSpecification_Tags : list Tag
}.

Record IamInstanceProfileSpecification : Type := mkIamInstanceProfileSpecification {
  IamInstanceProfile_Name : option string
}.

Record Placement : Type := mkPlacement {
  Placement_AvailabilityZone : option string;
  Placement_GroupName : option string;
  Placement_PartitionNumber : option Z;
  Placement_Tenancy : option string
}.

Record InstanceMetadataOptionsRequest : Type := mkInstanceMetadataOptionsRequest {
  MetadataOptions_HttpTokens : option string
}.

Record SpotMarketOptions : Type := mkSpotMarketOptions {
  SpotOptions_InstanceInterruptionBehavior : option string;
  SpotOptions_MaxPrice : option string;
  SpotOptions_SpotInstanceType : option string
}.

Record InstanceMarketOptionsRequest : Type := mkInstanceMarketOptionsRequest {
  MarketOptions_MarketType : option string;
  MarketOptions_SpotOptions : option SpotMarketOptions
}.

Record CapacityReservationTarget : Type := mkCapacityReservationTarget {
  CapacityReservationTarget_CapacityReservationId : option string
}.

Record CapacityReservationSpecification : Type := mkCapacityReservationSpecification {
  CapacityReservation_CapacityReservationTarget : option CapacityReservationTarget
}.

Record RunInstancesInput : Type := mkRunInstancesInput {
  RunInstancesInput_ImageId : option string;
  RunInstancesInput_InstanceType : option string;
  RunInstancesInput_MinCount : option Z;
  RunInstancesInput_MaxCount : option Z;
  RunInstancesInput_KeyName : option string;
  RunInstancesInput_IamInstanceProfile : option IamInstanceProfileSpecification;
  RunInstancesInput_TagSpecifications : list TagSpecification;
  RunInstancesInput_NetworkInterfaces : list InstanceNetworkInterfaceSpecification;
  RunInstancesInput_UserData : option string;
  RunInstancesInput_Placement : option Placement;
  RunInstancesInput_MetadataOptions : option InstanceMetadataOptionsRequest;
  RunInstancesInput_InstanceMarketOptions : option InstanceMarketOptionsRequest;
  RunInstancesInput_CapacityReservationSpecification :
    option CapacityReservationSpecification;
  (** [None] is the nil slice the field keeps when no mapping is given. *)
  RunInstancesInput_BlockDeviceMappings : option (list BlockDeviceMapping)
}.

Record InstanceState : Type := mkInstanceState {
  InstanceState_Code : option Z;
  InstanceState_Name : option string
}.

Record Instance : Type := mkInstance {
  Instance_ImageId : option string;
  Instance_InstanceId : option string;
  Instance_State : option InstanceState
}.

Record Reservation : Type := mkReservation {
  Reservation_Instances : list Instance
}.

Record DescribeInstancesInput : Type := mkDescribeInstancesInput {
  DescribeInstancesInput_Filters : list Filter
}.

Record DescribeInstancesOutput : Type := mkDescribeInstancesOutput {
  DescribeInstancesOutput_Reservations : list Reservation
}.

Record PlacementGroup : Type := mkPlacementGroup {
  PlacementGroup_GroupId : option string;
  PlacementGroup_GroupName : option string;
  PlacementGroup_PartitionCount : option Z;
  PlacementGroup_Strategy : option string;
  PlacementGroup_Tags : list Tag
}.

Record DescribePlacementGroupsInput : Type := mkDescribePlacementGroupsInput {
  DescribePlacementGroupsInput_GroupNames : list string
}.

Record DescribePlacementGroupsOutput : Type := mkDescribePlacementGroupsOutput {
  DescribePlacementGroupsOutput_PlacementGroups : list PlacementGroup
}.

Record CreatePlacementGroupInput : Type := mkCreatePlacementGroupInput {
  CreatePlacementGroupInput_GroupName : option string;
  CreatePlacementGroupInput_PartitionCount : option Z;
  CreatePlacementGroupInput_Strategy : option string;
  CreatePlacementGroupInput_TagSpecifications : list TagSpecification
}.

Record CreatePlacementGroupOutput : Type := mkCreatePlacementGroupOutput {
  CreatePlacementGroupOutput_PlacementGroup : option PlacementGroup
}.

Record DeletePlacementGroupInput : Type := mkDeletePlacementGroupInput {
  DeletePlacementGroupInput_GroupName : option string
}.

Record DeletePlacementGroupOutput : Type := mkDeletePlacementGroupOutput { }.

(** Constants of the SDK. *)
Definition MarketTypeSpot : string := "spot".
Definition MarketTypeCapacityBlock : string := "capacity-block".
Definition InstanceInterruptionBehaviorTerminate : string := "terminate".
Definition SpotInstanceTypeOneTime : string := "one-time".
Definition VolumeTypeIo1 : string := "io1".
Definition VolumeTypeIo2 : string := "io2".
Definition VolumeTypeGp3 : string := "gp3".
Definition HttpTokensStateOptional : string := "optional".
Definition HttpTokensStateRequired : string := "required".
Definition PlacementStrategyCluster : string := "cluster".
Definition PlacementStrategySpread : string := "spread".
Definition PlacementStrategyPartition : string := "partition".
Definition ResourceTypePlacementGroup : string := "placement-group".

End ec2.

Module machinev1beta1.

Record TagSpecification : Type := mkTagSpecification {
  TagSpecification_Name : string;
  TagSpecification_Value : string
}.

Record Filter : Type := mkFilter {
  Filter_Name : string;
  Filter_Values : list string
}.

Record AWSResourceReference : Type := mkAWSResourceReference {
  AWSResourceReference_ID : option string;
  AWSResourceReference_ARN : option string;
  (** [None] is the nil slice. *)
  AWSResourceReference_Filters : option (list Filter)
}.

Record Placement : Type := mkPlacement {
  Placement_Region : string;
  Placement_AvailabilityZone : string;
  Placement_Tenancy : string
}.

Record EBSBlockDeviceSpec : Type := mkEBSBlockDeviceSpec {
  EBS_DeleteOnTermination : option bool;
  EBS_Encrypted : option bool;
  EBS_KMSKey : AWSResourceReference;
  EBS_Iops : option Z;
  EBS_VolumeSize : option Z;
  EBS_VolumeType : option string
}.

Record BlockDeviceMappingSpec : Type := mkBlockDeviceMappingSpec {
  BlockDeviceMappingSpec_DeviceName : option string;
  BlockDeviceMappingSpec_EBS : option EBSBlockDeviceSpec
}.

Record SpotMarketOptions : Type := mkSpotMarketOptions {
  SpotMarketOptions_MaxPrice : option string
}.

Record MetadataServiceOptions : Type := mkMetadataServiceOptions {
  MetadataServiceOptions_Authentication : string
}.

Record LocalObjectReference : Type := mkLocalObjectReference {
  LocalObjectReference_Name : string
}.

Record AWSMachineProviderConfig : Type := mkAWSMachineProviderConfig {
  AMI : AWSResourceReference;
  InstanceType : string;
  Tags : list TagSpecification;
  IAMInstanceProfile : option AWSResourceReference;
  CredentialsSecret : option LocalObjectReference;
  KeyName : option string;
  DeviceIndex : Z;
  PublicIP : option bool;
  NetworkInterfaceType : string;
  SecurityGroups : list AWSResourceReference;
  Subnet : AWSResourceReference;
  Placement_ : Placement;
  BlockDevices : list BlockDeviceMappingSpec;
  SpotMarketOptions_ : option SpotMarketOptions;
  MetadataServiceOptions_ : MetadataServiceOptions;
  PlacementGroupName : string;
  PlacementGroupPartition : option Z;
  CapacityReservationID : string;
  MarketType : string
}.

(** The assignment [providerConfig.MarketType = v]. *)
Definition set_MarketType (c : AWSMachineProviderConfig) (v : string)
    : AWSMachineProviderConfig :=
  mkAWSMachineProviderConfig (AMI c) (InstanceType c) (Tags c) (IAMInstanceProfile c)
    (CredentialsSecret c) (KeyName c) (DeviceIndex c) (PublicIP c)
    (NetworkInterfaceType c) (SecurityGroups c) (Subnet c) (Placement_ c)
    (BlockDevices c) (SpotMarketOptions_ c) (MetadataServiceOptions_ c)
    (PlacementGroupName c) (PlacementGroupPartition c) (CapacityReservationID c) v.

(** Constants of the API. *)
Definition MarketTypeOnDemand : string := "OnDemand".
Definition MarketTypeSpot : string := "Spot".
Definition MarketTypeCapacityBlock : string := "CapacityBlock".
Definition AWSENANetworkInterfaceType : string := "ENA".
Definition AWSEFANetworkInterfaceType : string := "EFA".
Definition DefaultTenancy : string := "default".
Definition DedicatedTenancy : string := "dedicated".
Definition HostTenancy : string := "host".
Definition MetadataServiceAuthenticationOptional : string := "Optional".
Definition MetadataServiceAuthenticationRequired : string := "Required".

(** The part of a [Machine] the launcher reads. *)
Record Machine : Type := mkMachine {
  Machine_Name : string;
  Machine_Namespace : string;
  Machine_Labels : gmap string string
}.

End machinev1beta1.

Module configv1.

Record AWSResourceTag : Type := mkAWSResourceTag {
  AWSResourceTag_Key : string;
  AWSResourceTag_Value : string
}.

Record AWSPlatformStatus : Type := mkAWSPlatformStatus {
  AWSPlatformStatus_Region : string;
  (** [None] is the nil slice. *)
  AWSPlatformStatus_ResourceTags : option (list AWSResourceTag)
}.

Record PlatformStatus : Type := mkPlatformStatus {
  PlatformStatus_AWS : option AWSPlatformStatus
}.

Record InfrastructureStatus : Type := mkInfrastructureStatus {
  InfrastructureStatus_InfrastructureName : string;
  InfrastructureStatus_PlatformStatus : option PlatformStatus
}.

Record Infrastructure : Type := mkInfrastructure {
  Infrastructure_Status : InfrastructureStatus
}.

End configv1.

Import configv1.

Module metav1.

(** A [metav1.Time], in nanoseconds since the zero time; a
    [time.Duration] is a number of nanoseconds. *)
Definition Time : Type := Z.

Definition Millisecond : Z := 1000000.
Definition Minute : Z := 60000000000.

Record Condition : Type := mkCondition {
  Condition_Type : string;
  Condition_Status : string;
  Condition_Reason : string;
  (** The error whose text is the message; [None] for no message. *)
  Condition_Message : option error
}.

Definition ConditionTrue : string := "True".
Definition ConditionFalse : string := "False".

(** [IsZero] of a [*Time]: nil, or the zero time. *)
Definition IsZero (t : option Time) : bool :=
  match t with
  | None => true
  | Some t => (t =? 0)%Z
  end.

(** [Before] of a [*Time]: false when a side is nil. *)
Definition Before (t u : option Time) : bool :=
  match t, u with
  | Some t, Some u => (t <? u)%Z
  | _, _ => false
  end.

End metav1.

(** The API of the placement group ([pkg/api/machine/v1]). *)
Module machinev1.

Definition ManagedManagementState : string := "Managed".
Definition UnmanagedManagementState : string := "Unmanaged".

Definition AWSClusterPlacementGroupType : string := "Cluster".
Definition AWSPartitionPlacementGroupType : string := "Partition".
Definition AWSSpreadPlacementGroupType : string := "Spread".

Record AWSPartitionPlacement : Type := mkAWSPartitionPlacement {
  (** An [int32]. *)
  AWSPartitionPlacement_Count : Z
}.

Record ManagedAWSPlacementGroup : Type := mkManagedAWSPlacementGroup {
  Managed_GroupType : string;
  Managed_Partition : option AWSPartitionPlacement
}.

#[global] Instance AWSPartitionPlacement_eq_dec : EqDecision AWSPartitionPlacement.
Proof. solve_decision. Defined.

#[global] Instance ManagedAWSPlacementGroup_eq_dec : EqDecision ManagedAWSPlacementGroup.
Proof. solve_decision. Defined.

Record AWSPlacementGroupManagementSpec : Type := mkAWSPlacementGroupManagementSpec {
  ManagementSpec_ManagementState : string;
  ManagementSpec_Managed : option ManagedAWSPlacementGroup
}.

Record AWSPlacementGroupSpec : Type := mkAWSPlacementGroupSpec {
  Spec_ManagementSpec : AWSPlacementGroupManagementSpec;
  Spec_CredentialsSecret : option machinev1beta1.LocalObjectReference
}.

Record AWSPlacementGroupStatus : Type := mkAWSPlacementGroupStatus {
  Status_Conditions : list metav1.Condition;
  Status_ExpiresAt : option metav1.Time;
  Status_ManagementState : string;
  Status_ObservedConfiguration : ManagedAWSPlacementGroup
}.

Record AWSPlacementGroup : Type := mkAWSPlacementGroup {
  Name : string;
  Namespace : string;
  DeletionTimestamp : option metav1.Time;
  Finalizers : list string;
  Spec : AWSPlacementGroupSpec;
  Status : AWSPlacementGroupStatus
}.

Definition set_Status (pg : AWSPlacementGroup) (st : AWSPlacementGroupStatus)
    : AWSPlacementGroup :=
  mkAWSPlacementGroup (Name pg) (Namespace pg) (DeletionTimestamp pg) (Finalizers pg)
    (Spec pg) st.

Definition set_Finalizers (pg : AWSPlacementGroup) (fs : list string) : AWSPlacementGroup :=
  mkAWSPlacementGroup (Name pg) (Namespace pg) (DeletionTimestamp pg) fs (Spec pg)
    (Status pg).

Definition set_Conditions (pg : AWSPlacementGroup) (cs : list metav1.Condition)
    : AWSPlacementGroup :=
  set_Status pg
    (mkAWSPlacementGroupStatus cs (Status_ExpiresAt (Status pg))
       (Status_ManagementState (Status pg)) (Status_ObservedConfiguration (Status pg))).

Definition set_ExpiresAt (pg : AWSPlacementGroup) (t : option metav1.Time)
    : AWSPlacementGroup :=
  set_Status pg
    (mkAWSPlacementGroupStatus (Status_Conditions (Status pg)) t
       (Status_ManagementState (Status pg)) (Status_ObservedConfiguration (Status pg))).

Definition set_StatusManagementState (pg : AWSPlacementGroup) (ms : string)
    : AWSPlacementGroup :=
  set_Status pg
    (mkAWSPlacementGroupStatus (Status_Conditions (Status pg))
       (Status_ExpiresAt (Status pg)) ms (Status_ObservedConfiguration (Status pg))).

Definition set_ObservedConfiguration (pg : AWSPlacementGroup)
    (oc : ManagedAWSPlacementGroup) : AWSPlacementGroup :=
  set_Status pg
    (mkAWSPlacementGroupStatus (Status_Conditions (Status pg))
       (Status_ExpiresAt (Status pg)) (Status_ManagementState (Status pg)) oc).

End machinev1.

(** The part of the API of the MachineSet the annotation reconciler reads
    and writes. *)
Module machineset_api.

Record RawExtension : Type := mkRawExtension {
  RawExtension_Raw : string
}.

Record MachineSetStatus : Type := mkMachineSetStatus {
  MachineSetStatus_AuthoritativeAPI : string;
  MachineSetStatus_Conditions : list metav1.Condition
}.

Record MachineSet : Type := mkMachineSet {
  MachineSet_Name : string;
  MachineSet_Namespace : string;
  (** [None] is the nil map. *)
  MachineSet_Annotations : option (gmap string string);
  MachineSet_DeletionTimestamp : option metav1.Time;
  (** [Spec.Template.Spec.ProviderSpec.Value]. *)
  MachineSet_ProviderSpecValue : option RawExtension;
  MachineSet_Status : MachineSetStatus
}.

Definition set_Annotations (ms : MachineSet) (a : option (gmap string string))
    : MachineSet :=
  mkMachineSet (MachineSet_Name ms) (MachineSet_Namespace ms) a
    (MachineSet_DeletionTimestamp ms) (MachineSet_ProviderSpecValue ms)
    (MachineSet_Status ms).

Definition MachineAuthorityMachineAPI : string := "MachineAPI".

(** [InstanceType] of the instance-types cache. *)
Record InstanceType : Type := mkInstanceType {
  InstanceType_InstanceType : string;
  InstanceType_VCPU : Z;
  InstanceType_MemoryMb : Z;
  InstanceType_GPU : Z;
  InstanceType_CPUArchitecture : string
}.

End machineset_api.

(** ** The environment: cloud, API server, recorder, clock

    [awsclient.Client] is the interface [Client] of [pkg/client], as far as
    its methods are called here.  A method takes the state of the
    environment and returns its two results and the next state. *)

Module awsclient.

Record Client (S : Type) : Type := mkClient {
  DescribeImages :
    ec2.DescribeImagesInput -> S -> (option ec2.DescribeImagesOutput * option error) * S;
  DescribeSubnets :
    ec2.DescribeSubnetsInput -> S -> (option ec2.DescribeSubnetsOutput * option error) * S;
  DescribeAvailabilityZones :
    ec2.DescribeAvailabilityZonesInput -> S ->
    (option ec2.DescribeAvailabilityZonesOutput * option error) * S;
  DescribeSecurityGroups :
    ec2.DescribeSecurityGroupsInput -> S ->
    (option ec2.DescribeSecurityGroupsOutput * option error) * S;
  DescribePlacementGroups :
    ec2.DescribePlacementGroupsInput -> S ->
    (option ec2.DescribePlacementGroupsOutput * option error) * S;
  RunInstances :
    ec2.RunInstancesInput -> S -> (option ec2.Reservation * option error) * S;
  DescribeInstances :
    ec2.DescribeInstancesInput -> S ->
    (option ec2.DescribeInstancesOutput * option error) * S;
  CreatePlacementGroup :
    ec2.CreatePlacementGroupInput -> S ->
    (option ec2.CreatePlacementGroupOutput * option error) * S;
  DeletePlacementGroup :
    ec2.DeletePlacementGroupInput -> S ->
    (option ec2.DeletePlacementGroupOutput * option error) * S
}.

Arguments DescribeImages {S} _ _ _.
Arguments DescribeSubnets {S} _ _ _.
Arguments DescribeAvailabilityZones {S} _ _ _.
Arguments DescribeSecurityGroups {S} _ _ _.
Arguments DescribePlacementGroups {S} _ _ _.
Arguments RunInstances {S} _ _ _.
Arguments DescribeInstances {S} _ _ _.
Arguments CreatePlacementGroup {S} _ _ _.
Arguments DeletePlacementGroup {S} _ _ _.

Definition GlobalInfrastuctureName : string := "cluster".

End awsclient.

(** A client with canned answers, as the fake client of [pkg/client/fake]
    and the mock client of the tests are: its state is [unit]. *)
Module fake.

Record Answers : Type := mkAnswers {
  images : option ec2.DescribeImagesOutput * option error;
  subnets : option ec2.DescribeSubnetsOutput * option error;
  zones : option ec2.DescribeAvailabilityZonesOutput * option error;
  securityGroups : option ec2.DescribeSecurityGroupsOutput * option error;
  placementGroups : option ec2.DescribePlacementGroupsOutput * option error;
  reservation : option ec2.Reservation * option error;
  instances : option ec2.DescribeInstancesOutput * option error;
  createdPlacementGroup : option ec2.CreatePlacementGroupOutput * option error;
  deletedPlacementGroup : option ec2.DeletePlacementGroupOutput * option error
}.

Definition NewClient (a : Answers) : awsclient.Client unit :=
  awsclient.mkClient unit
    (fun _ s => (images a, s))
    (fun _ s => (subnets a, s))
    (fun _ s => (zones a, s))
    (fun _ s => (securityGroups a, s))
    (fun _ s => (placementGroups a, s))
    (fun _ s => (reservation a, s))
    (fun _ s => (instances a, s))
    (fun _ s => (createdPlacementGroup a, s))
    (fun _ s => (deletedPlacementGroup a, s)).

(** The answers of a cloud that knows nothing. *)
Definition nothing : Answers :=
  mkAnswers
    (Some (ec2.mkDescribeImagesOutput []), None)
    (Some (ec2.mkDescribeSubnetsOutput []), None)
    (Some (ec2.mkDescribeAvailabilityZonesOutput []), None)
    (Some (ec2.mkDescribeSecurityGroupsOutput []), None)
    (Some (ec2.mkDescribePlacementGroupsOutput []), None)
    (Some (ec2.mkReservation []), None)
    (Some (ec2.mkDescribeInstancesOutput []), None)
    (Some (ec2.mkCreatePlacementGroupOutput None), None)
    (Some ec2.mkDeletePlacementGroupOutput, None).

(** A stand-in for [time.Parse] that knows two dates. *)
Definition time_Parse (s : string) : metav1.Time * option error :=
  if String.eqb s "2019-02-01T00:00:00Z" then (1548979200000000000%Z, None)
  else if String.eqb s "2020-02-01T00:00:00Z" then (1580515200000000000%Z, None)
  else (0%Z, Some (Errorf "parsing time: cannot parse")).

End fake.

(** What a run leaves behind: every call with its answer, every metric and
    every event recorded, in order. *)
Inductive event : Type :=
| DescribeImagesCall (input : ec2.DescribeImagesInput)
    (output : option ec2.DescribeImagesOutput) (err : option error)
| DescribeSubnetsCall (input : ec2.DescribeSubnetsInput)
    (output : option ec2.DescribeSubnetsOutput) (err : option error)
| DescribeAvailabilityZonesCall (input : ec2.DescribeAvailabilityZonesInput)
    (output : option ec2.DescribeAvailabilityZonesOutput) (err : option error)
| DescribeSecurityGroupsCall (input : ec2.DescribeSecurityGroupsInput)
    (output : option ec2.DescribeSecurityGroupsOutput) (err : option error)
| DescribePlacementGroupsCall (input : ec2.DescribePlacementGroupsInput)
    (output : option ec2.DescribePlacementGroupsOutput) (err : option error)
| RunInstancesCall (input : ec2.RunInstancesInput)
    (output : option ec2.Reservation) (err : option error)
| DescribeInstancesCall (input : ec2.DescribeInstancesInput)
    (output : option ec2.DescribeInstancesOutput) (err : option error)
| CreatePlacementGroupCall (input : ec2.CreatePlacementGroupInput)
    (output : option ec2.CreatePlacementGroupOutput) (err : option error)
| DeletePlacementGroupCall (input : ec2.DeletePlacementGroupInput)
    (output : option ec2.DeletePlacementGroupOutput) (err : option error)
(* metrics.RegisterFailedInstanceCreate *)
| RegisterFailedInstanceCreate (name namespace reason : string)
(* the API server *)
| GetAWSPlacementGroupCall (namespace name : string)
    (object : machinev1.AWSPlacementGroup) (err : option error)
| GetInfrastructureCall (name : string) (object : configv1.Infrastructure)
    (err : option error)
| PatchAWSPlacementGroupCall (object : machinev1.AWSPlacementGroup)
    (original : machinev1.AWSPlacementGroup) (answer : machinev1.AWSPlacementGroup)
    (err : option error)
| StatusPatchAWSPlacementGroupCall (object : machinev1.AWSPlacementGroup)
    (original : machinev1.AWSPlacementGroup) (answer : machinev1.AWSPlacementGroup)
    (err : option error)
| GetMachineSetCall (namespace name : string) (object : machineset_api.MachineSet)
    (err : option error)
| PatchMachineSetCall (object : machineset_api.MachineSet)
    (original : machineset_api.MachineSet) (answer : machineset_api.MachineSet)
    (err : option error)
(* the client builder and the instance-types cache *)
| AwsClientBuilderCall (secretName namespace region : string) (err : option error)
| GetInstanceTypeCall (cacheID instanceType : string)
    (answer : machineset_api.InstanceType) (err : option error)
(* recorder.Eventf *)
| Eventf (object : string) (eventtype reason messageFmt : string) (arg : option error).

Record world (S : Type) : Type := mkWorld {
  env : S;
  trace : list event
}.
Arguments mkWorld {S} _ _.
Arguments env {S} _.
Arguments trace {S} _.

(** A Go function that talks to the environment: it can panic, and it
    leaves the environment in a new state and the trace extended. *)
Definition M (S A : Type) : Type := world S -> go A * world S.

Definition ret {S A : Type} (a : A) : M S A := fun w => (Done a, w).

Definition bind {S A B : Type} (m : M S A) (f : A -> M S B) : M S B :=
  fun w =>
    match m w with
    | (Done a, w') => f a w'
    | (Panic, w') => (Panic, w')
    end.

Definition panic {S A : Type} : M S A := fun w => (Panic, w).

(** One call of a method [method] of the environment, recorded by [record]. *)
Definition call {S I O : Type} (method : I -> S -> (O * option error) * S)
    (record : I -> O -> option error -> event) (input : I) : M S (O * option error) :=
  fun w =>
    let '((output, err), s') := method input (env w) in
    (Done (output, err), mkWorld s' (trace w ++ [record input output err])).

(** An effect without an answer. *)
Definition emit {S : Type} (e : event) : M S unit :=
  fun w => (Done tt, mkWorld (env w) (trace w ++ [e])).

(** A pure computation that can panic. *)
Definition lift {S A : Type} (g : go A) : M S A := fun w => (g, w).

(** [wp m w Q]: running [m] in the world [w] ends, with a result or with
    a panic, in a world that [Q] accepts. *)
Definition wp {S A : Type} (m : M S A) (w : world S)
    (Q : go A -> world S -> Prop) : Prop :=
  Q (fst (m w)) (snd (m w)).

(** [m] only extends the trace, by events that satisfy [P]. *)
Definition quiet {S A : Type} (P : event -> Prop) (m : M S A) : Prop :=
  forall w,
    wp m w (fun _ w' => exists evs, trace w' = trace w ++ evs /\ Forall P evs).

(** Not a call of [RunInstances]. *)
Definition notRunInstances (e : event) : Prop :=
  match e with
  | RunInstancesCall _ _ _ => False
  | _ => True
  end.

(** Not a call of [DeletePlacementGroup]. *)
Definition notDeletePlacementGroup (e : event) : Prop :=
  match e with
  | DeletePlacementGroupCall _ _ _ => False
  | _ => True
  end.

Notation "'let*' p ':=' m 'in' k" := (bind m (fun p => k))
  (at level 10, p pattern, m at level 100, k at level 200).

(** ** Tags: [removeDuplicatedTags], [buildTagList] *)

Module Tags.

(** The body of the loop of [removeDuplicatedTags]: [m] is the map of the
    keys seen, [result] the slice built so far.  [*entry.Key] panics on
    a nil key. *)
Fixpoint removeDuplicatedTags_loop (tags : list ec2.Tag) (m : gmap string bool)
    (result : list ec2.Tag) : go (list ec2.Tag) :=
  match tags with
  | [] => Done result
  | entry :: rest =>
      match ec2.Tag_Key entry with
      | None => Panic
      | Some k =>
          match m !! k with
          | Some _ => removeDuplicatedTags_loop rest m result
          | None =>
              removeDuplicatedTags_loop rest (<[k := true]> m) (result ++ [entry])
          end
      end
  end.

Definition removeDuplicatedTags (tags : list ec2.Tag) : go (list ec2.Tag) :=
  removeDuplicatedTags_loop tags ∅ [].

Definition mergeInfrastructureAndMachineSpecTags
    (machineSpecTags : list machinev1beta1.TagSpecification) (infra : option Infrastructure)
    : list machinev1beta1.TagSpecification :=
  match infra with
  | None => machineSpecTags
  | Some i =>
      match InfrastructureStatus_PlatformStatus (Infrastructure_Status i) with
      | None => machineSpecTags
      | Some ps =>
          match PlatformStatus_AWS ps with
          | None => machineSpecTags
          | Some a =>
              match AWSPlatformStatus_ResourceTags a with
              | None => machineSpecTags
              | Some resourceTags =>
                  fold_left
                    (fun mergedList t =>
                       mergedList ++
                         [machinev1beta1.mkTagSpecification (AWSResourceTag_Key t)
                            (AWSResourceTag_Value t)])
                    resourceTags ([] ++ machineSpecTags)
              end
          end
      end
  end.

Definition buildTagList (machineName clusterID : string)
    (machineTags : list machinev1beta1.TagSpecification) (infra : option Infrastructure)
    : go (list ec2.Tag) :=
  let mergedTags := mergeInfrastructureAndMachineSpecTags machineTags infra in
  let rawTagList :=
    fold_left
      (fun rawTagList t =>
         if negb (HasPrefix (machinev1beta1.TagSpecification_Name t) "kubernetes.io/cluster/")
            && negb (String.eqb (machinev1beta1.TagSpecification_Name t) "Name")
         then rawTagList ++
                [ec2.tag (machinev1beta1.TagSpecification_Name t)
                   (machinev1beta1.TagSpecification_Value t)]
         else rawTagList)
      mergedTags [] in
  let rawTagList :=
    rawTagList ++ [ ec2.tag ("kubernetes.io/cluster/" +:+ clusterID) "owned";
                    ec2.tag "Name" machineName ] in
  removeDuplicatedTags rawTagList.

(** *** Vocabulary of the specification of [buildTagList] *)

(** The elements of [l] whose key does not occur earlier in [l], in the
    order of [l]. *)
Fixpoint first_occurrences {A : Type} (key : A -> string) (l : list A) : list A :=
  match l with
  | [] => []
  | x :: r => x :: filter (fun y => key y <> key x) (first_occurrences key r)
  end.

(** The keys no user tag may carry. *)
Definition reserved (name : string) : Prop :=
  HasPrefix name "kubernetes.io/cluster/" = true \/ name = "Name".

#[global] Instance reserved_dec name : Decision (reserved name).
Proof. unfold reserved. apply _. Defined.

(** The resource tags of the infrastructure object, as tag
    specifications; none when a level of the object is absent. *)
Definition infraResourceTags (infra : option Infrastructure)
    : list machinev1beta1.TagSpecification :=
  match infra with
  | Some i =>
      match InfrastructureStatus_PlatformStatus (Infrastructure_Status i) with
      | Some ps =>
          match PlatformStatus_AWS ps with
          | Some a =>
              match AWSPlatformStatus_ResourceTags a with
              | Some resourceTags =>
                  map (fun t =>
                         machinev1beta1.mkTagSpecification (AWSResourceTag_Key t)
                           (AWSResourceTag_Value t))
                    resourceTags
              | None => []
              end
          | None => []
          end
      | None => []
      end
  | None => []
  end.

(** The key of a tag of the SDK. *)
Definition keyOf (t : ec2.Tag) : string := StringValue (ec2.Tag_Key t).

Definition toTag (t : machinev1beta1.TagSpecification) : ec2.Tag :=
  ec2.tag (machinev1beta1.TagSpecification_Name t) (machinev1beta1.TagSpecification_Value t).

Definition clusterTag (clusterID : string) : ec2.Tag :=
  ec2.tag ("kubernetes.io/cluster/" +:+ clusterID) "owned".

Definition nameTag (machineName : string) : ec2.Tag := ec2.tag "Name" machineName.

End Tags.

(** ** Regular expressions, as far as [regexp] is used

    The syntax of the patterns that occur, and [MatchString].  A string is
    matched byte by byte; the patterns below match ASCII bytes only, for
    which bytes and runes agree. *)

Module regexp.

Inductive Regexp : Type :=
| BeginText                                  (* ^ *)
| EndText                                    (* $, without the flag m *)
| Literal (c : ascii)
| CharClass (ranges : list (ascii * ascii))  (* [a-bc-d] *)
| Concat (r1 r2 : Regexp)
| Repeat (r : Regexp) (n : nat).             (* r{n} *)

Definition in_range (c : ascii) (lohi : ascii * ascii) : bool :=
  (nat_of_ascii (fst lohi) <=? nat_of_ascii c)%nat
  && (nat_of_ascii c <=? nat_of_ascii (snd lohi))%nat.

Definition in_class (ranges : list (ascii * ascii)) (c : ascii) : bool :=
  existsb (in_range c) ranges.

(** [matches r at_start s k]: some prefix of [s] matches [r], and the
    continuation [k] accepts what follows; [at_start] tells whether [s]
    begins at the beginning of the text. *)
Fixpoint matches (r : Regexp) (at_start : bool) (s : string)
    (k : bool -> string -> bool) {struct r} : bool :=
  match r with
  | BeginText => at_start && k at_start s
  | EndText =>
      match s with
      | EmptyString => k at_start s
      | String _ _ => false
      end
  | Literal c =>
      match s with
      | String c' s' => Ascii.eqb c c' && k false s'
      | EmptyString => false
      end
  | CharClass ranges =>
      match s with
      | String c' s' => in_class ranges c' && k false s'
      | EmptyString => false
      end
  | Concat r1 r2 => matches r1 at_start s (fun b s' => matches r2 b s' k)
  | Repeat r1 n =>
      (fix rep (n : nat) (b : bool) (s : string) {struct n} : bool :=
         match n with
         | O => k b s
         | S n' => matches r1 b s (fun b' s' => rep n' b' s')
         end) n at_start s
  end.

(** A match may begin at any position of the text. *)
Fixpoint search (r : Regexp) (at_start : bool) (s : string) : bool :=
  matches r at_start s (fun _ _ => true)
  || match s with
     | EmptyString => false
     | String _ s' => search r false s'
     end.

Definition MatchString (re : Regexp) (s : string) : bool := search re true s.

(** *** Vocabulary of the specification *)

(** What is left of [s] after [n] characters of the class. *)
Fixpoint strip_class (ranges : list (ascii * ascii)) (n : nat) (s : string)
    : option string :=
  match n with
  | O => Some s
  | S n' =>
      match s with
      | String c s' => if in_class ranges c then strip_class ranges n' s' else None
      | EmptyString => None
      end
  end.

End regexp.

(** ** The instance launcher ([instances.go]): market options, metadata
       options, capacity reservation *)

Module Instances.
Import machinev1beta1.

Definition getInstanceMarketOptionsRequest (providerConfig : AWSMachineProviderConfig)
    : go (AWSMachineProviderConfig
          * (option ec2.InstanceMarketOptionsRequest * option error)) :=
  if negb (String.eqb (MarketType providerConfig) "")
     && String.eqb (MarketType providerConfig) MarketTypeCapacityBlock
     && bool_decide (SpotMarketOptions_ providerConfig <> None)
  then Done (providerConfig,
             (None, Some (Errorf "can't create spot capacity-blocks, remove spot market request")))
  else
    (* Infer MarketType if not explicitly set *)
    let providerConfig :=
      if bool_decide (SpotMarketOptions_ providerConfig <> None)
         && String.eqb (MarketType providerConfig) ""
      then set_MarketType providerConfig MarketTypeSpot
      else providerConfig in
    let providerConfig :=
      if String.eqb (MarketType providerConfig) ""
      then set_MarketType providerConfig MarketTypeOnDemand
      else providerConfig in
    if String.eqb (MarketType providerConfig) MarketTypeCapacityBlock then
      if String.eqb (CapacityReservationID providerConfig) ""
      then Done (providerConfig,
                 (None, Some (Errorf "capacityReservationID is required when CapacityBlock is enabled")))
      else Done (providerConfig,
                 (Some (ec2.mkInstanceMarketOptionsRequest
                          (Some ec2.MarketTypeCapacityBlock) None), None))
    else if String.eqb (MarketType providerConfig) MarketTypeSpot then
      let spotOpts :=
        ec2.mkSpotMarketOptions
          (Some ec2.InstanceInterruptionBehaviorTerminate) None
          (Some ec2.SpotInstanceTypeOneTime) in
      (* providerConfig.SpotMarketOptions.MaxPrice *)
      match SpotMarketOptions_ providerConfig with
      | None => Panic
      | Some spotMarketOptions =>
          let maxPrice := StringValue (SpotMarketOptions_MaxPrice spotMarketOptions) in
          let spotOpts :=
            if negb (String.eqb maxPrice "")
            then ec2.mkSpotMarketOptions
                   (ec2.SpotOptions_InstanceInterruptionBehavior spotOpts)
                   (Some maxPrice)
                   (ec2.SpotOptions_SpotInstanceType spotOpts)
            else spotOpts in
          Done (providerConfig,
                (Some (ec2.mkInstanceMarketOptionsRequest
                         (Some ec2.MarketTypeSpot) (Some spotOpts)), None))
      end
    else if String.eqb (MarketType providerConfig) MarketTypeOnDemand then
      (* Instance is on-demand or empty *)
      Done (providerConfig, (None, None))
    else
      Done (providerConfig, (None, Some (Errorf "invalid MarketType %q"))).

Definition getInstanceMetadataOptionsRequest (providerConfig : AWSMachineProviderConfig)
    : option ec2.InstanceMetadataOptionsRequest :=
  let imdsOptions := ec2.mkInstanceMetadataOptionsRequest None in
  let authentication :=
    MetadataServiceOptions_Authentication (MetadataServiceOptions_ providerConfig) in
  let imdsOptions :=
    if String.eqb authentication "" then imdsOptions
    else if String.eqb authentication MetadataServiceAuthenticationOptional
    then ec2.mkInstanceMetadataOptionsRequest (Some ec2.HttpTokensStateOptional)
    else if String.eqb authentication MetadataServiceAuthenticationRequired
    then ec2.mkInstanceMetadataOptionsRequest (Some ec2.HttpTokensStateRequired)
    else imdsOptions in
  match ec2.MetadataOptions_HttpTokens imdsOptions with
  | None => None
  | Some _ => Some imdsOptions
  end.

(** The pattern [^cr-[0-9a-f]{17}$]. *)
Definition capacityReservationID_re : regexp.Regexp :=
  regexp.Concat regexp.BeginText
    (regexp.Concat (regexp.Literal "c")
       (regexp.Concat (regexp.Literal "r")
          (regexp.Concat (regexp.Literal "-")
             (regexp.Concat
                (regexp.Repeat (regexp.CharClass [("0", "9"); ("a", "f")]%char) 17)
                regexp.EndText)))).

Definition getCapacityReservationSpecification (capacityReservationID : string)
    : option ec2.CapacityReservationSpecification * option error :=
  if String.eqb capacityReservationID "" then
    (* Not targeting any specific Capacity Reservation *)
    (None, None)
  else
    let re := capacityReservationID_re in
    if negb (regexp.MatchString re capacityReservationID) then
      (None,
       Some (InvalidMachineConfiguration
               (Errorf "Invalid value for capacityReservationId: %q, it must start with 'cr-' and be exactly 20 characters long with 17 hexadecimal characters.")))
    else
      (Some (ec2.mkCapacityReservationSpecification
               (Some (ec2.mkCapacityReservationTarget (Some capacityReservationID)))),
       None).

Definition zoneTypeWavelengthZone : string := "wavelength-zone".

Definition buildEC2Filters (inputFilters : list Filter) : list ec2.Filter :=
  map (fun f => ec2.mkFilter (Some (Filter_Name f)) (Filter_Values f)) inputFilters.

Section Launcher.

Context {S : Type}.

(** [time.Parse(time.RFC3339, _)]: the instant, in nanoseconds, and the
    error. *)
Variable time_Parse_RFC3339 : string -> metav1.Time * option error.

(** [base64.StdEncoding.EncodeToString]. *)
Variable base64_EncodeToString : string -> string.

(** [getClusterID] of the package ([utils.go]): the cluster ID in the
    labels of the machine, and whether it is there. *)
Variable getClusterID : Machine -> string * bool.

(** [groupID := *g.GroupId] for every group of the answer. *)
Fixpoint groupIDs (groups : list ec2.SecurityGroup) : go (list string) :=
  match groups with
  | [] => Done []
  | g :: rest =>
      match ec2.SecurityGroup_GroupId g with
      | None => Panic
      | Some groupID => go_bind (groupIDs rest) (fun ids => Done (groupID :: ids))
      end
  end.

Fixpoint getSecurityGroupsIDs_loop (securityGroups : list AWSResourceReference)
    (client : awsclient.Client S) (securityGroupIDs : list string)
    : M S (list string * option error) :=
  match securityGroups with
  | [] =>
      match securityGroupIDs with
      | [] => ret ([], Some (Errorf "no security group found"))
      | _ => ret (securityGroupIDs, None)
      end
  | g :: rest =>
      match AWSResourceReference_ID g with
      | Some id =>
          (* ID has priority *)
          getSecurityGroupsIDs_loop rest client (securityGroupIDs ++ [id])
      | None =>
          match AWSResourceReference_Filters g with
          | Some filters =>
              let describeSecurityGroupsRequest :=
                ec2.mkDescribeSecurityGroupsInput (buildEC2Filters filters) in
              let* (describeSecurityGroupsResult, err) :=
                call (awsclient.DescribeSecurityGroups client) DescribeSecurityGroupsCall
                  describeSecurityGroupsRequest in
              match err with
              | Some e => ret ([], Some (Wrapf "error describing security groups: %v" e))
              | None =>
                  match describeSecurityGroupsResult with
                  | None => panic
                  | Some result =>
                      let* ids :=
                        lift (groupIDs
                                (ec2.DescribeSecurityGroupsOutput_SecurityGroups result)) in
                      getSecurityGroupsIDs_loop rest client (securityGroupIDs ++ ids)
                  end
              end
          | None => getSecurityGroupsIDs_loop rest client securityGroupIDs
          end
      end
  end.

Definition getSecurityGroupsIDs (securityGroups : list AWSResourceReference)
    (client : awsclient.Client S) : M S (list string * option error) :=
  getSecurityGroupsIDs_loop securityGroups client [].

(** [getAvalabilityZoneFromSubnetID] gets an availability zone from the
    specified subnet id. *)
Definition getAvalabilityZoneFromSubnetID (subnetID : string)
    (client : awsclient.Client S) : M S (string * option error) :=
  let* (result, err) :=
    call (awsclient.DescribeSubnets client) DescribeSubnetsCall
      (ec2.mkDescribeSubnetsInput (Some false) [] [subnetID]) in
  match err with
  | Some e => ret ("", Some (Wrapf "could not describe a subnet: %w" e))
  | None =>
      match result with
      | None => ret ("", Some (Errorf "resulting subnet is not expected to be nil"))
      | Some result =>
          match ec2.DescribeSubnetsOutput_Subnets result with
          | subnet :: _ => ret (StringValue (ec2.Subnet_AvailabilityZone subnet), None)
          | [] =>
              ret ("", Some (Errorf "could not get an availability zone from a subnet id"))
          end
      end
  end.

(** [getAvalabilityZoneTypeFromZoneName] gets an availability zone type
    from the specified zone name. *)
Definition getAvalabilityZoneTypeFromZoneName (zoneName : string)
    (client : awsclient.Client S) : M S (string * option error) :=
  let* (result, err) :=
    call (awsclient.DescribeAvailabilityZones client) DescribeAvailabilityZonesCall
      (ec2.mkDescribeAvailabilityZonesInput (Some false) [zoneName]) in
  match err with
  | Some e => ret ("", Some (Wrapf "could not describe a zones: %w" e))
  | None =>
      match result with
      | None => ret ("", Some (Errorf "resulting zones is not expected to be nil"))
      | Some result =>
          match ec2.DescribeAvailabilityZonesOutput_AvailabilityZones result with
          | zone :: _ => ret (StringValue (ec2.AvailabilityZone_ZoneType zone), None)
          | [] =>
              ret ("", Some (Errorf "could not get an availability zone type from a zone name"))
          end
      end
  end.

(** [subnetID := *n.SubnetId] for every subnet of the answer. *)
Fixpoint subnetIDsOf (subnets : list ec2.Subnet) : go (list string) :=
  match subnets with
  | [] => Done []
  | n :: rest =>
      match ec2.Subnet_SubnetId n with
      | None => Panic
      | Some subnetID => go_bind (subnetIDsOf rest) (fun ids => Done (subnetID :: ids))
      end
  end.

Definition getSubnetIDs (machine : string * string) (subnet : AWSResourceReference)
    (availabilityZone : string) (client : awsclient.Client S)
    : M S (list string * option error) :=
  let finish (subnetIDs : list string) : M S (list string * option error) :=
    match subnetIDs with
    | [] => ret ([], Some (Errorf "no subnet IDs were found"))
    | _ => ret (subnetIDs, None)
    end in
  match AWSResourceReference_ID subnet with
  | Some id =>
      (* ID has priority *)
      let subnetIDs := [id] in
      let* (availabilityZoneFromSubnetID, err) :=
        getAvalabilityZoneFromSubnetID id client in
      match err with
      | Some _ => ret (subnetIDs, None)
      | None => finish subnetIDs
      end
  | None =>
      let describe (filters : list Filter) : M S (list string * option error) :=
        let filters := filters ++ default [] (AWSResourceReference_Filters subnet) in
        let describeSubnetRequest :=
          ec2.mkDescribeSubnetsInput None (buildEC2Filters filters) [] in
        let* (describeSubnetResult, err) :=
          call (awsclient.DescribeSubnets client) DescribeSubnetsCall
            describeSubnetRequest in
        match err with
        | Some e =>
            let* _ := emit (RegisterFailedInstanceCreate (fst machine) (snd machine)
                              "error describing subnets") in
            ret ([], Some (Wrapf "error describing subnets: %v" e))
        | None =>
            match describeSubnetResult with
            | None => panic
            | Some result =>
                let* subnetIDs :=
                  lift (subnetIDsOf (ec2.DescribeSubnetsOutput_Subnets result)) in
                finish subnetIDs
            end
        end in
      if negb (String.eqb availabilityZone "") then
        let* (_, err) :=
          call (awsclient.DescribeAvailabilityZones client) DescribeAvailabilityZonesCall
            (ec2.mkDescribeAvailabilityZonesInput None [availabilityZone]) in
        match err with
        | Some e =>
            let* _ := emit (RegisterFailedInstanceCreate (fst machine) (snd machine)
                              "error describing availability zones") in
            ret ([], Some (Wrapf "error describing availability zones: %v" e))
        | None => describe [mkFilter "availabilityZone" [availabilityZone]]
        end
      else describe []
  end.

(** The loop of [getAMI] over the images after the first. *)
Fixpoint getAMI_loop (images : list ec2.Image) (latestImage : ec2.Image)
    (latestTime : metav1.Time) : go (option string * option error) :=
  match images with
  | [] => Done (ec2.Image_ImageId latestImage, None)
  | image :: rest =>
      match ec2.Image_CreationDate image with
      | None => Panic
      | Some creationDate =>
          let (imageTime, err) := time_Parse_RFC3339 creationDate in
          match err with
          | Some e =>
              match ec2.Image_ImageId image with
              | None => Panic
              | Some _ => Done (None, Some (Wrapf "unable to parse time for %q AMI: %v" e))
              end
          | None =>
              if (latestTime <? imageTime)%Z
              then getAMI_loop rest image imageTime
              else getAMI_loop rest latestImage latestTime
          end
      end
  end.

Definition getAMI (machine : string * string) (AMI : AWSResourceReference)
    (client : awsclient.Client S) : M S (option string * option error) :=
  match AWSResourceReference_ID AMI with
  | Some amiID => ret (Some amiID, None)
  | None =>
      match AWSResourceReference_Filters AMI with
      | Some ((_ :: _) as filters) =>
          let describeImagesRequest :=
            ec2.mkDescribeImagesInput (buildEC2Filters filters) [] in
          let* (describeAMIResult, err) :=
            call (awsclient.DescribeImages client) DescribeImagesCall
              describeImagesRequest in
          match err with
          | Some e =>
              let* _ := emit (RegisterFailedInstanceCreate (fst machine) (snd machine)
                                "error describing AMI") in
              ret (None, Some (Wrapf "error describing AMI: %v" e))
          | None =>
              match describeAMIResult with
              | None => panic
              | Some result =>
                  match ec2.DescribeImagesOutput_Images result with
                  | [] => ret (None, Some (Errorf "no image for given filters not found"))
                  | latestImage :: rest =>
                      match ec2.Image_CreationDate latestImage with
                      | None => panic
                      | Some creationDate =>
                          let (latestTime, err) := time_Parse_RFC3339 creationDate in
                          match err with
                          | Some e =>
                              match ec2.Image_ImageId latestImage with
                              | None => panic
                              | Some _ =>
                                  ret (None,
                                       Some (Wrapf "unable to parse time for %q AMI: %v" e))
                              end
                          | None => lift (getAMI_loop rest latestImage latestTime)
                          end
                      end
                  end
              end
          end
      | _ => ret (None, Some (Errorf "AMI ID or AMI filters need to be specified"))
      end
  end.

(** The loop of [getBlockDeviceMappings]; [rootDeviceName] is
    [describeAMIResult.Images[0].RootDeviceName]. *)
Fixpoint getBlockDeviceMappings_loop (blockDeviceMappingSpecs : list BlockDeviceMappingSpec)
    (rootDeviceName : option string) (rootDeviceFound : bool)
    (blockDeviceMappings : list ec2.BlockDeviceMapping)
    : list ec2.BlockDeviceMapping * option error :=
  match blockDeviceMappingSpecs with
  | [] => (blockDeviceMappings, None)
  | blockDeviceMappingSpec :: rest =>
      match BlockDeviceMappingSpec_EBS blockDeviceMappingSpec with
      | None =>
          getBlockDeviceMappings_loop rest rootDeviceName rootDeviceFound
            blockDeviceMappings
      | Some ebs =>
          let volumeSize := EBS_VolumeSize ebs in
          let volumeType := EBS_VolumeType ebs in
          let deleteOnTermination := true in
          let named (deviceName : option string) (rootDeviceFound : bool) :=
            (* IOPS settings are only valid on IO1, IO2 and GP3 block devices *)
            let iops :=
              if String.eqb (StringValue volumeType) ec2.VolumeTypeIo1
                 || String.eqb (StringValue volumeType) ec2.VolumeTypeIo2
                 || String.eqb (StringValue volumeType) ec2.VolumeTypeGp3
              then
                match EBS_Iops ebs with
                | Some n => if (0 <? n)%Z then Some n else None
                | None => None
                end
              else None in
            let kmsKeyId :=
              if negb (String.eqb (StringValue (AWSResourceReference_ID (EBS_KMSKey ebs))) "")
              then AWSResourceReference_ID (EBS_KMSKey ebs)
              else if negb (String.eqb
                              (StringValue (AWSResourceReference_ARN (EBS_KMSKey ebs))) "")
              then AWSResourceReference_ARN (EBS_KMSKey ebs)
              else None in
            let blockDeviceMapping :=
              ec2.mkBlockDeviceMapping deviceName
                (Some (ec2.mkEbsBlockDevice volumeSize volumeType (EBS_Encrypted ebs)
                         (Some deleteOnTermination) iops kmsKeyId)) in
            getBlockDeviceMappings_loop rest rootDeviceName rootDeviceFound
              (blockDeviceMappings ++ [blockDeviceMapping]) in
          match BlockDeviceMappingSpec_DeviceName blockDeviceMappingSpec with
          | None =>
              if rootDeviceFound
              then ([], Some (Errorf "non root device must have name"))
              else named rootDeviceName true
          | Some deviceName => named (Some deviceName) rootDeviceFound
          end
      end
  end.

Definition getBlockDeviceMappings (machine : string * string)
    (blockDeviceMappingSpecs : list BlockDeviceMappingSpec) (AMI : string)
    (client : awsclient.Client S)
    : M S (list ec2.BlockDeviceMapping * option error) :=
  match blockDeviceMappingSpecs with
  | [] => ret ([], None)
  | _ =>
      (* Get image object to get the RootDeviceName *)
      let describeImagesRequest := ec2.mkDescribeImagesInput [] [AMI] in
      let* (describeAMIResult, err) :=
        call (awsclient.DescribeImages client) DescribeImagesCall describeImagesRequest in
      match err with
      | Some e =>
          let* _ := emit (RegisterFailedInstanceCreate (fst machine) (snd machine)
                            "error describing AMI") in
          ret ([], Some (Wrapf "error describing AMI: %v" e))
      | None =>
          match describeAMIResult with
          | None => panic
          | Some result =>
              match ec2.DescribeImagesOutput_Images result with
              | [] => ret ([], Some (Errorf "no image for given AMI not found"))
              | image :: _ =>
                  ret (getBlockDeviceMappings_loop blockDeviceMappingSpecs
                         (ec2.Image_RootDeviceName image) false [])
              end
          end
      end
  end.

(** [constructInstancePlacement] configures the placement options for the
    RunInstances request. *)
Definition constructInstancePlacement (machine : Machine)
    (machineProviderConfig : AWSMachineProviderConfig)
    : option ec2.Placement * option error :=
  let availabilityZone :=
    if negb (String.eqb (Placement_AvailabilityZone (Placement_ machineProviderConfig)) "")
       && bool_decide (AWSResourceReference_ID (Subnet machineProviderConfig) = None)
    then Some (Placement_AvailabilityZone (Placement_ machineProviderConfig))
    else None in
  let groupName :=
    if negb (String.eqb (PlacementGroupName machineProviderConfig) "")
    then Some (PlacementGroupName machineProviderConfig)
    else None in
  let partitionNumber :=
    if negb (String.eqb (PlacementGroupName machineProviderConfig) "")
    then PlacementGroupPartition machineProviderConfig
    else None in
  let instanceTenancy := Placement_Tenancy (Placement_ machineProviderConfig) in
  let finish (tenancy : option string) : option ec2.Placement * option error :=
    match availabilityZone, groupName, partitionNumber, tenancy with
    | None, None, None, None =>
        (* If the placement is empty, we should just return a nil *)
        (None, None)
    | _, _, _, _ =>
        (Some (ec2.mkPlacement availabilityZone groupName partitionNumber tenancy), None)
    end in
  if String.eqb instanceTenancy "" then finish None
  else if String.eqb instanceTenancy DefaultTenancy
          || String.eqb instanceTenancy DedicatedTenancy
          || String.eqb instanceTenancy HostTenancy
  then finish (Some instanceTenancy)
  else (None, Some (InvalidMachineConfiguration
                      (Errorf "invalid instance tenancy: %s. Allowed options are: %s,%s,%s"))).

(** Whether [err] is an [awserr.RequestFailure] whose status code, in
    decimal, begins with a 4. *)
Definition isRequestFailure4 (err : error) : bool :=
  match err with
  | RequestFailure statusCode _ => HasPrefix (Itoa statusCode) "4"
  | _ => false
  end.

End Launcher.

Section Launch.

Context {S : Type}.
Variable time_Parse_RFC3339 : string -> metav1.Time * option error.
Variable base64_EncodeToString : string -> string.
Variable getClusterID : Machine -> string * bool.

Definition launchInstance (machine : Machine)
    (machineProviderConfig : AWSMachineProviderConfig) (userData : string)
    (awsClient : awsclient.Client S) (infra : option configv1.Infrastructure)
    : M S (AWSMachineProviderConfig * (option ec2.Instance * option error)) :=
  let machineKey := (Machine_Name machine, Machine_Namespace machine) in
  let fail (e : error) : M S (AWSMachineProviderConfig * (option ec2.Instance * option error)) :=
    ret (machineProviderConfig, (None, Some e)) in
  let* (amiID, err) :=
    getAMI time_Parse_RFC3339 machineKey (AMI machineProviderConfig) awsClient in
  match err with
  | Some e => fail (InvalidMachineConfiguration (Wrapf "error getting AMI: %v" e))
  | None =>
  let* (securityGroupsIDs, err) :=
    getSecurityGroupsIDs (SecurityGroups machineProviderConfig) awsClient in
  match err with
  | Some e =>
      fail (InvalidMachineConfiguration (Wrapf "error getting security groups IDs: %v" e))
  | None =>
  let* (subnetIDs, err) :=
    getSubnetIDs machineKey (Subnet machineProviderConfig)
      (Placement_AvailabilityZone (Placement_ machineProviderConfig)) awsClient in
  match err with
  | Some e => fail (InvalidMachineConfiguration (Wrapf "error getting subnet IDs: %v" e))
  | None =>
  (* build list of networkInterfaces (just 1 for now) *)
  match subnetIDs with
  | [] => panic
  | subnetID :: _ =>
  let networkInterface :=
    ec2.mkInstanceNetworkInterfaceSpecification
      (Some (DeviceIndex machineProviderConfig)) (Some subnetID) securityGroupsIDs
      None None None in
  (* Public IP address assignment to instances created in Wavelength
     Zones' subnet requires the attribute AssociateCarrierIpAddress
     instead of AssociatePublicIpAddress. *)
  let* (networkInterface, err) :=
    match PublicIP machineProviderConfig with
    | Some _ =>
        let* (zoneName, err) := getAvalabilityZoneFromSubnetID subnetID awsClient in
        match err with
        | Some e =>
            ret (networkInterface,
                 Some (InvalidMachineConfiguration
                         (Wrapf "error discoverying zone type: %v" e)))
        | None =>
            let* (zoneType, err) := getAvalabilityZoneTypeFromZoneName zoneName awsClient in
            match err with
            | Some e =>
                ret (networkInterface,
                     Some (InvalidMachineConfiguration
                             (Wrapf "error discoverying zone type: %v" e)))
            | None =>
                if String.eqb zoneType zoneTypeWavelengthZone
                then ret (ec2.mkInstanceNetworkInterfaceSpecification
                            (ec2.NetworkInterface_DeviceIndex networkInterface)
                            (ec2.NetworkInterface_SubnetId networkInterface)
                            (ec2.NetworkInterface_Groups networkInterface)
                            (PublicIP machineProviderConfig)
                            (ec2.NetworkInterface_AssociatePublicIpAddress networkInterface)
                            (ec2.NetworkInterface_InterfaceType networkInterface),
                          None)
                else ret (ec2.mkInstanceNetworkInterfaceSpecification
                            (ec2.NetworkInterface_DeviceIndex networkInterface)
                            (ec2.NetworkInterface_SubnetId networkInterface)
                            (ec2.NetworkInterface_Groups networkInterface)
                            (ec2.NetworkInterface_AssociateCarrierIpAddress networkInterface)
                            (PublicIP machineProviderConfig)
                            (ec2.NetworkInterface_InterfaceType networkInterface),
                          None)
            end
        end
    | None => ret (networkInterface, None)
    end in
  match err with
  | Some e => fail e
  | None =>
  let (interfaceType, err) :=
    let networkInterfaceType := NetworkInterfaceType machineProviderConfig in
    if String.eqb networkInterfaceType AWSENANetworkInterfaceType
    then (Some "interface", None)
    else if String.eqb networkInterfaceType AWSEFANetworkInterfaceType
    then (Some "efa", None)
    else if String.eqb networkInterfaceType ""
    then (ec2.NetworkInterface_InterfaceType networkInterface, None)
    else (None,
          Some (InvalidMachineConfiguration
                  (Errorf "invalid value for networkInterfaceType %q, valid values are '', 'ENA' and 'EFA'"))) in
  match err with
  | Some e => fail e
  | None =>
  let networkInterfaces :=
    [ ec2.mkInstanceNetworkInterfaceSpecification
        (ec2.NetworkInterface_DeviceIndex networkInterface)
        (ec2.NetworkInterface_SubnetId networkInterface)
        (ec2.NetworkInterface_Groups networkInterface)
        (ec2.NetworkInterface_AssociateCarrierIpAddress networkInterface)
        (ec2.NetworkInterface_AssociatePublicIpAddress networkInterface)
        interfaceType ] in
  match amiID with
  | None => panic
  | Some amiIDValue =>
  let* (blockDeviceMappings, err) :=
    getBlockDeviceMappings machineKey (BlockDevices machineProviderConfig) amiIDValue
      awsClient in
  match err with
  | Some e =>
      fail (InvalidMachineConfiguration (Wrapf "error getting blockDeviceMappings: %v" e))
  | None =>
  let (clusterID, ok) := getClusterID machine in
  if negb ok
  then fail (InvalidMachineConfiguration
               (Errorf "Unable to get cluster ID for machine: %q"))
  else
  (* Add tags to the created machine *)
  let* tagList :=
    lift (Tags.buildTagList (Machine_Name machine) clusterID (Tags machineProviderConfig)
            infra) in
  let tagInstance := ec2.mkTagSpecification (Some "instance") tagList in
  let tagVolume := ec2.mkTagSpecification (Some "volume") tagList in
  let userDataEnc := base64_EncodeToString userData in
  let iamInstanceProfile :=
    match IAMInstanceProfile machineProviderConfig with
    | Some profile =>
        match AWSResourceReference_ID profile with
        | Some id => Some (ec2.mkIamInstanceProfileSpecification (Some id))
        | None => None
        end
    | None => None
    end in
  let (placement, err) := constructInstancePlacement machine machineProviderConfig in
  match err with
  | Some e => fail e
  | None =>
  let (capacityReservationSpecification, err) :=
    getCapacityReservationSpecification (CapacityReservationID machineProviderConfig) in
  match err with
  | Some e => fail e
  | None =>
  let* (machineProviderConfig', marketOptions) :=
    lift (getInstanceMarketOptionsRequest machineProviderConfig) in
  let (instanceMarketOptions, err) := (marketOptions : _ * _) in
  match err with
  | Some e => ret (machineProviderConfig', (None, Some e))
  | None =>
  let inputConfig :=
    ec2.mkRunInstancesInput
      amiID
      (Some (InstanceType machineProviderConfig'))
      (* Only a single instance of the AWS instance allowed *)
      (Some 1%Z)
      (Some 1%Z)
      (KeyName machineProviderConfig')
      iamInstanceProfile
      [tagInstance; tagVolume]
      networkInterfaces
      (Some userDataEnc)
      placement
      (getInstanceMetadataOptionsRequest machineProviderConfig')
      instanceMarketOptions
      capacityReservationSpecification
      (match blockDeviceMappings with
       | [] => None
       | _ => Some blockDeviceMappings
       end) in
  let* (runResult, err) :=
    call (awsclient.RunInstances awsClient) RunInstancesCall inputConfig in
  match err with
  | Some e =>
      let* _ := emit (RegisterFailedInstanceCreate (Machine_Name machine)
                        (Machine_Namespace machine) "error creating EC2 instance") in
      (* we return InvalidMachineConfiguration for 4xx errors which by
         convention signal client misconfiguration *)
      if isRequestFailure4 e
      then ret (machineProviderConfig',
                (None, Some (InvalidMachineConfiguration
                               (Errorf "error launching instance: %v"))))
      else ret (machineProviderConfig',
                (None, Some (CreateMachine (Wrapf "error creating EC2 instance: %v" e))))
  | None =>
      match runResult with
      | Some (ec2.mkReservation [instance]) =>
          ret (machineProviderConfig', (Some instance, None))
      | _ =>
          ret (machineProviderConfig',
               (None, Some (CreateMachine (Errorf "unexpected reservation creating instance"))))
      end
  end end end end end end end end end end end end.

End Launch.

(** *** Vocabulary of the specification *)

(** The instant an image was created at, when its creation date is there
    and parses. *)
Definition creationTime (time_Parse_RFC3339 : string -> metav1.Time * option error)
    (image : ec2.Image) : option metav1.Time :=
  match ec2.Image_CreationDate image with
  | Some creationDate =>
      match time_Parse_RFC3339 creationDate with
      | (t, None) => Some t
      | (_, Some _) => None
      end
  | None => None
  end.

(** [image], at the index [i] of [images], is the newest image and the
    first among the newest: no image is newer and every image before it
    is strictly older. *)
Definition newest_first (time_Parse_RFC3339 : string -> metav1.Time * option error)
    (images : list ec2.Image) (i : nat) (image : ec2.Image) : Prop :=
  images !! i = Some image
  /\ exists t, creationTime time_Parse_RFC3339 image = Some t
      /\ (forall j image' t', images !! j = Some image' ->
            creationTime time_Parse_RFC3339 image' = Some t' -> (t' <= t)%Z)
      /\ (forall j image' t', (j < i)%nat -> images !! j = Some image' ->
            creationTime time_Parse_RFC3339 image' = Some t' -> (t' < t)%Z).

(** How the public IP of [machineProviderConfig] shows in the network
    interface [networkInterface] of a request, given the events [pre] that
    precede the request: without a public IP neither attribute is set;
    with one, the zone of the subnet of the interface and the type of this
    zone were looked up, in this order, and the type decides which of the
    two attributes carries the public IP, the other being unset. *)
Definition publicIP_resolved (machineProviderConfig : AWSMachineProviderConfig)
    (pre : list event) (networkInterface : ec2.InstanceNetworkInterfaceSpecification)
    : Prop :=
  match PublicIP machineProviderConfig with
  | None =>
      ec2.NetworkInterface_AssociateCarrierIpAddress networkInterface = None
      /\ ec2.NetworkInterface_AssociatePublicIpAddress networkInterface = None
  | Some publicIP =>
      exists pre1 pre2 subnetID subnets subnet zones zone,
        pre = pre1
              ++ DescribeSubnetsCall
                   (ec2.mkDescribeSubnetsInput (Some false) [] [subnetID])
                   (Some subnets) None
              :: DescribeAvailabilityZonesCall
                   (ec2.mkDescribeAvailabilityZonesInput (Some false)
                      [StringValue (ec2.Subnet_AvailabilityZone subnet)])
                   (Some zones) None
              :: pre2
        /\ ec2.NetworkInterface_SubnetId networkInterface = Some subnetID
        /\ head (ec2.DescribeSubnetsOutput_Subnets subnets) = Some subnet
        /\ head (ec2.DescribeAvailabilityZonesOutput_AvailabilityZones zones) = Some zone
        /\ if String.eqb (StringValue (ec2.AvailabilityZone_ZoneType zone))
                "wavelength-zone"
           then ec2.NetworkInterface_AssociateCarrierIpAddress networkInterface
                = Some publicIP
                /\ ec2.NetworkInterface_AssociatePublicIpAddress networkInterface = None
           else ec2.NetworkInterface_AssociatePublicIpAddress networkInterface
                = Some publicIP
                /\ ec2.NetworkInterface_AssociateCarrierIpAddress networkInterface = None
  end.

(** The run from the world [w] has reached the world [w'] without calling
    [RunInstances], and its events satisfy [J]. *)
Definition so_far {S : Type} (w w' : world S) (J : list event -> Prop) : Prop :=
  exists evs, trace w' = trace w ++ evs /\ Forall notRunInstances evs /\ J evs.

(** What a run of [launchInstance] that emitted the events [evs] and
    ended with [r] looks like.  Either [RunInstances] was not called, and
    the run panicked or returned an error; or it was called once, for one
    instance and with one network interface, and the run returned the
    instance of the reservation when the call succeeded with exactly one
    instance, and an error otherwise. *)
Definition launched (machineProviderConfig : AWSMachineProviderConfig)
    (evs : list event)
    (r : go (AWSMachineProviderConfig * (option ec2.Instance * option error))) : Prop :=
  (Forall notRunInstances evs
   /\ (r = Panic \/ exists config e, r = Done (config, (None, Some e))))
  \/ (exists pre input output err post networkInterface,
        evs = pre ++ RunInstancesCall input output err :: post
        /\ Forall notRunInstances pre /\ Forall notRunInstances post
        /\ ec2.RunInstancesInput_MinCount input = Some 1%Z
        /\ ec2.RunInstancesInput_MaxCount input = Some 1%Z
        /\ ec2.RunInstancesInput_NetworkInterfaces input = [networkInterface]
        /\ publicIP_resolved machineProviderConfig pre networkInterface
        /\ match err, output with
           | None, Some (ec2.mkReservation [instance]) =>
               exists config, r = Done (config, (Some instance, None))
           | _, _ => exists config e, r = Done (config, (None, Some e))
           end).

(** A lower-case hexadecimal digit. *)
Definition is_lower_hex (c : ascii) : bool :=
  let n := nat_of_ascii c in
  ((48 <=? n) && (n <=? 57) || (97 <=? n) && (n <=? 102))%nat.

(** [cr-] followed by exactly 17 lower-case hexadecimal digits. *)
Definition valid_capacityReservationID (s : string) : bool :=
  match s with
  | String "c" (String "r" (String "-" rest)) =>
      (String.length rest =? 17)%nat && forallb is_lower_hex (list_ascii_of_string rest)
  | _ => false
  end.

End Instances.

(** ** Stubs, after [stubs.go] and the cases of [TestLaunchInstance] *)

Module stubs.
Import machinev1beta1.

Definition stubMachine : Machine :=
  mkMachine "aws-actuator-testing-machine" "test"
    {[ "machine.openshift.io/cluster-api-cluster" := "aws-actuator-cluster" ]}.

Definition stubProviderConfig (publicIP : option bool) : AWSMachineProviderConfig :=
  mkAWSMachineProviderConfig
    (mkAWSResourceReference (Some "ami-a9acbbd6") None None)
    "m5d.2xlarge"
    [ mkTagSpecification "openshift-node-group-config" "node-config-master";
      mkTagSpecification "host-type" "master";
      mkTagSpecification "sub-host-type" "default" ]
    (Some (mkAWSResourceReference (Some "openshift_master_launch_instances") None None))
    (Some (mkLocalObjectReference "aws-credentials-secret"))
    (Some "aws-actuator-key-name")
    0%Z
    publicIP
    ""
    [ mkAWSResourceReference (Some "sg-00868b02fbe29de17") None None;
      mkAWSResourceReference (Some "sg-0a4658991dc5eb40a") None None ]
    (mkAWSResourceReference (Some "subnet-0e56b13a64ff8a941") None None)
    (mkPlacement "us-east-1" "us-east-1-wl1-nyc-wlz-1" "")
    []
    None
    (mkMetadataServiceOptions "")
    ""
    None
    ""
    "".

Definition stubInstance : ec2.Instance :=
  ec2.mkInstance (Some "ami-a9acbbd6") (Some "i-02fcb933c5da7085c")
    (Some (ec2.mkInstanceState (Some 16%Z) (Some "running"))).

(** The cloud of the cases for an edge zone: the subnet lies in a zone
    [zoneName] of the type [zoneType]. *)
Definition stubAnswers (zoneName zoneType : string) : fake.Answers :=
  fake.mkAnswers
    (fake.images fake.nothing)
    (Some (ec2.mkDescribeSubnetsOutput
             [ec2.mkSubnet (Some "subnet-0e56b13a64ff8a941") (Some zoneName)]), None)
    (Some (ec2.mkDescribeAvailabilityZonesOutput
             [ec2.mkAvailabilityZone (Some zoneName) (Some zoneType)]), None)
    (fake.securityGroups fake.nothing)
    (fake.placementGroups fake.nothing)
    (Some (ec2.mkReservation [stubInstance]), None)
    (fake.instances fake.nothing)
    (fake.createdPlacementGroup fake.nothing)
    (fake.deletedPlacementGroup fake.nothing).

Definition stubGetClusterID (machine : Machine) : string * bool :=
  match Machine_Labels machine !! "machine.openshift.io/cluster-api-cluster" with
  | Some clusterID => (clusterID, true)
  | None => ("", false)
  end.

(** A run of [launchInstance] in that cloud, from an empty trace. *)
Definition stubLaunch (publicIP : option bool) (zoneName zoneType : string)
    : go (AWSMachineProviderConfig * (option ec2.Instance * option error)) * world unit :=
  Instances.launchInstance fake.time_Parse (fun userData => userData) stubGetClusterID
    stubMachine (stubProviderConfig publicIP) ""
    (fake.NewClient (stubAnswers zoneName zoneType)) None (mkWorld tt []).

End stubs.

(** ** The controller runtime *)

Module ctrl.

(** [ctrl.Result]; [RequeueAfter] is a [time.Duration]. *)
Record Result : Type := mkResult {
  Requeue : bool;
  RequeueAfter : Z
}.

End ctrl.

(** ** The placement-group controller ([awsplacementgroup/controller.go]) *)

Module awsplacementgroup.
Import machinev1.

(** [awsPlacementGroupFinalizer] is the finalizer string for
    AWSPlacementGroup objects. *)
Definition awsPlacementGroupFinalizer : string := "awsplacementgroup.machine.openshift.io".

Definition readyConditionType : string := "Ready".
Definition creationSucceededConditionReason : string := "CreationSucceeded".
Definition creationFailedConditionReason : string := "CreationFailed".
Definition deletionFailedConditionReason : string := "DeletionFailed".
Definition configurationMismatchConditionReason : string := "ConfigurationMismatch".
Definition configurationInSyncConditionReason : string := "ConfigurationInSync".

(** [controllerutil.ContainsFinalizer], [AddFinalizer], [RemoveFinalizer]. *)
Definition ContainsFinalizer (o : AWSPlacementGroup) (finalizer : string) : bool :=
  existsb (fun f => String.eqb f finalizer) (Finalizers o).

Definition AddFinalizer (o : AWSPlacementGroup) (finalizer : string) : AWSPlacementGroup :=
  if ContainsFinalizer o finalizer then o
  else set_Finalizers o (Finalizers o ++ [finalizer]).

Definition RemoveFinalizer (o : AWSPlacementGroup) (finalizer : string)
    : AWSPlacementGroup :=
  set_Finalizers o (List.filter (fun f => negb (String.eqb f finalizer)) (Finalizers o)).

(** What the reconciler holds: the client of the API server and the
    builder of the AWS client. *)
Record Reconciler (S : Type) : Type := mkReconciler {
  Client_Get :
    string * string -> S -> (AWSPlacementGroup * option error) * S;
  Client_Get_Infrastructure :
    string -> S -> (configv1.Infrastructure * option error) * S;
  Client_Patch :
    AWSPlacementGroup * AWSPlacementGroup -> S -> (AWSPlacementGroup * option error) * S;
  Client_Status_Patch :
    AWSPlacementGroup * AWSPlacementGroup -> S -> (AWSPlacementGroup * option error) * S;
  AWSClientBuilder :
    string * string * string -> S -> (awsclient.Client S * option error) * S
}.
Arguments Client_Get {S} _ _ _.
Arguments Client_Get_Infrastructure {S} _ _ _.
Arguments Client_Patch {S} _ _ _.
Arguments Client_Status_Patch {S} _ _ _.
Arguments AWSClientBuilder {S} _ _ _.

(** [isAWS4xxError] will determine if the passed error is an AWS error with
    a 4xx status code. *)
Definition isAWS4xxError (err : error) : bool :=
  match err with
  | RequestFailure statusCode _ => (400 <=? statusCode)%Z && (statusCode <? 500)%Z
  | _ => false
  end.

(** [err != nil && !isAWS4xxError(err)]. *)
Definition describeFailed (err : option error) : option error :=
  match err with
  | Some e => if negb (isAWS4xxError e) then Some e else None
  | None => None
  end.

Definition mergeInfrastructureAndAWSPlacementGroupSpecTags
    (awsPlacementGroupSpecTags : list machinev1beta1.TagSpecification)
    (infra : option configv1.Infrastructure) : list machinev1beta1.TagSpecification :=
  match infra with
  | None => awsPlacementGroupSpecTags
  | Some i =>
      match configv1.InfrastructureStatus_PlatformStatus (configv1.Infrastructure_Status i) with
      | None => awsPlacementGroupSpecTags
      | Some ps =>
          match configv1.PlatformStatus_AWS ps with
          | None => awsPlacementGroupSpecTags
          | Some a =>
              match configv1.AWSPlatformStatus_ResourceTags a with
              | None => awsPlacementGroupSpecTags
              | Some resourceTags =>
                  fold_left
                    (fun mergedList t =>
                       mergedList ++
                         [machinev1beta1.mkTagSpecification
                            (configv1.AWSResourceTag_Key t)
                            (configv1.AWSResourceTag_Value t)])
                    resourceTags ([] ++ awsPlacementGroupSpecTags)
              end
          end
      end
  end.

(** [removeDuplicatedTags] of this package is the one of the package
    [machine], word for word. *)
Definition removeDuplicatedTags : list ec2.Tag -> go (list ec2.Tag) :=
  Tags.removeDuplicatedTags.

(** [buildPlacementGroupTagList] compiles a list of ec2 tags from the
    AWSPlacementGroup provider spec and the infrastructure object. *)
Definition buildPlacementGroupTagList (awsPlacementGroup : string)
    (awsPlacementGroupSpecTags : list machinev1beta1.TagSpecification)
    (infra : option configv1.Infrastructure) : go (list ec2.Tag) :=
  let mergedTags :=
    mergeInfrastructureAndAWSPlacementGroupSpecTags awsPlacementGroupSpecTags infra in
  match infra with
  | None => Panic
  | Some i =>
      let clusterID :=
        configv1.InfrastructureStatus_InfrastructureName (configv1.Infrastructure_Status i) in
      let rawTagList :=
        fold_left
          (fun rawTagList t =>
             if negb (HasPrefix (machinev1beta1.TagSpecification_Name t)
                        "kubernetes.io/cluster/")
                && negb (String.eqb (machinev1beta1.TagSpecification_Name t) "Name")
             then rawTagList ++
                    [ec2.tag (machinev1beta1.TagSpecification_Name t)
                       (machinev1beta1.TagSpecification_Value t)]
             else rawTagList)
          mergedTags [] in
      let rawTagList :=
        rawTagList ++ [ ec2.tag ("kubernetes.io/cluster/" +:+ clusterID) "owned";
                        ec2.tag "Name" awsPlacementGroup ] in
      removeDuplicatedTags rawTagList
  end.

(** [validateExistingPlacementGroupConfig] validates that the configuration
    of the existing placement group matches the configuration of the
    AWSPlacementGroup spec. *)
Definition validateExistingPlacementGroupConfig (pg : AWSPlacementGroup)
    (placementGroup : option ec2.PlacementGroup) : go (option error) :=
  match placementGroup with
  | None => Done (Some (Errorf "found nil aws placement group"))
  | Some placementGroup =>
      if negb (String.eqb (StringValue (ec2.PlacementGroup_GroupName placementGroup))
                 (Name pg))
      then Done (Some (Errorf "name mismatch between configured and existing values: wanted: %q, got: %q"))
      else
        match ManagementSpec_Managed (Spec_ManagementSpec (Spec pg)) with
        | None => Panic
        | Some managed =>
            let check (expectedPlacementGroupType : string) : go (option error) :=
              if negb (String.eqb (StringValue (ec2.PlacementGroup_Strategy placementGroup))
                         expectedPlacementGroupType)
              then Done (Some (Errorf "type mismatch between configured and existing values: wanted: %q, got: %q"))
              else
                if String.eqb (Managed_GroupType managed) AWSPartitionPlacementGroupType
                then
                  match Managed_Partition managed with
                  | Some partition =>
                      if negb (AWSPartitionPlacement_Count partition =? 0)%Z
                         && negb (AWSPartitionPlacement_Count partition
                                  =? Int64Value
                                       (ec2.PlacementGroup_PartitionCount placementGroup))%Z
                      then Done (Some (Errorf "group partition count mismatch between configured and existing values: wanted: %d, got: %d"))
                      else Done None
                  | None => Done None
                  end
                else Done None in
            if String.eqb (Managed_GroupType managed) AWSSpreadPlacementGroupType
            then check ec2.PlacementStrategySpread
            else if String.eqb (Managed_GroupType managed) AWSClusterPlacementGroupType
            then check ec2.PlacementStrategyCluster
            else if String.eqb (Managed_GroupType managed) AWSPartitionPlacementGroupType
            then check ec2.PlacementStrategyPartition
            else Done (Some (Errorf "unknown placement strategy %q: valid values are %s, %s and %s"))
        end
  end.

(** [validateAWSPlacementGroup] validates an AWSPlacementGroup
    configuration. *)
Definition validateAWSPlacementGroup (pg : AWSPlacementGroup) : option error :=
  let managementState := ManagementSpec_ManagementState (Spec_ManagementSpec (Spec pg)) in
  let managed := ManagementSpec_Managed (Spec_ManagementSpec (Spec pg)) in
  let validateManaged : option error :=
    match managed with
    | Some managed =>
        if negb (String.eqb (Managed_GroupType managed) AWSClusterPlacementGroupType
                 || String.eqb (Managed_GroupType managed) AWSPartitionPlacementGroupType
                 || String.eqb (Managed_GroupType managed) AWSSpreadPlacementGroupType)
        then Some (Errorf "invalid aws placement group. spec.managementSpec.managed.groupType must either be %s, %s or %s")
        else
          match Managed_Partition managed with
          | Some partition =>
              if (AWSPartitionPlacement_Count partition <? 1)%Z
                 || (7 <? AWSPartitionPlacement_Count partition)%Z
              then Some (Errorf "invalid aws placement group. spec.managementSpec.managed.partition.count must be greater or equal than 1 and less or equal than 7")
              else None
          | None => None
          end
    | None => None
    end in
  if negb (String.eqb managementState ManagedManagementState
           || String.eqb managementState UnmanagedManagementState)
  then Some (Errorf "invalid aws placement group. spec.managementSpec.managementState must either be %s or %s")
  else
    if String.eqb managementState ManagedManagementState then
      match managed with
      | None =>
          Some (Errorf "invalid aws placement group. spec.managementSpec.managed must not be nil when spec.managementSpec.managementState is %s")
      | Some _ =>
          (* A Managed placement group may be moved to Unmanaged, however an
             Unmanaged group may not be moved back to Managed. *)
          if String.eqb (Status_ManagementState (Status pg)) UnmanagedManagementState
          then Some (Errorf "invalid aws placement group. spec.managementSpec.managementState cannot be set to %s once it has been set to %s")
          else validateManaged
      end
    else validateManaged.

Section Controller.

Context {S : Type}.

(** [strings.Title]. *)
Variable strings_Title : string -> string.

(** [meta.SetStatusCondition], which reads the clock: the conditions
    after the call. *)
Variable SetStatusCondition :
  list metav1.Condition -> metav1.Condition -> S -> list metav1.Condition * S.

(** [time.Now]. *)
Variable time_Now : S -> metav1.Time * S.

Definition now : M S metav1.Time :=
  fun w => let (t, s') := time_Now (env w) in (Done t, mkWorld s' (trace w)).

(** [meta.SetStatusCondition(&pg.Status.Conditions, condition)]. *)
Definition setStatusCondition (pg : AWSPlacementGroup) (condition : metav1.Condition)
    : M S AWSPlacementGroup :=
  fun w =>
    let (conditions, s') :=
      SetStatusCondition (Status_Conditions (Status pg)) condition (env w) in
    (Done (set_Conditions pg conditions), mkWorld s' (trace w)).

(** [setObservedConfiguration] sets the configuration observed from the AWS
    placement group to the ObservedConfiguration field in the Status of the
    object. *)
Definition setObservedConfiguration (pg : AWSPlacementGroup)
    (placementGroup : ec2.PlacementGroup) : M S AWSPlacementGroup :=
  let pg :=
    set_ObservedConfiguration pg
      (mkManagedAWSPlacementGroup
         (strings_Title (StringValue (ec2.PlacementGroup_Strategy placementGroup)))
         (Some (mkAWSPartitionPlacement
                  (int32 (Int64Value (ec2.PlacementGroup_PartitionCount placementGroup)))))) in
  let equal :=
    match ManagementSpec_Managed (Spec_ManagementSpec (Spec pg)) with
    | Some managed => bool_decide (Status_ObservedConfiguration (Status pg) = managed)
    | None => false
    end in
  let condition :=
    if equal
    then metav1.mkCondition readyConditionType metav1.ConditionTrue
           configurationInSyncConditionReason None
    else metav1.mkCondition readyConditionType metav1.ConditionFalse
           configurationMismatchConditionReason None in
  setStatusCondition pg condition.

(** [checkOrCreatePlacementGroup] checks for the existence of a placement
    group on AWS and validates its config; it proceeds to create one if
    such group doesn't exist. *)
Definition checkOrCreatePlacementGroup (client : awsclient.Client S)
    (pg : AWSPlacementGroup) (infra : option configv1.Infrastructure)
    : M S (AWSPlacementGroup * option error) :=
  let* (placementGroups, err) :=
    call (awsclient.DescribePlacementGroups client) DescribePlacementGroupsCall
      (ec2.mkDescribePlacementGroupsInput [Name pg]) in
  match describeFailed err with
  | Some e =>
      (* Ignore a 400 error as AWS will report an unknown placement group as a 400. *)
      ret (pg, Some (Wrapf "failed to check aws placement group: could not describe aws placement groups: %w" e))
  | None =>
  match placementGroups with
  | None => panic
  | Some placementGroups =>
  match ec2.DescribePlacementGroupsOutput_PlacementGroups placementGroups with
  | _ :: _ :: _ =>
      (* More than one placement group matching. *)
      ret (pg, Some (Errorf "failed to check aws placement group: expected 1 aws placement group for name %q, got %d"))
  | [placementGroup] =>
      (* Placement group already exists on AWS.  Validate its configuration. *)
      let* err := lift (validateExistingPlacementGroupConfig pg (Some placementGroup)) in
      match err with
      | Some e =>
          let werr := Wrapf "invalid configuration for existing aws placement group: %w" e in
          let* pg :=
            setStatusCondition pg
              (metav1.mkCondition readyConditionType metav1.ConditionFalse
                 configurationMismatchConditionReason (Some werr)) in
          ret (pg, Some werr)
      | None =>
          let* pg := setObservedConfiguration pg placementGroup in
          ret (pg, None)
      end
  | [] =>
      (* Build a tag list for the placement group by inheriting user defined
         tags from infra. *)
      let* tagList := lift (buildPlacementGroupTagList (Name pg) [] infra) in
      (* No placement group with that name exist, create one. *)
      let createPlacementGroupInput (strategy : string) (partitionCount : option Z) :=
        ec2.mkCreatePlacementGroupInput (Some (Name pg)) partitionCount (Some strategy)
          [ec2.mkTagSpecification (Some ec2.ResourceTypePlacementGroup) tagList] in
      let create (createPlacementGroupInput : ec2.CreatePlacementGroupInput)
          : M S (AWSPlacementGroup * option error) :=
        let* (out, err) :=
          call (awsclient.CreatePlacementGroup client) CreatePlacementGroupCall
            createPlacementGroupInput in
        match err with
        | Some e =>
            let werr := Wrapf "failed to create aws placement group: %w" e in
            let* pg :=
              setStatusCondition pg
                (metav1.mkCondition readyConditionType metav1.ConditionFalse
                   creationFailedConditionReason (Some werr)) in
            ret (pg, Some werr)
        | None =>
            (* Set successful condition for placement group creation. *)
            let* pg :=
              setStatusCondition pg
                (metav1.mkCondition readyConditionType metav1.ConditionTrue
                   creationSucceededConditionReason None) in
            (* the log line reads *out.PlacementGroup.GroupName and
               *out.PlacementGroup.GroupId *)
            match out with
            | None => panic
            | Some out =>
                match ec2.CreatePlacementGroupOutput_PlacementGroup out with
                | None => panic
                | Some created =>
                    match ec2.PlacementGroup_GroupName created,
                          ec2.PlacementGroup_GroupId created with
                    | Some _, Some _ => ret (pg, None)
                    | _, _ => panic
                    end
                end
            end
        end in
      match ManagementSpec_Managed (Spec_ManagementSpec (Spec pg)) with
      | None => panic
      | Some managed =>
          if String.eqb (Managed_GroupType managed) AWSSpreadPlacementGroupType
          then create (createPlacementGroupInput ec2.PlacementStrategySpread None)
          else if String.eqb (Managed_GroupType managed) AWSClusterPlacementGroupType
          then create (createPlacementGroupInput ec2.PlacementStrategyCluster None)
          else if String.eqb (Managed_GroupType managed) AWSPartitionPlacementGroupType
          then
            create (createPlacementGroupInput ec2.PlacementStrategyPartition
                      match Managed_Partition managed with
                      | Some partition =>
                          if negb (AWSPartitionPlacement_Count partition =? 0)%Z
                          then Some (AWSPartitionPlacement_Count partition)
                          else None
                      | None => None
                      end)
          else ret (pg, Some (Errorf "unknown aws placement strategy %q: valid values are %s, %s, %s"))
      end
  end end end.

(** The instances of [instances] that are not terminated, added to
    [instanceCount]; [instance.State.Name] panics without a state. *)
Fixpoint countInstances (instances : list ec2.Instance) (instanceCount : nat) : go nat :=
  match instances with
  | [] => Done instanceCount
  | instance :: rest =>
      match ec2.Instance_State instance with
      | None => Panic
      | Some state =>
          (* Ignore the Terminated instances *)
          if negb (String.eqb (StringValue (ec2.InstanceState_Name state)) "terminated")
          then countInstances rest (instanceCount + 1)%nat
          else countInstances rest instanceCount
      end
  end.

Fixpoint countReservations (reservations : list ec2.Reservation) (instanceCount : nat)
    : go nat :=
  match reservations with
  | [] => Done instanceCount
  | reservation :: rest =>
      go_bind (countInstances (ec2.Reservation_Instances reservation) instanceCount)
        (fun instanceCount => countReservations rest instanceCount)
  end.

(** Whether a tag is the cluster tag [kubernetes.io/cluster/<clusterID> =
    owned]. *)
Definition isClusterTag (clusterID : string) (tag : ec2.Tag) : bool :=
  String.eqb (StringValue (ec2.Tag_Key tag)) ("kubernetes.io/cluster/" +:+ clusterID)
  && String.eqb (StringValue (ec2.Tag_Value tag)) "owned".

(** [deletePlacementGroup] deletes the placement group for the machine. *)
Definition deletePlacementGroup (client : awsclient.Client S) (pg : AWSPlacementGroup)
    (infra : option configv1.Infrastructure) : M S (option error) :=
  let* (placementGroups, err) :=
    call (awsclient.DescribePlacementGroups client) DescribePlacementGroupsCall
      (ec2.mkDescribePlacementGroupsInput [Name pg]) in
  match describeFailed err with
  | Some e =>
      (* Ignore a 400 error as AWS will report an unknown placement group as a 400. *)
      ret (Some (Wrapf "could not describe aws placement groups: %w" e))
  | None =>
  match placementGroups with
  | None => panic
  | Some placementGroups =>
  match ec2.DescribePlacementGroupsOutput_PlacementGroups placementGroups with
  | _ :: _ :: _ => ret (Some (Errorf "expected 1 aws placement group for name %q, got %d"))
  | [] =>
      (* This is the normal path, the named placement group doesn't exist. *)
      ret None
  | [placementGroup] =>
  match infra with
  | None => panic
  | Some i =>
  let clusterID :=
    configv1.InfrastructureStatus_InfrastructureName (configv1.Infrastructure_Status i) in
  (* Check that the placement group has a cluster tag. *)
  let found := existsb (isClusterTag clusterID) (ec2.PlacementGroup_Tags placementGroup) in
  if negb found
  then ret (Some (Errorf "aws placement group was not created by machine-api"))
  else
  (* Check that the placement group contains no instances. *)
  let* (result, err) :=
    call (awsclient.DescribeInstances client) DescribeInstancesCall
      (ec2.mkDescribeInstancesInput
         [ec2.mkFilter (Some "placement-group-name") [Name pg]]) in
  match err with
  | Some e =>
      ret (Some (Wrapf "could not get the number of instances in aws placement group: %w" e))
  | None =>
  match result with
  | None => panic
  | Some result =>
  let* instanceCount :=
    lift (countReservations (ec2.DescribeInstancesOutput_Reservations result) 0) in
  if (0 <? instanceCount)%nat
  then ret (Some (Errorf "aws placement group still contains %d instances"))
  else
  (* Only one placement group with the given name exists and it is empty,
     so we remove it. *)
  let deletePlacementGroupInput := ec2.mkDeletePlacementGroupInput (Some (Name pg)) in
  let* (_, err) :=
    call (awsclient.DeletePlacementGroup client) DeletePlacementGroupCall
      deletePlacementGroupInput in
  match err with
  | Some e => ret (Some (Wrapf "could not remove the cloud resource on aws: %w" e))
  | None => ret None
  end end end end end end end.

(** [reflectObservedConfiguration] checks for the existence of a placement
    group on AWS and if that's the case it syncs its config with the
    ObservedConfiguration in the Status of the object. *)
Definition reflectObservedConfiguration (client : awsclient.Client S)
    (pg : AWSPlacementGroup) : M S (AWSPlacementGroup * option error) :=
  let* (placementGroups, err) :=
    call (awsclient.DescribePlacementGroups client) DescribePlacementGroupsCall
      (ec2.mkDescribePlacementGroupsInput [Name pg]) in
  match describeFailed err with
  | Some e => ret (pg, Some (Wrapf "could not describe aws placement groups: %w" e))
  | None =>
  match placementGroups with
  | None => panic
  | Some placementGroups =>
  let expire (pg : AWSPlacementGroup) : M S (AWSPlacementGroup * option error) :=
    (* Set the .Status.ExpiresAt in 2 minutes from now, to keep a TTL cache
       of the configuration observed from AWS. *)
    let* t := now in
    let inTwoMinutes := (t + 2 * metav1.Minute)%Z in
    ret (set_ExpiresAt pg (Some inTwoMinutes), None) in
  match ec2.DescribePlacementGroupsOutput_PlacementGroups placementGroups with
  | _ :: _ :: _ =>
      (* Only one placement group was expected to match this name. *)
      ret (pg, Some (Errorf "expected 1 aws placement group for name %s, got %d"))
  | [] =>
      (* No placement groups are present with this name at this time yet. *)
      expire pg
  | [placementGroup] =>
      (* the log line reads *placementGroups.PlacementGroups[0].GroupId *)
      match ec2.PlacementGroup_GroupId placementGroup with
      | None => panic
      | Some _ =>
          let* pg := setObservedConfiguration pg placementGroup in
          expire pg
      end
  end end end.

(** [requeueAt] returns the duration to wait before requeuing; 0 when the
    time is in the past. *)
Definition requeueAt (at_ : metav1.Time) : M S Z :=
  let* t := now in
  let duration := (- (t - (at_ + 1 * metav1.Millisecond)))%Z in
  if (duration <? 0)%Z then ret 0%Z else ret duration.

(** [reconcile] reconciles an AWSPlacementGroup. *)
Definition reconcile (awsClient : awsclient.Client S) (infra : configv1.Infrastructure)
    (awsPlacementGroup : AWSPlacementGroup)
    : M S (AWSPlacementGroup * (ctrl.Result * option error)) :=
  let* now_ := now in
  let* (awsPlacementGroup, err) :=
    if bool_decide (Status_ExpiresAt (Status awsPlacementGroup) = None)
       || metav1.Before (Status_ExpiresAt (Status awsPlacementGroup)) (Some now_)
    then
      (* The cached ObservedConfiguration stored in the AWSPlacementGroup
         Status is expired or not present. *)
      reflectObservedConfiguration awsClient awsPlacementGroup
    else ret (awsPlacementGroup, None) in
  match err with
  | Some e =>
      ret (awsPlacementGroup,
           (ctrl.mkResult false 0,
            Some (Wrapf "failed to reflect observed configuration in status: %w" e)))
  | None =>
  (* Update Status.ManagementState with the observed spec value. *)
  let awsPlacementGroup :=
    set_StatusManagementState awsPlacementGroup
      (ManagementSpec_ManagementState (Spec_ManagementSpec (Spec awsPlacementGroup))) in
  (* If the placement group is Unmanaged, cleanup and return. *)
  if String.eqb (ManagementSpec_ManagementState (Spec_ManagementSpec (Spec awsPlacementGroup)))
       UnmanagedManagementState
  then
    if ContainsFinalizer awsPlacementGroup awsPlacementGroupFinalizer
    then ret (RemoveFinalizer awsPlacementGroup awsPlacementGroupFinalizer,
              (ctrl.mkResult true 0, None))
    else
      match Status_ExpiresAt (Status awsPlacementGroup) with
      | None => panic
      | Some expiresAt =>
          let* after := requeueAt expiresAt in
          ret (awsPlacementGroup, (ctrl.mkResult false after, None))
      end
  else
  (* If object DeletionTimestamp is zero, the object is not being deleted. *)
  if metav1.IsZero (DeletionTimestamp awsPlacementGroup)
     && negb (ContainsFinalizer awsPlacementGroup awsPlacementGroupFinalizer)
  then ret (AddFinalizer awsPlacementGroup awsPlacementGroupFinalizer,
            (ctrl.mkResult true 0, None))
  else
  if negb (metav1.IsZero (DeletionTimestamp awsPlacementGroup))
  then
    (* No-op if the finalizer has been removed. *)
    if negb (ContainsFinalizer awsPlacementGroup awsPlacementGroupFinalizer)
    then ret (awsPlacementGroup, (ctrl.mkResult false 0, None))
    else
      let* err := deletePlacementGroup awsClient awsPlacementGroup (Some infra) in
      match err with
      | Some e =>
          let werr := Wrapf "failed to delete aws placement group: %w" e in
          let* awsPlacementGroup :=
            setStatusCondition awsPlacementGroup
              (metav1.mkCondition "Deleting" metav1.ConditionTrue
                 deletionFailedConditionReason (Some werr)) in
          ret (awsPlacementGroup, (ctrl.mkResult false 0, Some werr))
      | None =>
          (* Remove finalizer on successful deletion. *)
          ret (RemoveFinalizer awsPlacementGroup awsPlacementGroupFinalizer,
               (ctrl.mkResult false 0, None))
      end
  else
  (* Conditionally create or check the placement group. *)
  let* (awsPlacementGroup, err) :=
    checkOrCreatePlacementGroup awsClient awsPlacementGroup (Some infra) in
  match err with
  | Some e => ret (awsPlacementGroup, (ctrl.mkResult false 0, Some e))
  | None =>
      match Status_ExpiresAt (Status awsPlacementGroup) with
      | None => panic
      | Some expiresAt =>
          let* after := requeueAt expiresAt in
          ret (awsPlacementGroup, (ctrl.mkResult false after, None))
      end
  end end.

(** [Reconcile] implements the controller runtime Reconciler interface;
    [req] is the namespace and the name of the request. *)
Definition Reconcile (r : Reconciler S) (req : string * string)
    : M S (ctrl.Result * option error) :=
  let* (awsPlacementGroup, err) :=
    call (Client_Get r)
      (fun key object err => GetAWSPlacementGroupCall (fst key) (snd key) object err)
      req in
  match err with
  | Some e =>
      if IsNotFound e
      then
        (* Object not found.  Return without error to avoid requeue. *)
        ret (ctrl.mkResult false 0, None)
      else
        (* For any other type of error, requeue immediately. *)
        ret (ctrl.mkResult false 0, Some e)
  | None =>
  match validateAWSPlacementGroup awsPlacementGroup with
  | Some _ =>
      (* Return without erroring to avoid requeue.  The object shouldn't be
         requeued until it has been modified and is ready to be validated
         again, as it is invalid. *)
      ret (ctrl.mkResult false 0, None)
  | None =>
  (* Get the Infrastructure object. *)
  let* (infra, err) :=
    call (Client_Get_Infrastructure r) GetInfrastructureCall
      awsclient.GlobalInfrastuctureName in
  match err with
  | Some e =>
      ret (ctrl.mkResult false 0, Some (Wrapf "could not fetch infrastructure object: %w" e))
  | None =>
  let credentialsSecretName :=
    match Spec_CredentialsSecret (Spec awsPlacementGroup) with
    | Some secret => machinev1beta1.LocalObjectReference_Name secret
    | None => ""
    end in
  (* infra.Status.PlatformStatus.AWS.Region *)
  match configv1.InfrastructureStatus_PlatformStatus (configv1.Infrastructure_Status infra) with
  | None => panic
  | Some platformStatus =>
  match configv1.PlatformStatus_AWS platformStatus with
  | None => panic
  | Some aws =>
  let* (awsClient, err) :=
    call (AWSClientBuilder r)
      (fun args _ err => AwsClientBuilderCall (fst (fst args)) (snd (fst args)) (snd args) err)
      (credentialsSecretName, Namespace awsPlacementGroup,
       configv1.AWSPlatformStatus_Region aws) in
  match err with
  | Some e => ret (ctrl.mkResult false 0, Some (Wrapf "could not create aws client: %w" e))
  | None =>
  let originalAWSPlacementGroupToPatch := awsPlacementGroup in
  let* (awsPlacementGroup, res) := reconcile awsClient infra awsPlacementGroup in
  let (result, err) := (res : ctrl.Result * option error) in
  let* _ :=
    match err with
    | Some e =>
        (* Don't return here.  To later attempt to Patch the
           AWSPlacementGroup regardless of an error. *)
        emit (Eventf (Name awsPlacementGroup) "Warning" "ReconcileError" "%v" (Some e))
    | None => ret tt
    end in
  let originalAWSPlacementGroupStatus := Status awsPlacementGroup in
  let* (awsPlacementGroup, perr) :=
    call (Client_Patch r)
      (fun args answer err => PatchAWSPlacementGroupCall (fst args) (snd args) answer err)
      (awsPlacementGroup, originalAWSPlacementGroupToPatch) in
  match perr with
  | Some e => ret (ctrl.mkResult false 0, Some (Wrapf "failed to patch aws placement group: %w" e))
  | None =>
  let awsPlacementGroup := set_Status awsPlacementGroup originalAWSPlacementGroupStatus in
  let* (awsPlacementGroup, perr) :=
    call (Client_Status_Patch r)
      (fun args answer err =>
         StatusPatchAWSPlacementGroupCall (fst args) (snd args) answer err)
      (awsPlacementGroup, originalAWSPlacementGroupToPatch) in
  match perr with
  | Some e =>
      ret (ctrl.mkResult false 0, Some (Wrapf "failed to patch aws placement group status: %w" e))
  | None => ret (result, err)
  end end end end end end end end.

End Controller.

(** *** Vocabulary of the specification *)

(** An instance that carries a state other than [terminated]. *)
Definition notTerminated (instance : ec2.Instance) : bool :=
  match ec2.Instance_State instance with
  | Some state =>
      negb (String.eqb (StringValue (ec2.InstanceState_Name state)) "terminated")
  | None => false
  end.

(** The instances of an answer of [DescribeInstances]. *)
Definition instancesOf (result : ec2.DescribeInstancesOutput) : list ec2.Instance :=
  concat (map ec2.Reservation_Instances (ec2.DescribeInstancesOutput_Reservations result)).

(** The placement group carries the tag
    [kubernetes.io/cluster/<clusterID> = owned]. *)
Definition owned (clusterID : string) (placementGroup : ec2.PlacementGroup) : Prop :=
  exists tag,
    tag ∈ ec2.PlacementGroup_Tags placementGroup
    /\ ec2.Tag_Key tag = Some ("kubernetes.io/cluster/" +:+ clusterID)
    /\ ec2.Tag_Value tag = Some "owned".

(** The describe-by-name request and the tag-scoped describe request of
    [deletePlacementGroup], and its delete request. *)
Definition describeByName (pg : AWSPlacementGroup) : ec2.DescribePlacementGroupsInput :=
  ec2.mkDescribePlacementGroupsInput [Name pg].

Definition describeOccupants (pg : AWSPlacementGroup) : ec2.DescribeInstancesInput :=
  ec2.mkDescribeInstancesInput [ec2.mkFilter (Some "placement-group-name") [Name pg]].

Definition deleteByName (pg : AWSPlacementGroup) : ec2.DeletePlacementGroupInput :=
  ec2.mkDeletePlacementGroupInput (Some (Name pg)).

(** The create request of [checkOrCreatePlacementGroup] for the strategy
    [strategy], given the infrastructure object. *)
Definition createRequest (pg : AWSPlacementGroup) (infra : configv1.Infrastructure)
    (strategy : string) (partitionCount : option Z) : ec2.CreatePlacementGroupInput :=
  ec2.mkCreatePlacementGroupInput (Some (Name pg)) partitionCount (Some strategy)
    [ec2.mkTagSpecification (Some "placement-group")
       (map Tags.toTag
          (filter (fun t => ~ Tags.reserved (machinev1beta1.TagSpecification_Name t))
             (Tags.first_occurrences machinev1beta1.TagSpecification_Name
                (Tags.infraResourceTags (Some infra))))
        ++ [ Tags.clusterTag
               (configv1.InfrastructureStatus_InfrastructureName
                  (configv1.Infrastructure_Status infra));
             Tags.nameTag (Name pg) ])].

(** The answer of the create call names the group it created and its
    ID, as the log line of [checkOrCreatePlacementGroup] reads them. *)
Definition created_named (out : option ec2.CreatePlacementGroupOutput) : Prop :=
  exists o created name id,
    out = Some o
    /\ ec2.CreatePlacementGroupOutput_PlacementGroup o = Some created
    /\ ec2.PlacementGroup_GroupName created = Some name
    /\ ec2.PlacementGroup_GroupId created = Some id.

(** A 4xx-shaped error: a request failure of the cloud whose status code
    is one of 400, ..., 499.  Any other error, also one that wraps such a
    request failure, is not of this shape. *)
Definition clientError (e : error) : Prop :=
  exists statusCode message,
    e = RequestFailure statusCode message /\ (400 <= statusCode <= 499)%Z.

(** The strategy and the partition count a managed placement group is
    created with; [None] for a group type that is not known. *)
Definition strategyOf (managed : ManagedAWSPlacementGroup) : option (string * option Z) :=
  if String.eqb (Managed_GroupType managed) "Spread" then Some ("spread", None)
  else if String.eqb (Managed_GroupType managed) "Cluster" then Some ("cluster", None)
  else if String.eqb (Managed_GroupType managed) "Partition" then
    Some ("partition",
          match Managed_Partition managed with
          | Some partition =>
              if (AWSPartitionPlacement_Count partition =? 0)%Z then None
              else Some (AWSPartitionPlacement_Count partition)
          | None => None
          end)
  else None.

End awsplacementgroup.

(** ** Stubs for the placement-group controller *)

Module placementgroup_stubs.
Import machinev1.

Definition stubInfrastructure : configv1.Infrastructure :=
  configv1.mkInfrastructure
    (configv1.mkInfrastructureStatus "test-cluster"
       (Some (configv1.mkPlatformStatus
                (Some (configv1.mkAWSPlatformStatus "us-east-1"
                         (Some [configv1.mkAWSResourceTag "environment" "test"])))))).

(** An AWSPlacementGroup [pg-test] of the group type [Cluster] whose spec
    asks for the management state [specState] and whose status records the
    management state [statusState]. *)
Definition stubAWSPlacementGroup (specState statusState : string) : AWSPlacementGroup :=
  mkAWSPlacementGroup "pg-test" "openshift-machine-api" None
    [awsplacementgroup.awsPlacementGroupFinalizer]
    (mkAWSPlacementGroupSpec
       (mkAWSPlacementGroupManagementSpec specState
          (Some (mkManagedAWSPlacementGroup AWSClusterPlacementGroupType None)))
       None)
    (mkAWSPlacementGroupStatus [] None statusState (mkManagedAWSPlacementGroup "" None)).

(** The placement group [pg-test] of the cloud, with the tags [tags]. *)
Definition stubPlacementGroup (tags : list ec2.Tag) : ec2.PlacementGroup :=
  ec2.mkPlacementGroup (Some "pg-0123456789abcdef0") (Some "pg-test") None
    (Some ec2.PlacementStrategyCluster) tags.

Definition ownedTags : list ec2.Tag :=
  [ec2.tag "kubernetes.io/cluster/test-cluster" "owned"; ec2.tag "Name" "pg-test"].

Definition stubInstance (state : string) : ec2.Instance :=
  ec2.mkInstance (Some "ami-a9acbbd6") (Some "i-02fcb933c5da7085c")
    (Some (ec2.mkInstanceState None (Some state))).

(** A cloud that holds the placement group [pg-test] with the tags [tags]
    and the instances [instances] in it. *)
Definition stubAnswers (tags : list ec2.Tag) (instances : list ec2.Instance)
    : fake.Answers :=
  fake.mkAnswers
    (fake.images fake.nothing)
    (fake.subnets fake.nothing)
    (fake.zones fake.nothing)
    (fake.securityGroups fake.nothing)
    (Some (ec2.mkDescribePlacementGroupsOutput [stubPlacementGroup tags]), None)
    (fake.reservation fake.nothing)
    (Some (ec2.mkDescribeInstancesOutput [ec2.mkReservation instances]), None)
    (fake.createdPlacementGroup fake.nothing)
    (fake.deletedPlacementGroup fake.nothing).

(** A cloud that answers the describe call with the error [err] and no
    placement group, and creates the placement group [pg-test] on demand. *)
Definition stubUnknownAnswers (err : error) : fake.Answers :=
  fake.mkAnswers
    (fake.images fake.nothing)
    (fake.subnets fake.nothing)
    (fake.zones fake.nothing)
    (fake.securityGroups fake.nothing)
    (Some (ec2.mkDescribePlacementGroupsOutput []), Some err)
    (fake.reservation fake.nothing)
    (fake.instances fake.nothing)
    (Some (ec2.mkCreatePlacementGroupOutput (Some (stubPlacementGroup ownedTags))), None)
    (fake.deletedPlacementGroup fake.nothing).

(** A run of [deletePlacementGroup] in the cloud [stubAnswers tags
    instances], from an empty trace. *)
Definition stubDelete (tags : list ec2.Tag) (instances : list ec2.Instance)
    : go (option error) * world unit :=
  awsplacementgroup.deletePlacementGroup (fake.NewClient (stubAnswers tags instances))
    (stubAWSPlacementGroup ManagedManagementState ManagedManagementState)
    (Some stubInfrastructure) (mkWorld tt []).

(** Stand-ins for [strings.Title], [meta.SetStatusCondition] and
    [time.Now]. *)
Definition stubTitle (s : string) : string :=
  match s with
  | String c rest =>
      String (if (("a" <=? c)%char && (c <=? "z")%char)%bool
              then ascii_of_nat (nat_of_ascii c - 32) else c) rest
  | EmptyString => EmptyString
  end.

Definition stubSetStatusCondition (conditions : list metav1.Condition)
    (condition : metav1.Condition) (s : unit) : list metav1.Condition * unit :=
  (condition ::
     List.filter
       (fun c => negb (String.eqb (metav1.Condition_Type c) (metav1.Condition_Type condition)))
       conditions, s).

Definition stubNow (s : unit) : metav1.Time * unit := (1580515200000000000%Z, s).

(** A run of [checkOrCreatePlacementGroup] in the cloud
    [stubUnknownAnswers err], from an empty trace. *)
Definition stubCheckOrCreate (err : error)
    : go (AWSPlacementGroup * option error) * world unit :=
  awsplacementgroup.checkOrCreatePlacementGroup stubTitle stubSetStatusCondition
    (fake.NewClient (stubUnknownAnswers err))
    (stubAWSPlacementGroup ManagedManagementState ManagedManagementState)
    (Some stubInfrastructure) (mkWorld tt []).

(** A reconciler whose API server holds the object [pg] and whose cloud is
    [answers]. *)
Definition stubReconciler (pg : AWSPlacementGroup) (answers : fake.Answers)
    : awsplacementgroup.Reconciler unit :=
  awsplacementgroup.mkReconciler unit
    (fun _ s => ((pg, None), s))
    (fun _ s => ((stubInfrastructure, None), s))
    (fun args s => ((fst args, None), s))
    (fun args s => ((fst args, None), s))
    (fun _ s => ((fake.NewClient answers, None), s)).

End placementgroup_stubs.

(** ** The merge of label lists *)

Module util.

(** Modelled from the spec: the reading of one list into the map of
    [util.MergeCommaSeparatedKeyValuePairs], below.  The pieces of the
    list between commas are its entries, each one [key=value]; a piece of
    another form is no entry and is left out. *)
Definition mergeList (merged : gmap string string) (pairs : string) : gmap string string :=
  foldl (fun merged kv =>
           match Split kv "=" with
           | [k; v] => <[k := v]> merged
           | _ => merged
           end)
    merged (Split pairs ",").

(** Modelled from the spec: [util.MergeCommaSeparatedKeyValuePairs], the
    helper of the machine-api-operator that [reconcile] calls and whose
    code is not among the sources.  The spec says of the labels
    annotation that it is a comma-separated string of [key=value]
    entries, and that existing entries are preserved and merged, not
    overwritten.  So the lists are read in order into one map, an entry
    of a later list taking the place of an earlier one of the same key
    (the existing annotation is the last list, and its entries stay), and
    the map is written back as [key=value] entries joined by commas, in
    the order of [sort.Strings]. *)
Definition MergeCommaSeparatedKeyValuePairs (lists : list string) : string :=
  let merged := foldl mergeList ∅ lists in
  Join (merge_sort String.le (map (fun kv => kv.1 +:+ "=" +:+ kv.2) (map_to_list merged)))
    ",".

End util.

(** ** The MachineSet annotation reconciler ([machineset/controller.go]) *)

Module machineset.
Import machineset_api.

(** This exposes compute information based on the providerSpec input.
    This is needed by the autoscaler to foresee upcoming capacity when
    scaling from zero. *)
Definition cpuKey : string := "machine.openshift.io/vCPU".
Definition memoryKey : string := "machine.openshift.io/memoryMb".
Definition gpuKey : string := "machine.openshift.io/GPU".
Definition labelsKey : string := "capacity.cluster-autoscaler.kubernetes.io/labels".

(** [Reconciler] reconciles machineSets: the client of the API server,
    the builder of the AWS client, the instance-types cache and the
    feature gate. *)
Record Reconciler (S : Type) : Type := mkReconciler {
  Client_Get : string * string -> S -> (MachineSet * option error) * S;
  Client_Patch : MachineSet * MachineSet -> S -> (MachineSet * option error) * S;
  AwsClientBuilder :
    string * string * string -> S -> (awsclient.Client S * option error) * S;
  InstanceTypesCache_GetInstanceType :
    awsclient.Client S * string * string -> S -> (InstanceType * option error) * S;
  Gate_Enabled : string -> bool
}.
Arguments Client_Get {S} _ _ _.
Arguments Client_Patch {S} _ _ _.
Arguments AwsClientBuilder {S} _ _ _.
Arguments InstanceTypesCache_GetInstanceType {S} _ _ _.
Arguments Gate_Enabled {S} _ _.

Definition isInvalidConfigurationError (err : option error) : bool :=
  match err with
  | Some (MachineError InvalidConfigurationMachineError _) => true
  | _ => false
  end.

(** The value of a key in a Go map: the zero value when the key is
    absent. *)
Definition index (annotations : gmap string string) (key : string) : string :=
  default "" (annotations !! key).

Section Controller.

Context {S : Type}.

(** [utils.ProviderSpecFromRawExtension], of the package [machine]. *)
Variable ProviderSpecFromRawExtension :
  option RawExtension -> option machinev1beta1.AWSMachineProviderConfig * option error.

(** [conditions.IsTrue], [machine.PausedCondition] and
    [openshiftfeatures.FeatureGateMachineAPIMigration], of the
    machine-api-operator and of the OpenShift API. *)
Variable conditions_IsTrue : MachineSet -> string -> bool.
Variable PausedCondition : string.
Variable FeatureGateMachineAPIMigration : string.

Definition reconcile (r : Reconciler S) (machineSet : MachineSet)
    : M S (MachineSet * (ctrl.Result * option error)) :=
  let (providerConfig, err) :=
    ProviderSpecFromRawExtension (MachineSet_ProviderSpecValue machineSet) in
  match err with
  | Some e =>
      ret (machineSet,
           (ctrl.mkResult false 0,
            Some (InvalidMachineConfiguration (Wrapf "failed to get providerConfig: %v" e))))
  | None =>
  match providerConfig with
  | None => panic
  | Some providerConfig =>
  match machinev1beta1.CredentialsSecret providerConfig with
  | None =>
      ret (machineSet,
           (ctrl.mkResult false 0,
            Some (InvalidMachineConfiguration
                    (Errorf "nil credentialsSecret for machineSet %s"))))
  | Some credentialsSecret =>
  let region := machinev1beta1.Placement_Region (machinev1beta1.Placement_ providerConfig) in
  let* (awsClient, err) :=
    call (AwsClientBuilder r)
      (fun args _ err => AwsClientBuilderCall (fst (fst args)) (snd (fst args)) (snd args) err)
      (machinev1beta1.LocalObjectReference_Name credentialsSecret,
       MachineSet_Namespace machineSet, region) in
  match err with
  | Some e =>
      ret (machineSet, (ctrl.mkResult false 0, Some (Wrapf "error creating aws client: %w" e)))
  | None =>
  let* (instanceType, err) :=
    call (InstanceTypesCache_GetInstanceType r)
      (fun args answer err => GetInstanceTypeCall (snd (fst args)) (snd args) answer err)
      (awsClient, region, machinev1beta1.InstanceType providerConfig) in
  match err with
  | Some _ =>
      (* Returning no error to prevent further reconciliation, as user
         intervention is now required but emit an informational event *)
      let* _ :=
        emit (Eventf (MachineSet_Name machineSet) "Warning" "FailedUpdate"
                "Failed to set autoscaling from zero annotations, instance type unknown"
                None) in
      ret (machineSet, (ctrl.mkResult false 0, None))
  | None =>
      let annotations :=
        match MachineSet_Annotations machineSet with
        | None => ∅
        | Some annotations => annotations
        end in
      let annotations := <[cpuKey := Itoa (InstanceType_VCPU instanceType)]> annotations in
      let annotations :=
        <[memoryKey := Itoa (InstanceType_MemoryMb instanceType)]> annotations in
      let annotations := <[gpuKey := Itoa (InstanceType_GPU instanceType)]> annotations in
      (* We guarantee that any existing labels provided via the capacity
         annotations are preserved. *)
      let annotations :=
        <[labelsKey :=
            util.MergeCommaSeparatedKeyValuePairs
              [ "kubernetes.io/arch=" +:+ InstanceType_CPUArchitecture instanceType;
                index annotations labelsKey ]]> annotations in
      ret (set_Annotations machineSet (Some annotations), (ctrl.mkResult false 0, None))
  end end end end end.

(** [Reconcile] implements controller runtime Reconciler interface. *)
Definition Reconcile (r : Reconciler S) (req : string * string)
    : M S (ctrl.Result * option error) :=
  let* (machineSet, err) :=
    call (Client_Get r)
      (fun key object err => GetMachineSetCall (fst key) (snd key) object err) req in
  match err with
  | Some e =>
      if IsNotFound e
      then
        (* Object not found, return. *)
        ret (ctrl.mkResult false 0, None)
      else
        (* Error reading the object - requeue the request. *)
        ret (ctrl.mkResult false 0, Some e)
  | None =>
  (* Ignore deleted MachineSets, this can happen when foregroundDeletion
     is enabled *)
  if negb (metav1.IsZero (MachineSet_DeletionTimestamp machineSet))
  then ret (ctrl.mkResult false 0, None)
  else
  let continue : M S (ctrl.Result * option error) :=
    let originalMachineSetToPatch := machineSet in
    let* (machineSet, res) := reconcile r machineSet in
    let (result, err) := (res : ctrl.Result * option error) in
    let* _ :=
      match err with
      | Some e =>
          (* we don't return here so we want to attempt to patch the
             machine regardless of an error. *)
          emit (Eventf (MachineSet_Name machineSet) "Warning" "ReconcileError" "%v" (Some e))
      | None => ret tt
      end in
    let* (_, perr) :=
      call (Client_Patch r)
        (fun args answer err => PatchMachineSetCall (fst args) (snd args) answer err)
        (machineSet, originalMachineSetToPatch) in
    match perr with
    | Some e => ret (ctrl.mkResult false 0, Some (Wrapf "failed to patch machineSet: %v" e))
    | None =>
        if isInvalidConfigurationError err
        then
          (* For situations where requeuing won't help we don't return
             error. *)
          ret (result, None)
        else ret (result, err)
    end in
  if Gate_Enabled r FeatureGateMachineAPIMigration
  then
    if conditions_IsTrue machineSet PausedCondition
    then ret (ctrl.mkResult false 0, None)
    else
      (* Reconciliation can continue only if the authoritativeAPI is set to
         MachineAPI. *)
      if negb (String.eqb (MachineSetStatus_AuthoritativeAPI (MachineSet_Status machineSet))
                 MachineAuthorityMachineAPI)
      then ret (ctrl.mkResult false 0, None)
      else continue
  else continue
  end.

End Controller.

(** *** Vocabulary of the specification *)

(** The four annotations for scaling from zero. *)
Definition autoscalingKeys : list string := [cpuKey; memoryKey; gpuKey; labelsKey].

(** The annotations of a MachineSet as a map: none for the nil map. *)
Definition annotationsOf (machineSet : MachineSet) : gmap string string :=
  default ∅ (MachineSet_Annotations machineSet).

(** The entry of the labels annotation for an architecture. *)
Definition archLabel (arch : string) : string := "kubernetes.io/arch=" +:+ arch.

(** An entry [key=value] of a labels annotation, and the annotation with
    the entries [entries]: the entries, joined by commas. *)
Definition labelEntry (kv : string * string) : string := kv.1 +:+ "=" +:+ kv.2.

Definition labelList (entries : list (string * string)) : string :=
  Join (map labelEntry entries) ",".

(** A key or a value as it can stand in an entry: it holds no comma and
    no equals sign. *)
Definition plain (s : string) : Prop :=
  Forall (fun c => c <> ","%char /\ c <> "="%char) (list_ascii_of_string s).

(** The entries [entries] are made of such keys and values. *)
Definition plainEntries (entries : list (string * string)) : Prop :=
  Forall (fun kv => plain kv.1 /\ plain kv.2) entries.

(** [key=value] is the last entry of [entries] with the key [key]. *)
Definition lastEntry (entries : list (string * string)) (key value : string) : Prop :=
  exists before after,
    entries = before ++ (key, value) :: after /\ key ∉ after.*1.

(** The warning event for an instance type the cache does not know. *)
Definition failedUpdate (machineSet : MachineSet) : event :=
  Eventf (MachineSet_Name machineSet) "Warning" "FailedUpdate"
    "Failed to set autoscaling from zero annotations, instance type unknown" None.

(** The two calls [reconcile] makes before it decides: for the client of
    the cloud, and for the instance type, whose answer is [instanceType]
    and [err]. *)
Definition lookupCalls (machineSet : MachineSet)
    (providerConfig : machinev1beta1.AWSMachineProviderConfig)
    (credentialsSecret : machinev1beta1.LocalObjectReference)
    (instanceType : InstanceType) (err : option error) : list event :=
  let region := machinev1beta1.Placement_Region (machinev1beta1.Placement_ providerConfig) in
  [ AwsClientBuilderCall (machinev1beta1.LocalObjectReference_Name credentialsSecret)
      (MachineSet_Namespace machineSet) region None;
    GetInstanceTypeCall region (machinev1beta1.InstanceType providerConfig)
      instanceType err ].

(** Whether an event is an event of the recorder. *)
Definition isRecorded (e : event) : bool :=
  match e with
  | Eventf _ _ _ _ _ => true
  | _ => false
  end.

End machineset.

(** ** Stubs for the MachineSet reconciler, after the cases of its test *)

Module machineset_stubs.
Import machineset_api.

(** A stand-in for the decoder of the provider spec: the raw bytes are
    the instance type. *)
Definition stubProviderConfig (instanceType : string)
    : machinev1beta1.AWSMachineProviderConfig :=
  machinev1beta1.mkAWSMachineProviderConfig
    (machinev1beta1.mkAWSResourceReference None None None)
    instanceType [] None
    (Some (machinev1beta1.mkLocalObjectReference "aws-credentials-secret"))
    None 0%Z None "" []
    (machinev1beta1.mkAWSResourceReference None None None)
    (machinev1beta1.mkPlacement "us-east-1" "" "")
    [] None (machinev1beta1.mkMetadataServiceOptions "") "" None "" "".

Definition stubProviderSpec (raw : option RawExtension)
    : option machinev1beta1.AWSMachineProviderConfig * option error :=
  match raw with
  | Some raw => (Some (stubProviderConfig (RawExtension_Raw raw)), None)
  | None => (None, Some (Errorf "no provider spec"))
  end.

(** The instance types the stub cache knows. *)
Definition stubInstanceTypes : list InstanceType :=
  [ mkInstanceType "a1.2xlarge" 8 16384 0 "amd64";
    mkInstanceType "p2.16xlarge" 64 749568 16 "amd64";
    mkInstanceType "m6g.4xlarge" 16 65536 0 "arm64" ].

Definition stubGetInstanceType (args : awsclient.Client unit * string * string) (s : unit)
    : (InstanceType * option error) * unit :=
  match List.find (fun t => String.eqb (InstanceType_InstanceType t) (snd args))
          stubInstanceTypes with
  | Some t => ((t, None), s)
  | None =>
      ((mkInstanceType "" 0 0 0 "",
        Some (Errorf "instance type %q not found: The valid instance types in the current region are: %q")),
       s)
  end.

(** A MachineSet of the instance type [instanceType] with the annotations
    [annotations]. *)
Definition newTestMachineSet (instanceType : string)
    (annotations : option (gmap string string)) : MachineSet :=
  mkMachineSet "test-machineset" "openshift-machine-api" annotations None
    (Some (mkRawExtension instanceType))
    (mkMachineSetStatus MachineAuthorityMachineAPI []).

Definition stubReconciler : machineset.Reconciler unit :=
  machineset.mkReconciler unit
    (fun _ s => ((newTestMachineSet "p2.16xlarge" None, None), s))
    (fun args s => ((fst args, None), s))
    (fun _ s => ((fake.NewClient fake.nothing, None), s))
    stubGetInstanceType
    (fun _ => false).

(** A run of [reconcile] on such a MachineSet, from an empty trace. *)
Definition stubReconcile (instanceType : string)
    (annotations : option (gmap string string))
    : go (MachineSet * (ctrl.Result * option error)) * world unit :=
  machineset.reconcile stubProviderSpec stubReconciler
    (newTestMachineSet instanceType annotations) (mkWorld tt []).

End machineset_stubs.

(** * Further code of the repository *)

(** ** Vocabulary for the launcher *)

Module launcher_spec.

(** The spot request for the spot options [options] of a provider
    config: a maximal price only when it is not empty. *)
Definition spotRequest (options : machinev1beta1.SpotMarketOptions)
    : ec2.InstanceMarketOptionsRequest :=
  ec2.mkInstanceMarketOptionsRequest (Some "spot")
    (Some (ec2.mkSpotMarketOptions (Some "terminate")
             (match machinev1beta1.SpotMarketOptions_MaxPrice options with
              | None | Some "" => None
              | Some maxPrice => Some maxPrice
              end)
             (Some "one-time"))).

End launcher_spec.

Module placement_spec.

(** The tenancies [constructInstancePlacement] accepts. *)
Definition validTenancy (tenancy : string) : Prop :=
  tenancy = "" \/ tenancy = "default" \/ tenancy = "dedicated" \/ tenancy = "host".

End placement_spec.

(** ** Vocabulary for the block device mappings *)

Module blockdevice_spec.
Import machinev1beta1.

(** A spec of an EBS device without a device name: the root device. *)
Definition unnamedEBS (spec : BlockDeviceMappingSpec) : Prop :=
  BlockDeviceMappingSpec_EBS spec <> None
  /\ BlockDeviceMappingSpec_DeviceName spec = None.

#[global] Instance unnamedEBS_dec spec : Decision (unnamedEBS spec).
Proof. unfold unnamedEBS. apply _. Defined.

Definition hasEBS (spec : BlockDeviceMappingSpec) : Prop :=
  BlockDeviceMappingSpec_EBS spec <> None.

#[global] Instance hasEBS_dec spec : Decision (hasEBS spec).
Proof. unfold hasEBS. apply _. Defined.

(** The volume types that take an IOPS setting. *)
Definition iopsVolume (volumeType : option string) : Prop :=
  StringValue volumeType = "io1" \/ StringValue volumeType = "io2"
  \/ StringValue volumeType = "gp3".

(** The mapping [mapping] is the one of the spec [spec], for the root
    device name [rootDeviceName] of the image. *)
Definition mapped (rootDeviceName : option string) (spec : BlockDeviceMappingSpec)
    (mapping : ec2.BlockDeviceMapping) : Prop :=
  exists ebs device,
    BlockDeviceMappingSpec_EBS spec = Some ebs
    /\ ec2.BlockDeviceMapping_Ebs mapping = Some device
    /\ ec2.BlockDeviceMapping_DeviceName mapping
       = match BlockDeviceMappingSpec_DeviceName spec with
         | Some deviceName => Some deviceName
         | None => rootDeviceName
         end
    /\ ec2.Ebs_VolumeSize device = EBS_VolumeSize ebs
    /\ ec2.Ebs_VolumeType device = EBS_VolumeType ebs
    /\ ec2.Ebs_Encrypted device = EBS_Encrypted ebs
    /\ ec2.Ebs_DeleteOnTermination device = Some true
    /\ (forall n, ec2.Ebs_Iops device = Some n
                  <-> EBS_Iops ebs = Some n /\ (0 < n)%Z /\ iopsVolume (EBS_VolumeType ebs))
    /\ let id := AWSResourceReference_ID (EBS_KMSKey ebs) in
       let arn := AWSResourceReference_ARN (EBS_KMSKey ebs) in
       (StringValue id <> "" -> ec2.Ebs_KmsKeyId device = id)
       /\ (StringValue id = "" -> StringValue arn <> "" -> ec2.Ebs_KmsKeyId device = arn)
       /\ (StringValue id = "" -> StringValue arn = "" -> ec2.Ebs_KmsKeyId device = None).

End blockdevice_spec.

(** ** Vocabulary for the resolvers of the launcher *)

Module resolver_spec.
Import machinev1beta1.

(** The describe requests of [securityGroups]: one for each reference
    that is not given by ID and has filters, for these filters, in the
    order of the references. *)
Definition describeRequests (securityGroups : list AWSResourceReference)
    : list ec2.DescribeSecurityGroupsInput :=
  omap (fun g =>
          match AWSResourceReference_ID g, AWSResourceReference_Filters g with
          | None, Some filters =>
              Some (ec2.mkDescribeSecurityGroupsInput (Instances.buildEC2Filters filters))
          | _, _ => None
          end)
    securityGroups.

(** The event [e] is a call of [DescribeSecurityGroups] with the request
    [request], whatever its answer. *)
Definition describes (e : event) (request : ec2.DescribeSecurityGroupsInput) : Prop :=
  exists out err, e = DescribeSecurityGroupsCall request out err.

End resolver_spec.

(** ** Vocabulary for the placement-group controller *)

Module placementgroup_spec.
Import machinev1.

(** The managed part of a spec is well formed: a known group type and,
    if a partition is given, a count between 1 and 7. *)
Definition validManaged (managed : ManagedAWSPlacementGroup) : Prop :=
  (Managed_GroupType managed = "Cluster" \/ Managed_GroupType managed = "Partition"
   \/ Managed_GroupType managed = "Spread")
  /\ forall partition, Managed_Partition managed = Some partition ->
       (1 <= AWSPartitionPlacement_Count partition <= 7)%Z.

(** What [validateAWSPlacementGroup] accepts. *)
Definition valid (pg : AWSPlacementGroup) : Prop :=
  let state := ManagementSpec_ManagementState (Spec_ManagementSpec (Spec pg)) in
  let managed := ManagementSpec_Managed (Spec_ManagementSpec (Spec pg)) in
  (state = "Managed" \/ state = "Unmanaged")
  /\ (state = "Managed" ->
      managed <> None /\ Status_ManagementState (Status pg) <> "Unmanaged")
  /\ forall m, managed = Some m -> validManaged m.

(** The strategy of the cloud for a group type of the API. *)
Definition strategyFor (groupType : string) : option string :=
  if String.eqb groupType "Spread" then Some "spread"
  else if String.eqb groupType "Cluster" then Some "cluster"
  else if String.eqb groupType "Partition" then Some "partition"
  else None.

(** The placement group of the cloud matches the managed spec of the
    object: name, strategy and, for a partition group with a count that
    is set, the count. *)
Definition matches (pg : AWSPlacementGroup) (managed : ManagedAWSPlacementGroup)
    (placementGroup : ec2.PlacementGroup) : Prop :=
  StringValue (ec2.PlacementGroup_GroupName placementGroup) = Name pg
  /\ strategyFor (Managed_GroupType managed)
     = Some (StringValue (ec2.PlacementGroup_Strategy placementGroup))
  /\ (Managed_GroupType managed = "Partition" ->
      forall partition, Managed_Partition managed = Some partition ->
        AWSPartitionPlacement_Count partition <> 0%Z ->
        AWSPartitionPlacement_Count partition
        = Int64Value (ec2.PlacementGroup_PartitionCount placementGroup)).

(** No call that changes the cloud. *)
Definition readOnly (e : event) : Prop :=
  match e with
  | CreatePlacementGroupCall _ _ _ | DeletePlacementGroupCall _ _ _
  | RunInstancesCall _ _ _ => False
  | _ => True
  end.

(** Not a call of [CreatePlacementGroup]. *)
Definition notCreatePlacementGroup (e : event) : Prop :=
  match e with
  | CreatePlacementGroupCall _ _ _ => False
  | _ => True
  end.

(** [pg'] is [pg] with another status: name, namespace, deletion
    timestamp, finalizers and spec are the same. *)
Definition statusOnly (pg pg' : AWSPlacementGroup) : Prop :=
  Name pg' = Name pg /\ Namespace pg' = Namespace pg
  /\ DeletionTimestamp pg' = DeletionTimestamp pg
  /\ Finalizers pg' = Finalizers pg /\ Spec pg' = Spec pg.

(** The finalizer of the controller is on the object. *)
Definition hasFinalizer (pg : AWSPlacementGroup) : bool :=
  awsplacementgroup.ContainsFinalizer pg awsplacementgroup.awsPlacementGroupFinalizer.

(** A step that makes no call and changes the status only, and in it
    neither the expiry nor the management state. *)
Definition keeps {S : Type} (pg : AWSPlacementGroup) (w : world S)
    (r : go AWSPlacementGroup) (w' : world S) : Prop :=
  trace w' = trace w
  /\ exists pg', r = Done pg' /\ statusOnly pg pg'
       /\ Status_ExpiresAt (Status pg') = Status_ExpiresAt (Status pg)
       /\ Status_ManagementState (Status pg') = Status_ManagementState (Status pg).

(** The first steps of [reconcile]: the clock, and the observed
    configuration when the cached one is absent or expired.  What matters
    of them: they only read the cloud, they change the status only, and
    when they succeed the status has an expiry. *)
Definition synced {S : Type} (pg : AWSPlacementGroup) (w : world S)
    (r : go (AWSPlacementGroup * option error)) (w' : world S) : Prop :=
  (exists evs, trace w' = trace w ++ evs /\ Forall readOnly evs)
  /\ forall pg' err, r = Done (pg', err) ->
       statusOnly pg pg'
       /\ (err = None -> is_Some (Status_ExpiresAt (Status pg'))).

End placementgroup_spec.

(** * Proofs *)

(** ** Tags *)

Section TagsFacts.
Import Tags.

Lemma fold_left_snoc_map {A B : Type} (f : A -> B) (l : list A) (acc : list B) :
  fold_left (fun acc x => acc ++ [f x]) l acc = acc ++ map f l.
Proof.
  revert acc. induction l as [|x l IH]; intros acc; simpl.
  - by rewrite app_nil_r.
  - rewrite IH. by rewrite <- app_assoc.
Qed.

Lemma fold_left_snoc_filter {A B : Type} (P : A -> bool) (f : A -> B)
    (l : list A) (acc : list B) :
  fold_left (fun acc x => if P x then acc ++ [f x] else acc) l acc
  = acc ++ map f (List.filter P l).
Proof.
  revert acc. induction l as [|x l IH]; intros acc; simpl.
  - by rewrite app_nil_r.
  - rewrite IH. destruct (P x); simpl; [by rewrite <- app_assoc | done].
Qed.

Lemma filter_all_id {A : Type} (P : A -> Prop) `{!forall x, Decision (P x)} (l : list A) :
  (forall x, x ∈ l -> P x) -> filter P l = l.
Proof.
  induction l as [|x l IH]; intros Hall; [done|].
  rewrite filter_cons_True by (apply Hall; left). f_equal. apply IH.
  intros y Hy. apply Hall. by right.
Qed.

Lemma merge_spec machineTags infra :
  mergeInfrastructureAndMachineSpecTags machineTags infra
  = machineTags ++ infraResourceTags infra.
Proof.
  unfold mergeInfrastructureAndMachineSpecTags, infraResourceTags.
  repeat case_match; rewrite ?app_nil_r; try done.
  apply fold_left_snoc_map.
Qed.

Lemma first_occurrences_filter {A : Type} (key : A -> string) (Q : string -> Prop)
    {Qdec : forall k, Decision (Q k)} (l : list A) :
  filter (fun x => Q (key x)) (first_occurrences key l)
  = first_occurrences key (filter (fun x => Q (key x)) l).
Proof.
  induction l as [|x l IH]; [done|]. simpl.
  destruct (decide (Q (key x))) as [HQ|HQ].
  - rewrite !filter_cons_True by done. simpl. f_equal.
    rewrite <- IH. rewrite !list_filter_filter.
    apply list_filter_iff. intros y. tauto.
  - rewrite !filter_cons_False by done. rewrite <- IH.
    rewrite list_filter_filter. apply list_filter_iff.
    intros y. split; [tauto|]. intros Hy. split; [done|]. congruence.
Qed.

Lemma first_occurrences_map {A B : Type} (key : B -> string) (f : A -> B) (l : list A) :
  first_occurrences key (map f l) = map f (first_occurrences (fun x => key (f x)) l).
Proof.
  induction l as [|x l IH]; [done|]. simpl. f_equal. rewrite IH.
  generalize (first_occurrences (fun x0 => key (f x0)) l). intros l'.
  induction l' as [|y l' IH']; [done|]. simpl.
  rewrite !filter_cons. destruct (decide (key (f y) <> key (f x))); simpl; by rewrite IH'.
Qed.

Lemma first_occurrences_app {A : Type} (key : A -> string) (l1 l2 : list A) :
  first_occurrences key (l1 ++ l2)
  = first_occurrences key l1
    ++ filter (fun y => Forall (fun x => key y <> key x) l1) (first_occurrences key l2).
Proof.
  induction l1 as [|x l1 IH]; simpl.
  - symmetry. apply filter_all_id. intros y _. constructor.
  - f_equal. rewrite IH, filter_app. f_equal.
    rewrite list_filter_filter. apply list_filter_iff. intros y.
    rewrite Forall_cons. tauto.
Qed.

Lemma first_occurrences_keys {A : Type} (key : A -> string) (l : list A) :
  NoDup (map key (first_occurrences key l))
  /\ forall x, x ∈ first_occurrences key l -> x ∈ l.
Proof.
  induction l as [|x l [IH1 IH2]]; simpl.
  - split; [constructor | done].
  - split.
    + constructor.
      * rewrite list_elem_of_fmap. intros (y & Hy & Hin).
        apply list_elem_of_filter in Hin as [Hne _]. congruence.
      * clear IH2. induction (first_occurrences key l) as [|y l' IHl]; [constructor|].
        inversion IH1; subst. rewrite filter_cons.
        destruct (decide (key y <> key x)); [|by apply IHl].
        simpl. constructor; [|by apply IHl].
        rewrite list_elem_of_fmap. intros (z & Hz & Hin).
        apply list_elem_of_filter in Hin as [_ Hin].
        match goal with H : _ ∉ _ |- _ => apply H end.
        rewrite list_elem_of_fmap. eauto.
    + intros y. rewrite elem_of_cons, list_elem_of_filter, elem_of_cons. intuition auto.
Qed.

Lemma removeDuplicatedTags_loop_spec (tags : list ec2.Tag) (m : gmap string bool)
    (result : list ec2.Tag) :
  Forall (fun t => is_Some (ec2.Tag_Key t)) tags ->
  removeDuplicatedTags_loop tags m result
  = Done (result ++ filter (fun t => m !! keyOf t = None) (first_occurrences keyOf tags)).
Proof.
  intros Hkeys. revert m result.
  induction Hkeys as [|entry rest [k Hk] _ IH]; intros m result; simpl.
  - by rewrite app_nil_r.
  - rewrite Hk. assert (Hkey : keyOf entry = k) by (unfold keyOf; by rewrite Hk).
    destruct (m !! k) as [b|] eqn:Hm.
    + rewrite IH. do 2 f_equal.
      rewrite filter_cons_False by (rewrite Hkey, Hm; done).
      rewrite list_filter_filter. apply list_filter_iff. intros y.
      split; [|tauto]. intros Hy. split; [done|]. rewrite Hkey. congruence.
    + rewrite IH. rewrite <- app_assoc. simpl. do 2 f_equal.
      rewrite filter_cons_True by (rewrite Hkey; done). f_equal.
      rewrite list_filter_filter. apply list_filter_iff. intros y.
      rewrite Hkey. destruct (decide (keyOf y = k)) as [->|Hne].
      * rewrite lookup_insert_eq. intuition congruence.
      * rewrite lookup_insert_ne by done. tauto.
Qed.

Lemma removeDuplicatedTags_spec (tags : list ec2.Tag) :
  Forall (fun t => is_Some (ec2.Tag_Key t)) tags ->
  removeDuplicatedTags tags = Done (first_occurrences keyOf tags).
Proof.
  intros H. unfold removeDuplicatedTags. rewrite removeDuplicatedTags_loop_spec by done.
  simpl. f_equal. apply filter_all_id. intros x _. apply lookup_empty.
Qed.

Lemma reserved_bool (name : string) :
  negb (HasPrefix name "kubernetes.io/cluster/") && negb (String.eqb name "Name") = true
  <-> ~ reserved name.
Proof.
  unfold reserved. rewrite andb_true_iff, !negb_true_iff.
  destruct (HasPrefix name "kubernetes.io/cluster/");
    destruct (String.eqb_spec name "Name"); intuition congruence.
Qed.

Lemma filter_reserved_bool (l : list machinev1beta1.TagSpecification) :
  List.filter
    (fun t => negb (HasPrefix (machinev1beta1.TagSpecification_Name t) "kubernetes.io/cluster/")
              && negb (String.eqb (machinev1beta1.TagSpecification_Name t) "Name")) l
  = filter (fun t => ~ reserved (machinev1beta1.TagSpecification_Name t)) l.
Proof.
  induction l as [|t l IH]; [done|]. simpl. rewrite filter_cons, IH.
  destruct (decide (~ reserved (machinev1beta1.TagSpecification_Name t))) as [Hr|Hr].
  - apply reserved_bool in Hr. by rewrite Hr.
  - rewrite <- reserved_bool in Hr. by apply not_true_is_false in Hr as ->.
Qed.

Lemma clusterKey_reserved clusterID : reserved ("kubernetes.io/cluster/" +:+ clusterID).
Proof. left. destruct clusterID; vm_compute; reflexivity. Qed.

Lemma clusterKey_not_Name clusterID : "kubernetes.io/cluster/" +:+ clusterID <> "Name".
Proof. discriminate. Qed.

(** The whole of [buildTagList], as one equation. *)
Lemma buildTagList_eq machineName clusterID machineTags infra :
  buildTagList machineName clusterID machineTags infra
  = Done (map toTag
            (filter (fun t => ~ reserved (machinev1beta1.TagSpecification_Name t))
               (first_occurrences machinev1beta1.TagSpecification_Name
                  (machineTags ++ infraResourceTags infra)))
          ++ [clusterTag clusterID; nameTag machineName]).
Proof.
  unfold buildTagList. rewrite merge_spec.
  rewrite (fold_left_snoc_filter _ toTag). simpl. rewrite filter_reserved_bool.
  set (merged := machineTags ++ infraResourceTags infra).
  set (F := filter _ merged).
  assert (HF : forall t, t ∈ F -> ~ reserved (machinev1beta1.TagSpecification_Name t)).
  { intros t Ht. subst F. by apply list_elem_of_filter in Ht as [? _]. }
  rewrite removeDuplicatedTags_spec.
  2:{ apply Forall_app. split.
      - apply Forall_forall. intros t Ht. apply list_elem_of_fmap in Ht as (? & -> & _).
        by eexists.
      - repeat constructor; by eexists. }
  f_equal. rewrite first_occurrences_app. f_equal.
  - rewrite first_occurrences_map. f_equal. subst F.
    change (fun x => keyOf (toTag x)) with machinev1beta1.TagSpecification_Name.
    symmetry.
    apply (first_occurrences_filter machinev1beta1.TagSpecification_Name (fun k => ~ reserved k)
             (Qdec := fun k => not_dec (reserved_dec k))).
  - simpl.
    rewrite (filter_cons_True _ (nameTag machineName))
      by (intros Heq; by apply (clusterKey_not_Name clusterID)).
    rewrite filter_nil.
    assert (Hfresh : forall k, reserved k ->
              Forall (fun x => k <> keyOf x) (map toTag F)).
    { intros k Hk. apply Forall_forall. intros x Hx.
      apply list_elem_of_fmap in Hx as (t & -> & Ht). intros ->. by apply (HF t). }
    rewrite filter_cons_True by (apply Hfresh, clusterKey_reserved).
    rewrite filter_cons_True by (apply Hfresh; by right).
    done.
Qed.

(** The example of the specification: of two tags with the key [K] the
    first is kept. *)
Example buildTagList_dedup_example :
  buildTagList "machineName" "clusterID"
    [ machinev1beta1.mkTagSpecification "K" "a"; machinev1beta1.mkTagSpecification "K" "b";
      machinev1beta1.mkTagSpecification "Other" "c" ] None
  = Done [ ec2.tag "K" "a"; ec2.tag "Other" "c";
           ec2.tag "kubernetes.io/cluster/clusterID" "owned"; ec2.tag "Name" "machineName" ].
Proof. vm_compute. reflexivity. Qed.

(** The tests of [TestBuildTagList]: reserved keys of the machine and of
    the infrastructure object are dropped, machine tags win. *)
Example buildTagList_test_precedence :
  buildTagList "machineName" "clusterID"
    [ machinev1beta1.mkTagSpecification "Name" "badname";
      machinev1beta1.mkTagSpecification "kubernetes.io/cluster/badid" "badvalue";
      machinev1beta1.mkTagSpecification "good" "goodvalue" ]
    (Some (mkInfrastructure (mkInfrastructureStatus ""
       (Some (mkPlatformStatus (Some (mkAWSPlatformStatus ""
          (Some [ mkAWSResourceTag "good" "should-be-overwritten" ]))))))))
  = Done [ ec2.tag "good" "goodvalue";
           ec2.tag "kubernetes.io/cluster/clusterID" "owned"; ec2.tag "Name" "machineName" ].
Proof. vm_compute. reflexivity. Qed.

End TagsFacts.

(** C1.  For every machine name, cluster ID, list of machine tags and
    infrastructure object, [buildTagList] returns (without panicking) the
    user tags followed by the two reserved tags
    [kubernetes.io/cluster/<clusterID> = owned] and [Name = <machineName>],
    in this order and last.  The user tags are the machine-spec tags
    followed by the infrastructure tags, of which only the first occurrence
    of each key is kept and from which every tag whose key is [Name] or
    starts with [kubernetes.io/cluster/] is dropped.  So the keys of the
    result are pairwise distinct, and the only tags of the result carrying
    a reserved key are the reserved pair, with exactly those values. *)
Theorem buildTagList_reserved_pair_last
    (machineName clusterID : string) (machineTags : list machinev1beta1.TagSpecification)
    (infra : option Infrastructure) :
  exists user : list ec2.Tag,
    Tags.buildTagList machineName clusterID machineTags infra
    = Done (user ++ [Tags.clusterTag clusterID; Tags.nameTag machineName])
    /\ user = map Tags.toTag
                (filter (fun t => ~ Tags.reserved (machinev1beta1.TagSpecification_Name t))
                   (Tags.first_occurrences machinev1beta1.TagSpecification_Name
                      (machineTags ++ Tags.infraResourceTags infra)))
    /\ (forall t, t ∈ user -> ~ Tags.reserved (Tags.keyOf t))
    /\ NoDup (map Tags.keyOf (user ++ [Tags.clusterTag clusterID; Tags.nameTag machineName]))
    /\ (forall t, t ∈ user ++ [Tags.clusterTag clusterID; Tags.nameTag machineName] ->
          (Tags.keyOf t = "Name" -> t = Tags.nameTag machineName)
          /\ (Tags.keyOf t = "kubernetes.io/cluster/" +:+ clusterID ->
              t = Tags.clusterTag clusterID)).
Proof.
  eexists. split; [apply buildTagList_eq|]. split; [reflexivity|].
  set (F := filter _ _).
  assert (HF : forall t, t ∈ map Tags.toTag F -> ~ Tags.reserved (Tags.keyOf t)).
  { intros t Ht. apply list_elem_of_fmap in Ht as (s & -> & Hs).
    subst F. by apply list_elem_of_filter in Hs as [? _]. }
  split; [exact HF|]. split.
  - rewrite map_app. apply NoDup_app. split; [|split].
    + rewrite map_map. subst F.
      rewrite (first_occurrences_filter machinev1beta1.TagSpecification_Name
                 (fun k => ~ Tags.reserved k)
                 (Qdec := fun k => not_dec (Tags.reserved_dec k))).
      apply (first_occurrences_keys machinev1beta1.TagSpecification_Name).
    + intros k Hk Hk'. apply list_elem_of_fmap in Hk as (t & -> & Ht).
      apply HF in Ht. apply Ht.
      apply elem_of_cons in Hk' as [->|Hk'].
      * apply clusterKey_reserved.
      * apply list_elem_of_singleton in Hk' as ->. by right.
    + simpl. constructor; [|constructor; [apply not_elem_of_nil|constructor]].
      rewrite list_elem_of_singleton. apply clusterKey_not_Name.
  - intros t Ht. apply elem_of_app in Ht as [Ht|Ht].
    + apply HF in Ht. split; intros Hk; exfalso; apply Ht; rewrite Hk.
      * by right.
      * apply clusterKey_reserved.
    + apply elem_of_cons in Ht as [->|Ht].
      * split; [|done]. intros Hk. by apply clusterKey_not_Name in Hk.
      * apply list_elem_of_singleton in Ht as ->. split; [done|].
        intros Hk. symmetry in Hk. by apply clusterKey_not_Name in Hk.
Qed.

(** ** Market options *)

(** C2.  For a provider config whose market type is unset: when spot
    options are set (even empty), [getInstanceMarketOptionsRequest] infers
    the market type [Spot] and returns, without error, a request with
    [MarketType = spot], [InstanceInterruptionBehavior = terminate],
    [SpotInstanceType = one-time] and a [MaxPrice] only when the configured
    maximal price is a non-empty string; when no spot options are set the
    market type defaults to [OnDemand] and the function returns nil, without
    error. *)
Theorem getInstanceMarketOptionsRequest_inferred
    (providerConfig : machinev1beta1.AWSMachineProviderConfig) :
  machinev1beta1.MarketType providerConfig = "" ->
  match machinev1beta1.SpotMarketOptions_ providerConfig with
  | Some spotMarketOptions =>
      Instances.getInstanceMarketOptionsRequest providerConfig
      = Done (machinev1beta1.set_MarketType providerConfig machinev1beta1.MarketTypeSpot,
              (Some (ec2.mkInstanceMarketOptionsRequest (Some "spot")
                       (Some (ec2.mkSpotMarketOptions (Some "terminate")
                                (match machinev1beta1.SpotMarketOptions_MaxPrice
                                         spotMarketOptions with
                                 | None | Some "" => None
                                 | Some maxPrice => Some maxPrice
                                 end)
                                (Some "one-time")))),
               None))
  | None =>
      Instances.getInstanceMarketOptionsRequest providerConfig
      = Done (machinev1beta1.set_MarketType providerConfig machinev1beta1.MarketTypeOnDemand,
              (None, None))
  end.
Proof.
  intros Hmt. unfold Instances.getInstanceMarketOptionsRequest. rewrite Hmt. simpl.
  destruct (machinev1beta1.SpotMarketOptions_ providerConfig) as [[maxPrice]|] eqn:Hspot;
    simpl.
  - rewrite Hspot. destruct maxPrice as [[|c p]|]; reflexivity.
  - rewrite Hmt. reflexivity.
Qed.

(** The test "with an empty Spot options specified" of
    [TestGetInstanceMarketOptionsRequest], through C2. *)
Lemma getInstanceMarketOptionsRequest_inferred_witness :
  let providerConfig :=
    machinev1beta1.mkAWSMachineProviderConfig
      (machinev1beta1.mkAWSResourceReference None None None) "" [] None None None 0 None ""
      [] (machinev1beta1.mkAWSResourceReference None None None)
      (machinev1beta1.mkPlacement "" "" "") []
      (Some (machinev1beta1.mkSpotMarketOptions None))
      (machinev1beta1.mkMetadataServiceOptions "") "" None "" "" in
  Instances.getInstanceMarketOptionsRequest providerConfig
  = Done (machinev1beta1.set_MarketType providerConfig "Spot",
          (Some (ec2.mkInstanceMarketOptionsRequest (Some "spot")
                   (Some (ec2.mkSpotMarketOptions (Some "terminate") None
                            (Some "one-time")))), None)).
Proof.
  intros providerConfig.
  exact (getInstanceMarketOptionsRequest_inferred providerConfig eq_refl).
Defined.

(** ** Capacity reservation *)

Section CapacityReservationFacts.
Import regexp Instances.

Lemma matches_Concat r1 r2 b s k :
  matches (Concat r1 r2) b s k = matches r1 b s (fun b' s' => matches r2 b' s' k).
Proof. reflexivity. Qed.

Lemma matches_BeginText b s k : matches BeginText b s k = b && k b s.
Proof. reflexivity. Qed.

Lemma matches_Literal c b s k :
  matches (Literal c) b s k
  = match s with
    | String c' s' => Ascii.eqb c c' && k false s'
    | EmptyString => false
    end.
Proof. reflexivity. Qed.

Lemma matches_repeat_class ranges k n b s :
  matches (Repeat (CharClass ranges) (S n)) b s k
  = match strip_class ranges (S n) s with
    | Some rest => k false rest
    | None => false
    end.
Proof.
  revert b s. induction n as [|n IH]; intros b s.
  - simpl. destruct s as [|c s]; [done|]. by destruct (in_class ranges c).
  - specialize (IH false).
    change (matches (Repeat (CharClass ranges) (S (S n))) b s k)
      with (matches (CharClass ranges) b s
              (fun b' s' => matches (Repeat (CharClass ranges) (S n)) b' s' k)).
    simpl matches at 1. destruct s as [|c s]; [done|].
    change (strip_class ranges (S (S n)) (String c s))
      with (if in_class ranges c then strip_class ranges (S n) s else None).
    destruct (in_class ranges c); [|done]. simpl andb. apply IH.
Qed.

Lemma strip_class_all ranges n s :
  strip_class ranges n s = Some EmptyString
  <-> String.length s = n /\ forallb (in_class ranges) (list_ascii_of_string s) = true.
Proof.
  revert s. induction n as [|n IH]; intros s; simpl.
  - destruct s; simpl; [tauto|]. split; [congruence|]. intros [? _]. lia.
  - destruct s as [|c s]; simpl; [split; [congruence | intros [? _]; lia]|].
    destruct (in_class ranges c); simpl.
    + rewrite IH. split; intros [? ?]; split; auto; lia.
    + split; [congruence | intros [_ ?]; congruence].
Qed.

Lemma strip_class_end ranges n s :
  match strip_class ranges n s with
  | Some rest => matches EndText false rest (fun _ _ => true)
  | None => false
  end
  = (String.length s =? n)%nat && forallb (in_class ranges) (list_ascii_of_string s).
Proof.
  pose proof (strip_class_all ranges n s) as H.
  destruct (strip_class ranges n s) as [[|c r]|] eqn:E; simpl.
  - destruct H as [H _]. destruct (H eq_refl) as [-> ->]. by rewrite Nat.eqb_refl.
  - symmetry. apply not_true_is_false. rewrite andb_true_iff, Nat.eqb_eq.
    intros Hc. apply H in Hc. congruence.
  - symmetry. apply not_true_is_false. rewrite andb_true_iff, Nat.eqb_eq.
    intros Hc. apply H in Hc. congruence.
Qed.

Lemma in_class_lower_hex c :
  in_class [("0", "9"); ("a", "f")]%char c = is_lower_hex c.
Proof.
  unfold in_class, is_lower_hex, in_range. cbn [existsb fst snd].
  change (nat_of_ascii "0") with 48%nat. change (nat_of_ascii "9") with 57%nat.
  change (nat_of_ascii "a") with 97%nat. change (nat_of_ascii "f") with 102%nat.
  by rewrite Bool.orb_false_r.
Qed.

Lemma search_unfold r b s :
  search r b s
  = matches r b s (fun _ _ => true)
    || match s with
       | EmptyString => false
       | String _ s' => search r false s'
       end.
Proof. by destruct s. Qed.

Lemma search_not_at_start s : search capacityReservationID_re false s = false.
Proof. induction s as [|c s IH]; simpl; [done|]. exact IH. Qed.

(** [MatchString] of the pattern is the validity of the specification. *)
Lemma MatchString_capacityReservationID s :
  MatchString capacityReservationID_re s = valid_capacityReservationID s.
Proof.
  unfold MatchString.
  assert (Hs : search capacityReservationID_re true s
               = matches capacityReservationID_re true s (fun _ _ => true)).
  { rewrite search_unfold. destruct s as [|c s]; [by rewrite Bool.orb_false_r|].
    by rewrite search_not_at_start, Bool.orb_false_r. }
  rewrite Hs. clear Hs. unfold capacityReservationID_re.
  rewrite matches_Concat, matches_BeginText, Bool.andb_true_l.
  rewrite matches_Concat, matches_Literal.
  destruct s as [|c1 s]; [done|].
  destruct (Ascii.eqb_spec "c" c1) as [<-|Hne];
    [|destruct c1 as [[] [] [] [] [] [] [] []]; try done; congruence].
  rewrite Bool.andb_true_l, matches_Concat, matches_Literal.
  destruct s as [|c2 s]; [done|].
  destruct (Ascii.eqb_spec "r" c2) as [<-|Hne];
    [|destruct c2 as [[] [] [] [] [] [] [] []]; try done; congruence].
  rewrite Bool.andb_true_l, matches_Concat, matches_Literal.
  destruct s as [|c3 s]; [done|].
  destruct (Ascii.eqb_spec "-" c3) as [<-|Hne];
    [|destruct c3 as [[] [] [] [] [] [] [] []]; try done; congruence].
  rewrite Bool.andb_true_l, matches_Concat, matches_repeat_class.
  rewrite (strip_class_end [("0", "9"); ("a", "f")]%char 17 s).
  unfold valid_capacityReservationID.
  f_equal. clear. induction (list_ascii_of_string s) as [|c l IH]; [done|].
  cbn [forallb]. by rewrite in_class_lower_hex, IH.
Qed.

Lemma valid_capacityReservationID_length s :
  valid_capacityReservationID s = true -> String.length s = 20%nat.
Proof.
  unfold valid_capacityReservationID. intros H.
  destruct s as [|c1 s]; [done|].
  destruct c1 as [[] [] [] [] [] [] [] []]; try done.
  destruct s as [|c2 s]; [done|].
  destruct c2 as [[] [] [] [] [] [] [] []]; try done.
  destruct s as [|c3 s]; [done|].
  destruct c3 as [[] [] [] [] [] [] [] []]; try done.
  apply andb_true_iff in H as [Hlen _]. apply Nat.eqb_eq in Hlen. simpl. by rewrite Hlen.
Qed.

End CapacityReservationFacts.

(** The cases of [TestGetCapacityReservationSpecification] named in the
    specification, evaluated on the code. *)
Example getCapacityReservationSpecification_too_short :
  Instances.getCapacityReservationSpecification "cr-1234"
  = (None,
     Some (InvalidMachineConfiguration
             (Errorf "Invalid value for capacityReservationId: %q, it must start with 'cr-' and be exactly 20 characters long with 17 hexadecimal characters."))).
Proof. vm_compute. reflexivity. Qed.

Example getCapacityReservationSpecification_capital :
  Instances.getCapacityReservationSpecification "cr-B234a67891234567A"
  = (None,
     Some (InvalidMachineConfiguration
             (Errorf "Invalid value for capacityReservationId: %q, it must start with 'cr-' and be exactly 20 characters long with 17 hexadecimal characters."))).
Proof. vm_compute. reflexivity. Qed.

Example getCapacityReservationSpecification_valid :
  Instances.getCapacityReservationSpecification "cr-1234a6789d234f6f4"
  = (Some (ec2.mkCapacityReservationSpecification
             (Some (ec2.mkCapacityReservationTarget (Some "cr-1234a6789d234f6f4")))),
     None).
Proof. vm_compute. reflexivity. Qed.

(** C3.  [getCapacityReservationSpecification] returns nil and no error
    for the empty ID; for every non-empty ID that is not [cr-] followed by
    exactly 17 lower-case hexadecimal digits (as [cr-1234] and
    [cr-B234a67891234567A] are not) it returns nil and an
    invalid-configuration error; for every ID of that shape (as
    [cr-1234a6789d234f6f4], of 20 characters) it returns, without error, a
    specification whose target references exactly that ID. *)
Theorem getCapacityReservationSpecification_spec (capacityReservationID : string) :
  (capacityReservationID = "" ->
     Instances.getCapacityReservationSpecification capacityReservationID = (None, None))
  /\ (capacityReservationID <> "" ->
      Instances.valid_capacityReservationID capacityReservationID = false ->
      exists message,
        Instances.getCapacityReservationSpecification capacityReservationID
        = (None, Some (MachineError InvalidConfigurationMachineError message)))
  /\ (Instances.valid_capacityReservationID capacityReservationID = true ->
      String.length capacityReservationID = 20%nat
      /\ Instances.getCapacityReservationSpecification capacityReservationID
         = (Some (ec2.mkCapacityReservationSpecification
                    (Some (ec2.mkCapacityReservationTarget (Some capacityReservationID)))),
            None))
  /\ Instances.valid_capacityReservationID "cr-1234" = false
  /\ Instances.valid_capacityReservationID "cr-B234a67891234567A" = false
  /\ Instances.valid_capacityReservationID "cr-1234a6789d234f6f4" = true.
Proof.
  unfold Instances.getCapacityReservationSpecification.
  rewrite MatchString_capacityReservationID.
  split; [by intros ->|]. split; [|split; [|by vm_compute]].
  - intros Hne Hinv. apply String.eqb_neq in Hne. rewrite Hne, Hinv. simpl. by eexists.
  - intros Hvalid. split.
    + by apply valid_capacityReservationID_length.
    + destruct (String.eqb_spec capacityReservationID "") as [->|_]; [done|].
      by rewrite Hvalid.
Qed.

(** C3 at the identifier [cr-1234a6789d234f6f4]. *)
Lemma getCapacityReservationSpecification_spec_witness :
  Instances.getCapacityReservationSpecification "cr-1234a6789d234f6f4"
  = (Some (ec2.mkCapacityReservationSpecification
             (Some (ec2.mkCapacityReservationTarget (Some "cr-1234a6789d234f6f4")))),
     None).
Proof.
  exact (proj2 (proj1 (proj2 (proj2
           (getCapacityReservationSpecification_spec "cr-1234a6789d234f6f4"))) eq_refl)).
Defined.

(** ** Runs *)

Section RunFacts.
Context {S : Type}.

Lemma wp_ret {A : Type} (a : A) (w : world S) Q : Q (Done a) w -> wp (ret a) w Q.
Proof. done. Qed.

Lemma wp_panic {A : Type} (w : world S) (Q : go A -> world S -> Prop) :
  Q Panic w -> wp panic w Q.
Proof. done. Qed.

Lemma wp_lift {A : Type} (g : go A) (w : world S) Q : Q g w -> wp (lift g) w Q.
Proof. done. Qed.

Lemma wp_emit (e : event) (w : world S) Q :
  Q (Done tt) (mkWorld (env w) (trace w ++ [e])) -> wp (emit e) w Q.
Proof. done. Qed.

Lemma wp_call {I O : Type} (method : I -> S -> (O * option error) * S)
    (record : I -> O -> option error -> event) (input : I) (w : world S) Q :
  (forall output err s', method input (env w) = ((output, err), s') ->
     Q (Done (output, err)) (mkWorld s' (trace w ++ [record input output err]))) ->
  wp (call method record input) w Q.
Proof.
  intros H. unfold wp, call.
  destruct (method input (env w)) as [[output err] s'] eqn:E. by apply H.
Qed.

Lemma wp_bind {A B : Type} (m : M S A) (f : A -> M S B) (w : world S) Q :
  wp m w (fun r w' =>
            match r with
            | Done a => wp (f a) w' Q
            | Panic => Q Panic w'
            end) ->
  wp (bind m f) w Q.
Proof. unfold wp, bind. by destruct (m w) as [[a|] w']. Qed.

Lemma wp_intro {A : Type} (m : M S A) (w : world S) (Q : go A -> world S -> Prop) :
  wp m w Q -> Q (fst (m w)) (snd (m w)).
Proof. done. Qed.

Lemma wp_mono {A : Type} (m : M S A) (w : world S) (Q Q' : go A -> world S -> Prop) :
  wp m w Q -> (forall r w', Q r w' -> Q' r w') -> wp m w Q'.
Proof. unfold wp. auto. Qed.

Lemma wp_quiet {A : Type} (P : event -> Prop) (m : M S A) (w : world S) Q :
  quiet P m ->
  (forall r w', (exists evs, trace w' = trace w ++ evs /\ Forall P evs) -> Q r w') ->
  wp m w Q.
Proof. intros Hq HQ. apply (wp_mono _ _ _ _ (Hq w)). intros r w'. apply HQ. Qed.

Lemma quiet_ret {A : Type} P (a : A) : quiet (S := S) P (ret a).
Proof. intros w. exists []. by rewrite app_nil_r. Qed.

Lemma quiet_panic {A : Type} P : quiet (S := S) (A := A) P panic.
Proof. intros w. exists []. by rewrite app_nil_r. Qed.

Lemma quiet_lift {A : Type} P (g : go A) : quiet (S := S) P (lift g).
Proof. intros w. exists []. by rewrite app_nil_r. Qed.

Lemma quiet_emit P (e : event) : P e -> quiet (S := S) P (emit e).
Proof. intros He w. exists [e]. split; [done|]. by constructor. Qed.

Lemma quiet_call {I O : Type} P (method : I -> S -> (O * option error) * S)
    (record : I -> O -> option error -> event) (input : I) :
  (forall output err, P (record input output err)) ->
  quiet P (call method record input).
Proof.
  intros HP w. apply wp_call. intros output err s' _. eexists. split; [done|].
  by constructor.
Qed.

Lemma quiet_bind {A B : Type} P (m : M S A) (f : A -> M S B) :
  quiet P m -> (forall a, quiet P (f a)) -> quiet P (bind m f).
Proof.
  intros Hm Hf w. apply wp_bind. apply (wp_mono _ _ _ _ (Hm w)).
  intros [a|] w' (evs & Hevs & HP).
  - apply (wp_mono _ _ _ _ (Hf a w')). intros _ w'' (evs' & Hevs' & HP').
    exists (evs ++ evs'). rewrite Hevs', Hevs, <- app_assoc. split; [done|].
    by apply Forall_app.
  - by exists evs.
Qed.

End RunFacts.

(** A step of the proof that a function is [quiet]. *)
Ltac quiet_step :=
  first
    [ apply quiet_ret
    | apply quiet_panic
    | apply quiet_lift
    | apply quiet_emit; exact I
    | apply quiet_call; intros; exact I
    | apply quiet_bind; [|intros]
    | match goal with
      | |- quiet _ (match ?x with _ => _ end) => destruct x
      | |- quiet _ (let (_, _) := ?x in _) => destruct x
      | |- quiet _ (if ?b then _ else _) => destruct b
      end ].

(** ** Resolving the AMI *)

Section AMIFacts.
Import Instances.
Context {S : Type}.
Variable time_Parse_RFC3339 : string -> metav1.Time * option error.

(** The invariant of the loop of [getAMI]: [latestImage] is the newest,
    and the first of the newest, of the images [seen] so far. *)
Lemma getAMI_loop_newest (rest seen : list ec2.Image) (i : nat)
    (latestImage : ec2.Image) (latestTime : metav1.Time) :
  seen !! i = Some latestImage ->
  creationTime time_Parse_RFC3339 latestImage = Some latestTime ->
  (forall j image' t', seen !! j = Some image' ->
     creationTime time_Parse_RFC3339 image' = Some t' ->
     (t' <= latestTime)%Z) ->
  (forall j image' t', (j < i)%nat -> seen !! j = Some image' ->
     creationTime time_Parse_RFC3339 image' = Some t' -> (t' < latestTime)%Z) ->
  Forall (fun image => is_Some (creationTime time_Parse_RFC3339 image)) rest ->
  exists i' image,
    getAMI_loop time_Parse_RFC3339 rest latestImage latestTime
    = Done (ec2.Image_ImageId image, None)
    /\ newest_first time_Parse_RFC3339 (seen ++ rest) i' image.
Proof.
  intros Hi Ht Hle Hlt Hparse. revert seen i latestImage latestTime Hi Ht Hle Hlt.
  induction Hparse as [|image rest [t Himg] _ IH];
    intros seen i latestImage latestTime Hi Ht Hle Hlt.
  - exists i, latestImage. split; [done|]. rewrite app_nil_r.
    split; [done|]. exists latestTime. auto.
  - simpl. unfold Instances.creationTime in Himg.
    destruct (ec2.Image_CreationDate image) as [creationDate|] eqn:Hdate; [|done].
    destruct (time_Parse_RFC3339 creationDate) as [imageTime [e|]] eqn:Hp; [done|].
    injection Himg as ->.
    assert (Himage : creationTime time_Parse_RFC3339 image = Some t).
    { unfold Instances.creationTime. by rewrite Hdate, Hp. }
    assert (Hlen : (i < length seen)%nat) by (by eapply lookup_lt_Some).
    replace (seen ++ image :: rest) with ((seen ++ [image]) ++ rest)
      by (by rewrite <- app_assoc).
    destruct (Z.ltb_spec latestTime t) as [Hnewer|Holder].
    + apply (IH (seen ++ [image]) (length seen)).
      * rewrite lookup_app_r by lia. by rewrite Nat.sub_diag.
      * done.
      * intros j image' t' Hj Ht'. destruct (decide (j < length seen)%nat) as [Hjl|Hjl].
        -- rewrite lookup_app_l in Hj by done. specialize (Hle _ _ _ Hj Ht'). lia.
        -- rewrite lookup_app_r in Hj by lia.
           destruct (j - length seen)%nat; [|done]. injection Hj as <-.
           rewrite Himage in Ht'. injection Ht' as <-. lia.
      * intros j image' t' Hjl Hj Ht'. rewrite lookup_app_l in Hj by done.
        specialize (Hle _ _ _ Hj Ht'). lia.
    + apply (IH (seen ++ [image]) i).
      * by rewrite lookup_app_l.
      * done.
      * intros j image' t' Hj Ht'. destruct (decide (j < length seen)%nat) as [Hjl|Hjl].
        -- rewrite lookup_app_l in Hj by done. by apply (Hle _ _ _ Hj Ht').
        -- rewrite lookup_app_r in Hj by lia.
           destruct (j - length seen)%nat; [|done]. injection Hj as <-.
           rewrite Himage in Ht'. injection Ht' as <-. lia.
      * intros j image' t' Hjl Hj Ht'. rewrite lookup_app_l in Hj by lia.
        by apply (Hlt _ _ _ Hjl Hj Ht').
Qed.

(** The loop stops with an error at the first image whose creation date
    does not parse. *)
Lemma getAMI_loop_unparsable (rest : list ec2.Image) (latestImage : ec2.Image)
    (latestTime : metav1.Time) :
  Forall (fun image => is_Some (ec2.Image_CreationDate image)
                       /\ is_Some (ec2.Image_ImageId image)) rest ->
  Exists (fun image => creationTime time_Parse_RFC3339 image = None) rest ->
  exists e, getAMI_loop time_Parse_RFC3339 rest latestImage latestTime = Done (None, Some e).
Proof.
  intros Hwf. revert latestImage latestTime.
  induction Hwf as [|image rest [[d Hd] [id Hid]] _ IH]; intros latestImage latestTime Hex.
  - inversion Hex.
  - simpl. rewrite Hd, Hid.
    destruct (time_Parse_RFC3339 d) as [imageTime [e|]] eqn:Hp; [by eexists|].
    inversion Hex as [? ? Hnone|? ? Hlater]; subst.
    + unfold Instances.creationTime in Hnone. by rewrite Hd, Hp in Hnone.
    + destruct (latestTime <? imageTime)%Z; by apply IH.
Qed.

End AMIFacts.

(** C8.  When the AMI is given by filters and the describe call answers
    with the images [images]: with no image [getAMI] returns an error; with
    at least one image, all of whose creation dates parse, it returns the
    ID of the image whose creation time is the latest, and of the first
    such image in the order of the answer (no image is newer, every image
    before it is strictly older); and when the creation date of some image
    does not parse it returns an error (every image carrying a creation
    date and an ID). *)
Theorem getAMI_newest_image {S : Type}
    (time_Parse_RFC3339 : string -> metav1.Time * option error)
    (machine : string * string) (AMI : machinev1beta1.AWSResourceReference)
    (client : awsclient.Client S) (w : world S)
    (filters : list machinev1beta1.Filter) (images : list ec2.Image) (s' : S) :
  machinev1beta1.AWSResourceReference_ID AMI = None ->
  machinev1beta1.AWSResourceReference_Filters AMI = Some filters ->
  filters <> [] ->
  awsclient.DescribeImages client
    (ec2.mkDescribeImagesInput (Instances.buildEC2Filters filters) []) (env w)
  = ((Some (ec2.mkDescribeImagesOutput images), None), s') ->
  let r := fst (Instances.getAMI time_Parse_RFC3339 machine AMI client w) in
  (images = [] -> exists e, r = Done (None, Some e))
  /\ (images <> [] ->
      Forall (fun image => is_Some (Instances.creationTime time_Parse_RFC3339 image))
        images ->
      exists i image,
        r = Done (ec2.Image_ImageId image, None)
        /\ Instances.newest_first time_Parse_RFC3339 images i image)
  /\ (Forall (fun image => is_Some (ec2.Image_CreationDate image)
                           /\ is_Some (ec2.Image_ImageId image)) images ->
      Exists (fun image => Instances.creationTime time_Parse_RFC3339 image = None)
        images ->
      exists e, r = Done (None, Some e)).
Proof.
  intros HID HFilters Hne Hcall r. subst r.
  unfold Instances.getAMI. rewrite HID, HFilters.
  destruct filters as [|f filters]; [done|].
  unfold bind, call. cbv beta. rewrite Hcall.
  cbn [fst snd ec2.DescribeImagesOutput_Images].
  split; [by intros ->; eexists|]. split.
  - intros Hsome Hparse. destruct images as [|latestImage rest]; [done|]. clear Hsome.
    inversion Hparse as [|? ? [latestTime Hlatest] Hrest]; subst.
    pose proof Hlatest as Hlatest'. unfold Instances.creationTime in Hlatest.
    destruct (ec2.Image_CreationDate latestImage) as [creationDate|]; [|done].
    destruct (time_Parse_RFC3339 creationDate) as [t [e|]]; [done|].
    injection Hlatest as ->. unfold lift. cbn [fst].
    apply (getAMI_loop_newest time_Parse_RFC3339 rest [latestImage] 0
             latestImage latestTime); try done.
    + intros [|j] image' t' Hj Ht'; [|done]. injection Hj as <-.
      rewrite Hlatest' in Ht'. injection Ht' as <-. lia.
    + intros j image' t' Hj. lia.
  - intros Hwf Hex. destruct images as [|latestImage rest]; [inversion Hex|].
    inversion Hwf as [|? ? [[d Hd] [id Hid]] Hwfrest]; subst.
    rewrite Hd, Hid.
    destruct (time_Parse_RFC3339 d) as [latestTime [e|]] eqn:Hp; [by eexists|].
    unfold lift. cbn [fst].
    inversion Hex as [? ? Hnone|? ? Hlater]; subst.
    + unfold Instances.creationTime in Hnone. by rewrite Hd, Hp in Hnone.
    + by apply getAMI_loop_unparsable.
Qed.

(** C8 on a cloud that answers with an older and a newer image. *)
Lemma getAMI_newest_image_witness :
  let images :=
    [ ec2.mkImage (Some "ami-old") (Some "2019-02-01T00:00:00Z") None;
      ec2.mkImage (Some "ami-new") (Some "2020-02-01T00:00:00Z") None ] in
  let client :=
    fake.NewClient
      (fake.mkAnswers (Some (ec2.mkDescribeImagesOutput images), None)
         (fake.subnets fake.nothing) (fake.zones fake.nothing)
         (fake.securityGroups fake.nothing) (fake.placementGroups fake.nothing)
         (fake.reservation fake.nothing) (fake.instances fake.nothing)
         (fake.createdPlacementGroup fake.nothing)
         (fake.deletedPlacementGroup fake.nothing)) in
  let AMI :=
    machinev1beta1.mkAWSResourceReference None None
      (Some [machinev1beta1.mkFilter "name" ["rhcos"]]) in
  let r := fst (Instances.getAMI fake.time_Parse ("machine", "namespace") AMI client
                  (mkWorld tt [])) in
  (images = [] -> exists e, r = Done (None, Some e))
  /\ (images <> [] ->
      Forall (fun image => is_Some (Instances.creationTime fake.time_Parse image)) images ->
      exists i image,
        r = Done (ec2.Image_ImageId image, None)
        /\ Instances.newest_first fake.time_Parse images i image)
  /\ (Forall (fun image => is_Some (ec2.Image_CreationDate image)
                           /\ is_Some (ec2.Image_ImageId image)) images ->
      Exists (fun image => Instances.creationTime fake.time_Parse image = None) images ->
      exists e, r = Done (None, Some e)).
Proof.
  intros images client AMI.
  apply (getAMI_newest_image fake.time_Parse ("machine", "namespace") AMI client
           (mkWorld tt []) [machinev1beta1.mkFilter "name" ["rhcos"]] images tt);
    [reflexivity | reflexivity | discriminate | reflexivity].
Defined.

(** The newer image is the one returned. *)
Example getAMI_test_newest :
  fst (Instances.getAMI fake.time_Parse ("machine", "namespace")
         (machinev1beta1.mkAWSResourceReference None None
            (Some [machinev1beta1.mkFilter "name" ["rhcos"]]))
         (fake.NewClient
            (fake.mkAnswers
               (Some (ec2.mkDescribeImagesOutput
                  [ ec2.mkImage (Some "ami-old") (Some "2019-02-01T00:00:00Z") None;
                    ec2.mkImage (Some "ami-new") (Some "2020-02-01T00:00:00Z") None;
                    ec2.mkImage (Some "ami-new-too") (Some "2020-02-01T00:00:00Z") None ]),
                None)
               (fake.subnets fake.nothing) (fake.zones fake.nothing)
               (fake.securityGroups fake.nothing) (fake.placementGroups fake.nothing)
               (fake.reservation fake.nothing) (fake.instances fake.nothing)
               (fake.createdPlacementGroup fake.nothing)
               (fake.deletedPlacementGroup fake.nothing)))
         (mkWorld tt []))
  = Done (Some "ami-new", None).
Proof. vm_compute. reflexivity. Qed.

(** ** The resolvers leave [RunInstances] alone *)

Section ResolverFacts.
Import Instances.
Context {S : Type}.
Variable time_Parse_RFC3339 : string -> metav1.Time * option error.

Lemma getAMI_quiet machine AMI (client : awsclient.Client S) :
  quiet notRunInstances (getAMI time_Parse_RFC3339 machine AMI client).
Proof. unfold getAMI. repeat quiet_step. Qed.

Lemma getSecurityGroupsIDs_quiet securityGroups (client : awsclient.Client S) :
  quiet notRunInstances (getSecurityGroupsIDs securityGroups client).
Proof.
  unfold getSecurityGroupsIDs. generalize (@nil string).
  induction securityGroups as [|g rest IH]; intros ids; simpl.
  - repeat quiet_step.
  - repeat (apply IH || quiet_step).
Qed.

Lemma getAvalabilityZoneFromSubnetID_quiet subnetID (client : awsclient.Client S) :
  quiet notRunInstances (getAvalabilityZoneFromSubnetID subnetID client).
Proof. unfold getAvalabilityZoneFromSubnetID. repeat quiet_step. Qed.

Lemma getAvalabilityZoneTypeFromZoneName_quiet zoneName (client : awsclient.Client S) :
  quiet notRunInstances (getAvalabilityZoneTypeFromZoneName zoneName client).
Proof. unfold getAvalabilityZoneTypeFromZoneName. repeat quiet_step. Qed.

Lemma getSubnetIDs_quiet machine subnet availabilityZone (client : awsclient.Client S) :
  quiet notRunInstances (getSubnetIDs machine subnet availabilityZone client).
Proof.
  unfold getSubnetIDs.
  repeat (apply getAvalabilityZoneFromSubnetID_quiet || quiet_step).
Qed.

Lemma getBlockDeviceMappings_quiet machine specs AMI (client : awsclient.Client S) :
  quiet notRunInstances (getBlockDeviceMappings machine specs AMI client).
Proof. unfold getBlockDeviceMappings. repeat quiet_step. Qed.

End ResolverFacts.

(** ** Launching an instance *)

Section LaunchFacts.
Import Instances machinev1beta1.
Context {S : Type}.
Variable time_Parse_RFC3339 : string -> metav1.Time * option error.
Variable base64_EncodeToString : string -> string.
Variable getClusterID : Machine -> string * bool.

Lemma so_far_start (w : world S) (J : list event -> Prop) : J [] -> so_far w w J.
Proof. intros HJ. exists []. by rewrite app_nil_r. Qed.

Lemma so_far_quiet (w w1 w2 : world S) (J : list event -> Prop) :
  so_far w w1 J ->
  (forall evs evs', J evs -> J (evs ++ evs')) ->
  (exists evs', trace w2 = trace w1 ++ evs' /\ Forall notRunInstances evs') ->
  so_far w w2 J.
Proof.
  intros (evs & Hevs & Hq & HJ) Hext (evs' & Hevs' & Hq').
  exists (evs ++ evs'). rewrite Hevs', Hevs, <- app_assoc.
  split; [done|]. split; [by apply Forall_app | by apply Hext].
Qed.

Lemma so_far_event (w w1 : world S) (s : S) (e : event) :
  so_far w w1 (fun _ => True) -> notRunInstances e ->
  so_far w (mkWorld s (trace w1 ++ [e])) (fun _ => True).
Proof.
  intros (evs & Hevs & Hq & _) He. exists (evs ++ [e]). cbn [trace].
  rewrite Hevs, <- app_assoc. split; [done|]. split; [|done].
  apply Forall_app. split; [done|]. by constructor.
Qed.

Lemma so_far_exit (w w' : world S) (J : list event -> Prop) config
    (r : go (AWSMachineProviderConfig * (option ec2.Instance * option error))) :
  so_far w w' J ->
  r = Panic \/ (exists config' e, r = Done (config', (None, Some e))) ->
  exists evs, trace w' = trace w ++ evs /\ launched config evs r.
Proof. intros (evs & Hevs & Hq & _) Hr. exists evs. split; [done|]. by left. Qed.

Lemma publicIP_resolved_app config evs evs' networkInterface :
  publicIP_resolved config evs networkInterface ->
  publicIP_resolved config (evs ++ evs') networkInterface.
Proof.
  unfold publicIP_resolved. destruct (PublicIP config) as [publicIP|]; [|done].
  intros (pre1 & pre2 & subnetID & subnets & subnet & zones & zone & -> & H).
  exists pre1, (pre2 ++ evs'), subnetID, subnets, subnet, zones, zone.
  split; [|done]. by rewrite <- app_assoc.
Qed.

Lemma publicIP_resolved_fields config evs networkInterface networkInterface' :
  ec2.NetworkInterface_SubnetId networkInterface'
  = ec2.NetworkInterface_SubnetId networkInterface ->
  ec2.NetworkInterface_AssociateCarrierIpAddress networkInterface'
  = ec2.NetworkInterface_AssociateCarrierIpAddress networkInterface ->
  ec2.NetworkInterface_AssociatePublicIpAddress networkInterface'
  = ec2.NetworkInterface_AssociatePublicIpAddress networkInterface ->
  publicIP_resolved config evs networkInterface ->
  publicIP_resolved config evs networkInterface'.
Proof. unfold publicIP_resolved. by intros -> -> ->. Qed.

Lemma launched_call config pre input output err post networkInterface
    (r : go (AWSMachineProviderConfig * (option ec2.Instance * option error))) :
  Forall notRunInstances pre ->
  Forall notRunInstances post ->
  ec2.RunInstancesInput_MinCount input = Some 1%Z ->
  ec2.RunInstancesInput_MaxCount input = Some 1%Z ->
  ec2.RunInstancesInput_NetworkInterfaces input = [networkInterface] ->
  publicIP_resolved config pre networkInterface ->
  match err, output with
  | None, Some (ec2.mkReservation [instance]) =>
      exists config', r = Done (config', (Some instance, None))
  | _, _ => exists config' e, r = Done (config', (None, Some e))
  end ->
  launched config (pre ++ RunInstancesCall input output err :: post) r.
Proof. intros. right. by exists pre, input, output, err, post, networkInterface. Qed.

End LaunchFacts.

(** A stage of [launchInstance] that is [quiet]: the run so far is
    extended by it. *)
Ltac quiet_stage tac :=
  apply wp_bind; apply (wp_quiet notRunInstances); [tac|];
  let r := fresh "r" in
  let w' := fresh "w" in
  let Hq := fresh "Hq" in
  intros r w' Hq;
  match goal with
  | Hsf : Instances.so_far _ _ _ |- _ =>
      let Hsf' := fresh "Hsf" in
      assert (Hsf' := so_far_quiet _ _ _ _ Hsf
                        ltac:(first [ by auto
                                    | intros; by apply publicIP_resolved_app ]) Hq);
      clear Hsf Hq; rename Hsf' into Hsf
  end.

(** Some events that are no call of [RunInstances] extend the run. *)
Ltac more_events := repeat (apply so_far_event; [|exact I]); assumption.

(** The run ends here, before any call of [RunInstances]. *)
Ltac exit_run :=
  first [apply wp_ret | apply wp_panic | idtac];
  eapply so_far_exit; [eassumption | eauto].

Section LaunchRun.
Import Instances machinev1beta1.
Context {S : Type}.
Variable time_Parse_RFC3339 : string -> metav1.Time * option error.
Variable base64_EncodeToString : string -> string.
Variable getClusterID : Machine -> string * bool.

Lemma launchInstance_launched (machine : Machine)
    (machineProviderConfig : AWSMachineProviderConfig) (userData : string)
    (awsClient : awsclient.Client S) (infra : option configv1.Infrastructure)
    (w : world S) :
  wp (launchInstance time_Parse_RFC3339 base64_EncodeToString getClusterID
        machine machineProviderConfig userData awsClient infra) w
    (fun r w' => exists evs,
       trace w' = trace w ++ evs /\ launched machineProviderConfig evs r).
Proof.
  unfold launchInstance. cbv zeta.
  pose proof (so_far_start w (fun _ => True) I) as Hsf.
  quiet_stage ltac:(apply getAMI_quiet).
  destruct r as [[amiID [e|]]|]; [exit_run| |exit_run].
  quiet_stage ltac:(apply getSecurityGroupsIDs_quiet).
  destruct r as [[securityGroupsIDs [e|]]|]; [exit_run| |exit_run].
  quiet_stage ltac:(apply getSubnetIDs_quiet).
  destruct r as [[subnetIDs [e|]]|]; [exit_run| |exit_run].
  destruct subnetIDs as [|subnetID subnetIDs]; [exit_run|].
  (* the public IP *)
  apply wp_bind.
  apply (wp_mono _ _
           (fun r w' =>
              match r with
              | Done (networkInterface, None) =>
                  so_far w w'
                    (fun evs => publicIP_resolved machineProviderConfig evs networkInterface)
              | _ => so_far w w' (fun _ => True)
              end)).
  { destruct (PublicIP machineProviderConfig) as [publicIP|] eqn:HIP.
    - unfold getAvalabilityZoneFromSubnetID.
      apply wp_bind, wp_bind, wp_call. intros subnets err s1 _.
      destruct err as [e|].
      { apply wp_ret, wp_ret. more_events. }
      destruct subnets as [[[|subnet subnets]]|];
        [apply wp_ret, wp_ret; more_events | |
         apply wp_ret, wp_ret; more_events].
      apply wp_ret. unfold getAvalabilityZoneTypeFromZoneName.
      apply wp_bind, wp_bind, wp_call. intros zones err s2 _.
      destruct err as [e|].
      { apply wp_ret, wp_ret. more_events. }
      destruct zones as [[[|zone zones]]|];
        [apply wp_ret, wp_ret; more_events | |
         apply wp_ret, wp_ret; more_events].
      apply wp_ret.
      destruct Hsf as (evs & Hevs & Hq & _).
      assert (Hreach :
        forall networkInterface,
          ec2.NetworkInterface_SubnetId networkInterface = Some subnetID ->
          (if String.eqb (StringValue (ec2.AvailabilityZone_ZoneType zone))
                "wavelength-zone"
           then ec2.NetworkInterface_AssociateCarrierIpAddress networkInterface
                = Some publicIP
                /\ ec2.NetworkInterface_AssociatePublicIpAddress networkInterface = None
           else ec2.NetworkInterface_AssociatePublicIpAddress networkInterface
                = Some publicIP
                /\ ec2.NetworkInterface_AssociateCarrierIpAddress networkInterface = None) ->
          so_far w
            (mkWorld s2
               ((trace w2 ++
                 [DescribeSubnetsCall
                    (ec2.mkDescribeSubnetsInput (Some false) [] [subnetID])
                    (Some (ec2.mkDescribeSubnetsOutput (subnet :: subnets))) None]) ++
                [DescribeAvailabilityZonesCall
                   (ec2.mkDescribeAvailabilityZonesInput (Some false)
                      [StringValue (ec2.Subnet_AvailabilityZone subnet)])
                   (Some (ec2.mkDescribeAvailabilityZonesOutput (zone :: zones))) None]))
            (fun evs => publicIP_resolved machineProviderConfig evs networkInterface)).
      { intros networkInterface Hsubnet Hattr. eexists. split; [|split].
        - cbn [trace]. rewrite Hevs, <- !app_assoc. reflexivity.
        - apply Forall_app. split; [done|]. by repeat constructor.
        - unfold publicIP_resolved. rewrite HIP.
          exists evs, [], subnetID, (ec2.mkDescribeSubnetsOutput (subnet :: subnets)),
            subnet, (ec2.mkDescribeAvailabilityZonesOutput (zone :: zones)), zone.
          done. }
      change zoneTypeWavelengthZone with "wavelength-zone".
      destruct (String.eqb (StringValue (ec2.AvailabilityZone_ZoneType zone))
                  "wavelength-zone") eqn:Hzone;
        apply wp_ret, Hreach; rewrite ?Hzone; done.
    - apply wp_ret. destruct Hsf as (evs & Hevs & Hq & _).
      exists evs. split; [done|]. split; [done|].
      unfold publicIP_resolved. by rewrite HIP. }
  intros r w3 Hstage. clear Hsf.
  destruct r as [[networkInterface [e|]]|]; [exit_run| |exit_run].
  rename Hstage into Hsf.
  (* the interface type *)
  destruct (String.eqb (NetworkInterfaceType machineProviderConfig)
              AWSENANetworkInterfaceType);
    [|destruct (String.eqb (NetworkInterfaceType machineProviderConfig)
                  AWSEFANetworkInterfaceType);
      [|destruct (String.eqb (NetworkInterfaceType machineProviderConfig) "");
        [|exit_run]]].
  all: cbv beta iota.
  all: destruct amiID as [amiIDValue|]; [|exit_run].
  all: quiet_stage ltac:(apply getBlockDeviceMappings_quiet).
  all: destruct r as [[blockDeviceMappings [e|]]|]; [exit_run| |exit_run].
  all: destruct (getClusterID machine) as [clusterID ok]; destruct ok; cbn [negb];
    [|exit_run].
  all: apply wp_bind, wp_lift; rewrite buildTagList_eq.
  all: destruct (constructInstancePlacement machine machineProviderConfig)
         as [placement [e|]]; [exit_run|].
  all: destruct (getCapacityReservationSpecification
                   (CapacityReservationID machineProviderConfig))
         as [capacityReservationSpecification [e|]]; [exit_run|].
  all: apply wp_bind, wp_lift.
  all: destruct (getInstanceMarketOptionsRequest machineProviderConfig)
         as [[config [instanceMarketOptions [e|]]]|]; [exit_run| |exit_run].
  all: cbv beta iota.
  all: apply wp_bind, wp_call; intros runResult err s' _.
  all: destruct Hsf as (pre & Hpre & Hq & HJ).
  all: cbv beta iota.
  all: destruct err as [e|];
    [ apply wp_bind, wp_emit; destruct (isRequestFailure4 e); apply wp_ret
    | destruct runResult as [[[|instance [|instance' instances]]]|]; apply wp_ret ].
  all: (eexists; split;
        [cbn [trace]; rewrite Hpre, <- !app_assoc; cbn [app]; reflexivity|]).
  all: (eapply launched_call;
        [ done | by repeat constructor | reflexivity | reflexivity | reflexivity
        | eapply publicIP_resolved_fields; [| | |exact HJ]; reflexivity
        | eauto ]).
Qed.

End LaunchRun.

(** The case "Wavelength Zone with Public IP" of [TestLaunchInstance]: the
    instance of the reservation is returned, and the request carries the
    carrier-IP attribute. *)
Example launchInstance_test_wavelength :
  let run := stubs.stubLaunch (Some true) "us-east-1-wl1-nyc-wlz-1" "wavelength-zone" in
  (exists config, fst run = Done (config, (Some stubs.stubInstance, None)))
  /\ match trace (snd run) with
     | [ DescribeSubnetsCall _ _ _; DescribeSubnetsCall _ _ _;
         DescribeAvailabilityZonesCall _ _ _; RunInstancesCall input _ _ ] =>
         ec2.RunInstancesInput_NetworkInterfaces input
         = [ ec2.mkInstanceNetworkInterfaceSpecification (Some 0%Z)
               (Some "subnet-0e56b13a64ff8a941")
               ["sg-00868b02fbe29de17"; "sg-0a4658991dc5eb40a"]
               (Some true) None None ]
         /\ ec2.RunInstancesInput_MinCount input = Some 1%Z
         /\ ec2.RunInstancesInput_MaxCount input = Some 1%Z
     | _ => False
     end.
Proof. vm_compute. split; [by eexists | done]. Qed.

(** The case "Standard zone with Private IP". *)
Example launchInstance_test_standard :
  match trace (snd (stubs.stubLaunch (Some false) "us-east-1a" "availability-zone")) with
  | [ DescribeSubnetsCall _ _ _; DescribeSubnetsCall _ _ _;
      DescribeAvailabilityZonesCall _ _ _; RunInstancesCall input _ _ ] =>
      ec2.RunInstancesInput_NetworkInterfaces input
      = [ ec2.mkInstanceNetworkInterfaceSpecification (Some 0%Z)
            (Some "subnet-0e56b13a64ff8a941")
            ["sg-00868b02fbe29de17"; "sg-0a4658991dc5eb40a"]
            None (Some false) None ]
  | _ => False
  end.
Proof. vm_compute. reflexivity. Qed.

Lemma app_cons_unique {A : Type} (P : A -> Prop) (pre pre' post post' : list A) (x x' : A) :
  pre ++ x :: post = pre' ++ x' :: post' ->
  ~ P x -> Forall P pre' -> Forall P post' ->
  pre = pre' /\ x = x' /\ post = post'.
Proof.
  revert pre'. induction pre as [|a pre IH]; intros [|a' pre'] Heq Hx Hpre' Hpost'.
  - by injection Heq as -> ->.
  - injection Heq as -> _. by inversion Hpre'.
  - injection Heq as -> Heq. exfalso. apply Hx.
    rewrite Forall_forall in Hpost'. apply Hpost'. rewrite <- Heq.
    apply elem_of_app. right. by left.
  - injection Heq as -> Heq. inversion Hpre'; subst.
    destruct (IH pre' Heq Hx) as (-> & -> & ->); done.
Qed.

(** C4.  Whenever [launchInstance] sends a [RunInstances] request, the
    request has a single network interface.  When [PublicIP] is set in the
    provider config, the zone of the subnet of this interface was looked
    up by [DescribeSubnets], and the type of this zone by
    [DescribeAvailabilityZones], before the request; if the zone type is
    [wavelength-zone] the interface carries [AssociateCarrierIpAddress]
    equal to [PublicIP] and no [AssociatePublicIpAddress], and for every
    other zone type it carries [AssociatePublicIpAddress] equal to
    [PublicIP] and no [AssociateCarrierIpAddress].  In no case are both
    attributes set. *)
Theorem launchInstance_public_ip {S : Type}
    (time_Parse_RFC3339 : string -> metav1.Time * option error)
    (base64_EncodeToString : string -> string)
    (getClusterID : machinev1beta1.Machine -> string * bool)
    (machine : machinev1beta1.Machine)
    (machineProviderConfig : machinev1beta1.AWSMachineProviderConfig)
    (userData : string) (awsClient : awsclient.Client S)
    (infra : option configv1.Infrastructure) (w : world S)
    (pre post : list event) (input : ec2.RunInstancesInput)
    (output : option ec2.Reservation) (err : option error) :
  trace (snd (Instances.launchInstance time_Parse_RFC3339 base64_EncodeToString
                getClusterID machine machineProviderConfig userData awsClient infra w))
  = trace w ++ pre ++ RunInstancesCall input output err :: post ->
  exists networkInterface,
    ec2.RunInstancesInput_NetworkInterfaces input = [networkInterface]
    /\ Instances.publicIP_resolved machineProviderConfig pre networkInterface
    /\ ~ (is_Some (ec2.NetworkInterface_AssociateCarrierIpAddress networkInterface)
          /\ is_Some (ec2.NetworkInterface_AssociatePublicIpAddress networkInterface)).
Proof.
  intros Htrace.
  destruct (launchInstance_launched time_Parse_RFC3339 base64_EncodeToString
              getClusterID machine machineProviderConfig userData awsClient infra w)
    as (evs & Hevs & Hlaunched).
  rewrite Hevs in Htrace. apply app_inv_head in Htrace. subst evs.
  destruct Hlaunched as [[Hquiet _]|Hcall].
  { apply Forall_app in Hquiet as [_ Hquiet]. by inversion Hquiet. }
  destruct Hcall as (pre' & input' & output' & err' & post' & networkInterface
                     & Heq & Hpre' & Hpost' & _ & _ & Hni & Hresolved & _).
  destruct (app_cons_unique notRunInstances _ _ _ _ _ _ Heq) as (-> & Hcalleq & ->);
    [by intros [] | done | done |].
  injection Hcalleq as -> -> ->.
  exists networkInterface. split; [done|]. split; [done|].
  unfold Instances.publicIP_resolved in Hresolved.
  destruct (machinev1beta1.PublicIP machineProviderConfig) as [publicIP|].
  - destruct Hresolved as (_ & _ & _ & _ & _ & _ & zone & _ & _ & _ & _ & Hattr).
    destruct (String.eqb _ _); destruct Hattr as [_ Hnone]; rewrite Hnone;
      intros [H1 H2]; by (destruct H1 || destruct H2).
  - destruct Hresolved as [Hnone _]. rewrite Hnone. intros [H1 _]. by destruct H1.
Qed.

(** C4 on the case "Wavelength Zone with Public IP" of the tests. *)
Lemma launchInstance_public_ip_witness :
  exists pre input output err networkInterface,
    trace (snd (stubs.stubLaunch (Some true) "us-east-1-wl1-nyc-wlz-1" "wavelength-zone"))
    = [] ++ pre ++ RunInstancesCall input output err :: []
    /\ ec2.RunInstancesInput_NetworkInterfaces input = [networkInterface]
    /\ Instances.publicIP_resolved (stubs.stubProviderConfig (Some true)) pre
         networkInterface
    /\ ~ (is_Some (ec2.NetworkInterface_AssociateCarrierIpAddress networkInterface)
          /\ is_Some (ec2.NetworkInterface_AssociatePublicIpAddress networkInterface)).
Proof.
  lazymatch eval vm_compute in
    (trace (snd (stubs.stubLaunch (Some true) "us-east-1-wl1-nyc-wlz-1"
                   "wavelength-zone"))) with
  | [?e1; ?e2; ?e3; RunInstancesCall ?input ?output ?err] =>
      destruct (launchInstance_public_ip fake.time_Parse (fun userData => userData)
                  stubs.stubGetClusterID stubs.stubMachine
                  (stubs.stubProviderConfig (Some true)) ""
                  (fake.NewClient
                     (stubs.stubAnswers "us-east-1-wl1-nyc-wlz-1" "wavelength-zone"))
                  None (mkWorld tt []) [e1; e2; e3] [] input output err)
        as (networkInterface & Hni & Hresolved & Hexclusive);
      [vm_compute; reflexivity|];
      exists [e1; e2; e3], input, output, err, networkInterface
  end.
  split; [vm_compute; reflexivity|].
  done.
Defined.

Lemma lookup_app_cons_only {A : Type} (P : A -> Prop) (pre post : list A) (x y : A) (i : nat) :
  Forall P pre -> Forall P post -> ~ P y ->
  (pre ++ x :: post) !! i = Some y -> i = length pre /\ y = x.
Proof.
  intros Hpre Hpost Hy Hi.
  destruct (decide (i < length pre)%nat) as [Hlt|Hge].
  - rewrite lookup_app_l in Hi by done. exfalso. apply Hy.
    rewrite Forall_forall in Hpre. apply Hpre. by eapply list_elem_of_lookup_2.
  - rewrite lookup_app_r in Hi by lia.
    destruct (i - length pre)%nat as [|k] eqn:Hk.
    + injection Hi as <-. split; [lia|done].
    + exfalso. apply Hy. rewrite Forall_forall in Hpost. apply Hpost.
      by eapply list_elem_of_lookup_2.
Qed.

(** C10.  In every run of [launchInstance]: every [RunInstances] request
    sent has [MinCount = 1] and [MaxCount = 1], and at most one request is
    sent; a run that returns an instance returns no error, and the instance
    is the only instance of the reservation that a successful [RunInstances]
    call returned; a run that returns no instance returns an error; and
    once [RunInstances] has answered, the run returns the instance when the
    call succeeded with a reservation of exactly one instance, and an error
    (and no instance) in every other case. *)
Theorem launchInstance_single_instance {S : Type}
    (time_Parse_RFC3339 : string -> metav1.Time * option error)
    (base64_EncodeToString : string -> string)
    (getClusterID : machinev1beta1.Machine -> string * bool)
    (machine : machinev1beta1.Machine)
    (machineProviderConfig : machinev1beta1.AWSMachineProviderConfig)
    (userData : string) (awsClient : awsclient.Client S)
    (infra : option configv1.Infrastructure) (w : world S) :
  let run :=
    Instances.launchInstance time_Parse_RFC3339 base64_EncodeToString getClusterID
      machine machineProviderConfig userData awsClient infra w in
  exists evs,
    trace (snd run) = trace w ++ evs
    /\ (forall input output err, RunInstancesCall input output err ∈ evs ->
          ec2.RunInstancesInput_MinCount input = Some 1%Z
          /\ ec2.RunInstancesInput_MaxCount input = Some 1%Z)
    /\ (forall i j input output err input' output' err',
          evs !! i = Some (RunInstancesCall input output err) ->
          evs !! j = Some (RunInstancesCall input' output' err') -> i = j)
    /\ (forall config instance err, fst run = Done (config, (instance, err)) ->
          match instance with
          | Some instance =>
              err = None
              /\ exists input,
                   RunInstancesCall input (Some (ec2.mkReservation [instance])) None ∈ evs
          | None => is_Some err
          end)
    /\ (forall input output err, RunInstancesCall input output err ∈ evs ->
          match err, output with
          | None, Some (ec2.mkReservation [instance]) =>
              exists config, fst run = Done (config, (Some instance, None))
          | _, _ => exists config e, fst run = Done (config, (None, Some e))
          end).
Proof.
  intros run.
  destruct (launchInstance_launched time_Parse_RFC3339 base64_EncodeToString
              getClusterID machine machineProviderConfig userData awsClient infra w)
    as (evs & Hevs & Hlaunched).
  fold run in Hevs, Hlaunched. exists evs. split; [done|].
  destruct Hlaunched as [[Hquiet Hr]|Hcall].
  - assert (Hnone : forall input output err, RunInstancesCall input output err ∉ evs).
    { intros input output err Hin. rewrite Forall_forall in Hquiet.
      by apply Hquiet in Hin. }
    split; [|split; [|split]].
    + intros input output err Hin. by apply Hnone in Hin.
    + intros i j input output err input' output' err' Hi _.
      apply list_elem_of_lookup_2 in Hi. by apply Hnone in Hi.
    + intros config instance err Hrun.
      destruct Hr as [Hr|(config' & e & Hr)]; rewrite Hr in Hrun; [done|].
      injection Hrun as _ <- <-. by eexists.
    + intros input output err Hin. by apply Hnone in Hin.
  - destruct Hcall as (pre & input & output & err & post & networkInterface
                       & -> & Hpre & Hpost & Hmin & Hmax & _ & _ & Hr).
    assert (Honly : forall i input' output' err',
              (pre ++ RunInstancesCall input output err :: post) !! i
              = Some (RunInstancesCall input' output' err') ->
              i = length pre /\ input' = input /\ output' = output /\ err' = err).
    { intros i input' output' err' Hi.
      destruct (lookup_app_cons_only notRunInstances pre post
                  (RunInstancesCall input output err)
                  (RunInstancesCall input' output' err') i Hpre Hpost
                  (fun H => H) Hi) as [-> Heq].
      by injection Heq as -> -> ->. }
    assert (Hin : forall input' output' err',
              RunInstancesCall input' output' err'
              ∈ pre ++ RunInstancesCall input output err :: post ->
              input' = input /\ output' = output /\ err' = err).
    { intros input' output' err' Hin. apply list_elem_of_lookup_1 in Hin as [i Hi].
      by apply Honly in Hi as (_ & H). }
    assert (Hhere : RunInstancesCall input output err
                    ∈ pre ++ RunInstancesCall input output err :: post).
    { apply elem_of_app. right. by left. }
    split; [|split; [|split]].
    + intros input' output' err' Hin'. by apply Hin in Hin' as (-> & _ & _).
    + intros i j input1 output1 err1 input2 output2 err2 Hi Hj.
      apply Honly in Hi as [-> _]. by apply Honly in Hj as [-> _].
    + intros config instance err' Hrun.
      destruct err as [e|].
      { destruct Hr as (config' & e' & Hr). rewrite Hr in Hrun.
        injection Hrun as _ <- <-. by eexists. }
      destruct output as [[[|instance' [|instance'' instances]]]|];
        try (destruct Hr as (config' & e' & Hr); rewrite Hr in Hrun;
             injection Hrun as _ <- <-; by eexists).
      destruct Hr as (config' & Hr). rewrite Hr in Hrun. injection Hrun as _ <- <-.
      split; [done|]. by exists input.
    + intros input' output' err' Hin'. by apply Hin in Hin' as (-> & -> & ->).
Qed.

(** ** The placement-group controller *)

Section PlacementGroupFacts.
Import awsplacementgroup machinev1.

Lemma isClusterTag_owned clusterID placementGroup :
  existsb (isClusterTag clusterID) (ec2.PlacementGroup_Tags placementGroup) = true
  <-> owned clusterID placementGroup.
Proof.
  unfold owned. rewrite existsb_exists. split.
  - intros (tag & Hin & Htag). exists tag. apply list_elem_of_In in Hin.
    split; [done|]. unfold isClusterTag in Htag.
    apply andb_true_iff in Htag as [Hk Hv].
    apply String.eqb_eq in Hk, Hv.
    destruct tag as [[k|] [v|]]; simpl in *; try done;
      try (by destruct clusterID); by subst.
  - intros (tag & Hin & Hk & Hv). exists tag. apply list_elem_of_In in Hin.
    split; [done|]. unfold isClusterTag. rewrite Hk, Hv. simpl.
    by rewrite !String.eqb_refl.
Qed.

Lemma countInstances_Done instances k n :
  countInstances instances k = Done n ->
  Forall (fun instance => is_Some (ec2.Instance_State instance)) instances
  /\ n = (k + length (List.filter notTerminated instances))%nat.
Proof.
  revert k. induction instances as [|instance rest IH]; intros k; simpl.
  - intros [= <-]. split; [constructor | lia].
  - unfold notTerminated at 1.
    destruct (ec2.Instance_State instance) as [state|] eqn:Hstate; [|done].
    destruct (negb _); intros Hrest; apply IH in Hrest as [Hall ->];
      (split; [constructor; [by eexists | done] | simpl; lia]).
Qed.

Lemma countInstances_total instances k :
  Forall (fun instance => is_Some (ec2.Instance_State instance)) instances ->
  exists n, countInstances instances k = Done n.
Proof.
  intros Hall. revert k. induction Hall as [|instance rest [state Hstate] _ IH]; intros k.
  - by eexists.
  - simpl. rewrite Hstate. destruct (negb _); apply IH.
Qed.

Lemma countReservations_Done reservations k n :
  countReservations reservations k = Done n ->
  Forall (fun instance => is_Some (ec2.Instance_State instance))
    (concat (map ec2.Reservation_Instances reservations))
  /\ n = (k + length (List.filter notTerminated
                        (concat (map ec2.Reservation_Instances reservations))))%nat.
Proof.
  revert k. induction reservations as [|reservation rest IH]; intros k; simpl.
  - intros [= <-]. split; [constructor | lia].
  - destruct (countInstances (ec2.Reservation_Instances reservation) k) as [m|] eqn:Hm;
      [|done].
    simpl. intros Hrest. apply countInstances_Done in Hm as [Hall1 ->].
    apply IH in Hrest as [Hall2 ->]. split; [by apply Forall_app|].
    rewrite List.filter_app, length_app. lia.
Qed.

Lemma countReservations_total reservations k :
  Forall (fun instance => is_Some (ec2.Instance_State instance))
    (concat (map ec2.Reservation_Instances reservations)) ->
  exists n, countReservations reservations k = Done n.
Proof.
  revert k. induction reservations as [|reservation rest IH]; intros k; simpl.
  - by eexists.
  - intros Hall. apply Forall_app in Hall as [Hall1 Hall2].
    destruct (countInstances_total _ k Hall1) as [m ->]. simpl. by apply IH.
Qed.

Lemma filter_notTerminated_nil (instances : list ec2.Instance) :
  length (List.filter notTerminated instances) = 0%nat ->
  forall instance, instance ∈ instances -> notTerminated instance = false.
Proof.
  intros Hlen instance Hin. apply list_elem_of_In in Hin.
  destruct (notTerminated instance) eqn:Hnt; [|done].
  assert (Hf : In instance (List.filter notTerminated instances))
    by (by apply filter_In).
  destruct (List.filter notTerminated instances); [done | simpl in Hlen; lia].
Qed.

Lemma filter_notTerminated_pos (instances : list ec2.Instance) instance :
  instance ∈ instances -> notTerminated instance = true ->
  (0 < length (List.filter notTerminated instances))%nat.
Proof.
  intros Hin Hnt.
  destruct (length (List.filter notTerminated instances)) eqn:Hlen; [|lia].
  by rewrite (filter_notTerminated_nil _ Hlen _ Hin) in Hnt.
Qed.

End PlacementGroupFacts.

(** Membership in a list that is written out. *)
Ltac list_cases H :=
  repeat (apply elem_of_cons in H as [H|H]; [try discriminate H|]);
  try (by apply elem_of_nil in H).

(** The events of a leaf of a run, and the three parts of the claim about
    them. *)
Ltac leaf_start :=
  eexists; split;
  [cbn [trace]; rewrite <- ?app_assoc; cbn [app]; reflexivity|];
  split; [|split].

(** C5.  In every run of [deletePlacementGroup]: when the placement group
    returned by the describe-by-name call lacks the tag
    [kubernetes.io/cluster/<clusterID> = owned], the run returns an error
    and never calls [DeletePlacementGroup]; when the tag-scoped
    [DescribeInstances] answer contains an instance whose state is not
    [terminated], the run never calls [DeletePlacementGroup] and (every
    instance of the answer carrying a state) returns an error; and
    [DeletePlacementGroup] is called only after a describe-by-name call
    that returned exactly one group, which is owned, and a
    [DescribeInstances] call that succeeded with no instance in a state
    other than [terminated]. *)
Theorem deletePlacementGroup_guard {S : Type} (client : awsclient.Client S)
    (pg : machinev1.AWSPlacementGroup) (infra : option configv1.Infrastructure)
    (w : world S) :
  let run := awsplacementgroup.deletePlacementGroup client pg infra w in
  exists evs,
    trace (snd run) = trace w ++ evs
    /\ (forall input placementGroups err placementGroup i,
          DescribePlacementGroupsCall input (Some placementGroups) err ∈ evs ->
          ec2.DescribePlacementGroupsOutput_PlacementGroups placementGroups
          = [placementGroup] ->
          infra = Some i ->
          ~ awsplacementgroup.owned
              (configv1.InfrastructureStatus_InfrastructureName
                 (configv1.Infrastructure_Status i)) placementGroup ->
          Forall notDeletePlacementGroup evs /\ exists e, fst run = Done (Some e))
    /\ (forall input result err instance,
          DescribeInstancesCall input (Some result) err ∈ evs ->
          instance ∈ awsplacementgroup.instancesOf result ->
          awsplacementgroup.notTerminated instance = true ->
          Forall notDeletePlacementGroup evs
          /\ (Forall (fun instance => is_Some (ec2.Instance_State instance))
                (awsplacementgroup.instancesOf result) ->
              exists e, fst run = Done (Some e)))
    /\ (forall input output derr,
          DeletePlacementGroupCall input output derr ∈ evs ->
          exists placementGroups err placementGroup i result,
            evs = [ DescribePlacementGroupsCall (awsplacementgroup.describeByName pg)
                      (Some placementGroups) err;
                    DescribeInstancesCall (awsplacementgroup.describeOccupants pg)
                      (Some result) None;
                    DeletePlacementGroupCall (awsplacementgroup.deleteByName pg)
                      output derr ]
            /\ ec2.DescribePlacementGroupsOutput_PlacementGroups placementGroups
               = [placementGroup]
            /\ infra = Some i
            /\ awsplacementgroup.owned
                 (configv1.InfrastructureStatus_InfrastructureName
                    (configv1.Infrastructure_Status i)) placementGroup
            /\ forall instance, instance ∈ awsplacementgroup.instancesOf result ->
                 awsplacementgroup.notTerminated instance = false).
Proof.
  intros run. subst run.
  pattern (fst (awsplacementgroup.deletePlacementGroup client pg infra w)),
          (snd (awsplacementgroup.deletePlacementGroup client pg infra w)).
  apply wp_intro.
  unfold awsplacementgroup.deletePlacementGroup.
  apply wp_bind, wp_call. intros placementGroups err s1 _.
  fold (awsplacementgroup.describeByName pg).
  (* the describe-by-name call failed *)
  destruct (awsplacementgroup.describeFailed err) as [e|] eqn:Hfail.
  { apply wp_ret. leaf_start.
    - intros. split; [by repeat constructor | by eexists].
    - intros input result err' instance Hin. list_cases Hin.
    - intros input output derr Hin. list_cases Hin. }
  destruct placementGroups as [placementGroups|].
  2:{ apply wp_panic. leaf_start.
      - intros input placementGroups err' placementGroup i Hin. list_cases Hin.
      - intros input result err' instance Hin. list_cases Hin.
      - intros input output derr Hin. list_cases Hin. }
  destruct (ec2.DescribePlacementGroupsOutput_PlacementGroups placementGroups)
    as [|placementGroup [|placementGroup' rest]] eqn:Hpgs.
  { (* no such group *)
    apply wp_ret. leaf_start.
    - intros input placementGroups' err' placementGroup i Hin Hone.
      list_cases Hin. injection Hin as _ <- _. congruence.
    - intros input result err' instance Hin. list_cases Hin.
    - intros input output derr Hin. list_cases Hin. }
  2:{ (* several groups *)
      apply wp_ret. leaf_start.
      - intros. split; [by repeat constructor | by eexists].
      - intros input result err' instance Hin. list_cases Hin.
      - intros input output derr Hin. list_cases Hin. }
  destruct infra as [i|].
  2:{ apply wp_panic. leaf_start.
      - by intros.
      - intros input result err' instance Hin. list_cases Hin.
      - intros input output derr Hin. list_cases Hin. }
  destruct (existsb _ (ec2.PlacementGroup_Tags placementGroup)) eqn:Hfound; cbn [negb].
  2:{ (* not owned *)
      apply wp_ret. leaf_start.
      - intros. split; [by repeat constructor | by eexists].
      - intros input result err' instance Hin. list_cases Hin.
      - intros input output derr Hin. list_cases Hin. }
  apply isClusterTag_owned in Hfound.
  assert (Howned : forall input placementGroups' err' placementGroup' i' evs,
            DescribePlacementGroupsCall input (Some placementGroups') err'
            ∈ DescribePlacementGroupsCall (awsplacementgroup.describeByName pg)
                (Some placementGroups) err :: evs ->
            Forall (fun e => match e with
                             | DescribePlacementGroupsCall _ _ _ => False
                             | _ => True
                             end) evs ->
            ec2.DescribePlacementGroupsOutput_PlacementGroups placementGroups'
            = [placementGroup'] ->
            Some i = Some i' ->
            awsplacementgroup.owned
              (configv1.InfrastructureStatus_InfrastructureName
                 (configv1.Infrastructure_Status i')) placementGroup').
  { intros input placementGroups' err' placementGroup' i' evs Hin Hevs Hone [= <-].
    apply elem_of_cons in Hin as [Hin|Hin].
    - injection Hin as _ -> _. rewrite Hpgs in Hone. by injection Hone as <-.
    - rewrite Forall_forall in Hevs. by apply Hevs in Hin. }
  apply wp_bind, wp_call. intros result ierr s2 _.
  fold (awsplacementgroup.describeOccupants pg).
  destruct ierr as [e|].
  { (* the tag-scoped describe call failed *)
    apply wp_ret. leaf_start.
    - intros input placementGroups' err' placementGroup' i' Hin Hone Hi Hnot.
      exfalso. apply Hnot. eapply Howned; [exact Hin | by repeat constructor | done..].
    - intros. split; [by repeat constructor | by eexists].
    - intros input output derr Hin. list_cases Hin. }
  destruct result as [result|].
  2:{ apply wp_panic. leaf_start.
      - intros input placementGroups' err' placementGroup' i' Hin Hone Hi Hnot.
        exfalso. apply Hnot. eapply Howned; [exact Hin | by repeat constructor | done..].
      - intros input result err' instance Hin. list_cases Hin.
      - intros input output derr Hin. list_cases Hin. }
  apply wp_bind, wp_lift.
  destruct (awsplacementgroup.countReservations
              (ec2.DescribeInstancesOutput_Reservations result) 0)
    as [instanceCount|] eqn:Hcount.
  2:{ (* an instance without a state *)
      leaf_start.
      - intros input placementGroups' err' placementGroup' i' Hin Hone Hi Hnot.
        exfalso. apply Hnot. eapply Howned; [exact Hin | by repeat constructor | done..].
      - intros input result' err' instance Hin Hinst Hlive.
        split; [by repeat constructor|]. intros Hstates.
        list_cases Hin. injection Hin as _ <- _.
        destruct (countReservations_total _ 0 Hstates) as [n Hn]. congruence.
      - intros input output derr Hin. list_cases Hin. }
  apply countReservations_Done in Hcount as [Hstates Hcount]. simpl in Hcount.
  fold (awsplacementgroup.instancesOf result) in Hstates, Hcount.
  destruct (0 <? instanceCount)%nat eqn:Hpos.
  { (* the group still contains instances *)
    apply wp_ret. leaf_start.
    - intros input placementGroups' err' placementGroup' i' Hin Hone Hi Hnot.
      exfalso. apply Hnot. eapply Howned; [exact Hin | by repeat constructor | done..].
    - intros. split; [by repeat constructor | by eexists].
    - intros input output derr Hin. list_cases Hin. }
  (* the group is owned and empty: it is deleted *)
  apply Nat.ltb_ge in Hpos. assert (instanceCount = 0%nat) as -> by lia.
  apply wp_bind, wp_call. intros output derr s3 _.
  fold (awsplacementgroup.deleteByName pg).
  assert (Hleaf : forall r : go (option error),
    exists evs,
      trace (mkWorld s3
               (((trace w ++
                  [DescribePlacementGroupsCall (awsplacementgroup.describeByName pg)
                     (Some placementGroups) err]) ++
                 [DescribeInstancesCall (awsplacementgroup.describeOccupants pg)
                    (Some result) None]) ++
                [DeletePlacementGroupCall (awsplacementgroup.deleteByName pg)
                   output derr]))
      = trace w ++ evs
      /\ (forall input placementGroups' err' placementGroup' i',
            DescribePlacementGroupsCall input (Some placementGroups') err' ∈ evs ->
            ec2.DescribePlacementGroupsOutput_PlacementGroups placementGroups'
            = [placementGroup'] ->
            Some i = Some i' ->
            ~ awsplacementgroup.owned
                (configv1.InfrastructureStatus_InfrastructureName
                   (configv1.Infrastructure_Status i')) placementGroup' ->
            Forall notDeletePlacementGroup evs /\ exists e, r = Done (Some e))
      /\ (forall input result' err' instance,
            DescribeInstancesCall input (Some result') err' ∈ evs ->
            instance ∈ awsplacementgroup.instancesOf result' ->
            awsplacementgroup.notTerminated instance = true ->
            Forall notDeletePlacementGroup evs
            /\ (Forall (fun instance => is_Some (ec2.Instance_State instance))
                  (awsplacementgroup.instancesOf result') ->
                exists e, r = Done (Some e)))
      /\ (forall input output' derr',
            DeletePlacementGroupCall input output' derr' ∈ evs ->
            exists placementGroups' err' placementGroup' i' result',
              evs = [ DescribePlacementGroupsCall (awsplacementgroup.describeByName pg)
                        (Some placementGroups') err';
                      DescribeInstancesCall (awsplacementgroup.describeOccupants pg)
                        (Some result') None;
                      DeletePlacementGroupCall (awsplacementgroup.deleteByName pg)
                        output' derr' ]
              /\ ec2.DescribePlacementGroupsOutput_PlacementGroups placementGroups'
                 = [placementGroup']
              /\ Some i = Some i'
              /\ awsplacementgroup.owned
                   (configv1.InfrastructureStatus_InfrastructureName
                      (configv1.Infrastructure_Status i')) placementGroup'
              /\ forall instance, instance ∈ awsplacementgroup.instancesOf result' ->
                   awsplacementgroup.notTerminated instance = false)).
  { intros r. leaf_start.
    - intros input placementGroups' err' placementGroup' i' Hin Hone Hi Hnot.
      exfalso. apply Hnot. eapply Howned; [exact Hin | by repeat constructor | done..].
    - intros input result' err' instance Hin Hinst Hlive. exfalso.
      list_cases Hin. injection Hin as _ <- _.
      pose proof (filter_notTerminated_pos _ _ Hinst Hlive). lia.
    - intros input output' derr' Hin. list_cases Hin. injection Hin as -> -> ->.
      exists placementGroups, err, placementGroup, i, result.
      repeat split; try done. apply filter_notTerminated_nil. lia. }
  destruct derr as [e|]; apply wp_ret; apply Hleaf.
Qed.

(** The three runs of [deletePlacementGroup] the claim tells apart, in the
    stub cloud: a group that is owned and holds only a terminated instance
    is deleted; a group without the cluster tag is refused after the first
    call; a group that holds a running instance is refused after the
    second call. *)
Example deletePlacementGroup_test_deleted :
  placementgroup_stubs.stubDelete placementgroup_stubs.ownedTags
    [placementgroup_stubs.stubInstance "terminated"]
  = (Done None,
     mkWorld tt
       [ DescribePlacementGroupsCall (ec2.mkDescribePlacementGroupsInput ["pg-test"])
           (Some (ec2.mkDescribePlacementGroupsOutput
                    [placementgroup_stubs.stubPlacementGroup
                       placementgroup_stubs.ownedTags])) None;
         DescribeInstancesCall
           (ec2.mkDescribeInstancesInput
              [ec2.mkFilter (Some "placement-group-name") ["pg-test"]])
           (Some (ec2.mkDescribeInstancesOutput
                    [ec2.mkReservation [placementgroup_stubs.stubInstance "terminated"]]))
           None;
         DeletePlacementGroupCall (ec2.mkDeletePlacementGroupInput (Some "pg-test"))
           (Some ec2.mkDeletePlacementGroupOutput) None ]).
Proof. vm_compute. reflexivity. Qed.

Example deletePlacementGroup_test_unowned :
  placementgroup_stubs.stubDelete [ec2.tag "Name" "pg-test"] []
  = (Done (Some (Errorf "aws placement group was not created by machine-api")),
     mkWorld tt
       [ DescribePlacementGroupsCall (ec2.mkDescribePlacementGroupsInput ["pg-test"])
           (Some (ec2.mkDescribePlacementGroupsOutput
                    [placementgroup_stubs.stubPlacementGroup [ec2.tag "Name" "pg-test"]]))
           None ]).
Proof. vm_compute. reflexivity. Qed.

Example deletePlacementGroup_test_occupied :
  placementgroup_stubs.stubDelete placementgroup_stubs.ownedTags
    [placementgroup_stubs.stubInstance "terminated";
     placementgroup_stubs.stubInstance "running"]
  = (Done (Some (Errorf "aws placement group still contains %d instances")),
     mkWorld tt
       [ DescribePlacementGroupsCall (ec2.mkDescribePlacementGroupsInput ["pg-test"])
           (Some (ec2.mkDescribePlacementGroupsOutput
                    [placementgroup_stubs.stubPlacementGroup
                       placementgroup_stubs.ownedTags])) None;
         DescribeInstancesCall
           (ec2.mkDescribeInstancesInput
              [ec2.mkFilter (Some "placement-group-name") ["pg-test"]])
           (Some (ec2.mkDescribeInstancesOutput
                    [ec2.mkReservation
                       [placementgroup_stubs.stubInstance "terminated";
                        placementgroup_stubs.stubInstance "running"]]))
           None ]).
Proof. vm_compute. reflexivity. Qed.

(** The guard at work on the stub cloud whose group carries no cluster
    tag: no delete call, and an error. *)
Lemma deletePlacementGroup_guard_witness :
  Forall notDeletePlacementGroup
    (trace (snd (placementgroup_stubs.stubDelete [ec2.tag "Name" "pg-test"] [])))
  /\ exists e, fst (placementgroup_stubs.stubDelete [ec2.tag "Name" "pg-test"] [])
               = Done (Some e).
Proof.
  destruct (deletePlacementGroup_guard
              (fake.NewClient
                 (placementgroup_stubs.stubAnswers [ec2.tag "Name" "pg-test"] []))
              (placementgroup_stubs.stubAWSPlacementGroup
                 machinev1.ManagedManagementState machinev1.ManagedManagementState)
              (Some placementgroup_stubs.stubInfrastructure) (mkWorld tt []))
    as (evs & Htrace & Hunowned & _).
  vm_compute in Htrace. subst evs.
  eapply Hunowned.
  - apply list_elem_of_here.
  - reflexivity.
  - reflexivity.
  - intros (tag & Hin & Hkey & _). simpl in Hin.
    apply elem_of_cons in Hin as [->|Hin]; [discriminate Hkey|].
    by apply elem_of_nil in Hin.
Defined.

(** ** Validation and the management state *)

(** The opposite move is accepted: an object whose status records
    [Managed] may ask for [Unmanaged]. *)
Example validateAWSPlacementGroup_test_to_unmanaged :
  awsplacementgroup.validateAWSPlacementGroup
    (placementgroup_stubs.stubAWSPlacementGroup
       machinev1.UnmanagedManagementState machinev1.ManagedManagementState)
  = None.
Proof. vm_compute. reflexivity. Qed.

(** C6.  An AWSPlacementGroup whose status records the management state
    [Unmanaged] and whose spec asks for [Managed] fails validation, and
    the reconciler that is handed this object by the API server does not
    act on it: it makes no further call (no patch of the object or of
    its status, no call of the cloud) and returns without a requeue and
    without an error. *)
Theorem validateAWSPlacementGroup_one_way (pg : machinev1.AWSPlacementGroup) :
  machinev1.Status_ManagementState (machinev1.Status pg)
  = machinev1.UnmanagedManagementState ->
  machinev1.ManagementSpec_ManagementState
    (machinev1.Spec_ManagementSpec (machinev1.Spec pg))
  = machinev1.ManagedManagementState ->
  (exists e, awsplacementgroup.validateAWSPlacementGroup pg = Some e)
  /\ forall (S : Type) (strings_Title : string -> string)
       (SetStatusCondition :
          list metav1.Condition -> metav1.Condition -> S -> list metav1.Condition * S)
       (time_Now : S -> metav1.Time * S)
       (r : awsplacementgroup.Reconciler S) (req : string * string) (w : world S)
       (s' : S),
       awsplacementgroup.Client_Get r req (env w) = ((pg, None), s') ->
       awsplacementgroup.Reconcile strings_Title SetStatusCondition time_Now r req w
       = (Done (ctrl.mkResult false 0, None),
          mkWorld s'
            (trace w ++ [GetAWSPlacementGroupCall (fst req) (snd req) pg None])).
Proof.
  intros Hstatus Hspec.
  assert (Hinvalid : exists e, awsplacementgroup.validateAWSPlacementGroup pg = Some e).
  { unfold awsplacementgroup.validateAWSPlacementGroup.
    rewrite Hspec, Hstatus. simpl.
    destruct (machinev1.ManagementSpec_Managed _); by eexists. }
  split; [exact Hinvalid|].
  intros S strings_Title SetStatusCondition time_Now r req w s' Hget.
  destruct Hinvalid as [e He].
  unfold awsplacementgroup.Reconcile, bind, call. rewrite Hget, He. reflexivity.
Qed.

Lemma validateAWSPlacementGroup_one_way_witness :
  (exists e,
     awsplacementgroup.validateAWSPlacementGroup
       (placementgroup_stubs.stubAWSPlacementGroup
          machinev1.ManagedManagementState machinev1.UnmanagedManagementState)
     = Some e)
  /\ awsplacementgroup.Reconcile placementgroup_stubs.stubTitle
       placementgroup_stubs.stubSetStatusCondition placementgroup_stubs.stubNow
       (placementgroup_stubs.stubReconciler
          (placementgroup_stubs.stubAWSPlacementGroup
             machinev1.ManagedManagementState machinev1.UnmanagedManagementState)
          fake.nothing)
       ("openshift-machine-api", "pg-test") (mkWorld tt [])
     = (Done (ctrl.mkResult false 0, None),
        mkWorld tt
          [GetAWSPlacementGroupCall "openshift-machine-api" "pg-test"
             (placementgroup_stubs.stubAWSPlacementGroup
                machinev1.ManagedManagementState machinev1.UnmanagedManagementState)
             None]).
Proof.
  destruct (validateAWSPlacementGroup_one_way
              (placementgroup_stubs.stubAWSPlacementGroup
                 machinev1.ManagedManagementState machinev1.UnmanagedManagementState)
              eq_refl eq_refl) as [Hinvalid Hrun].
  split; [exact Hinvalid|].
  exact (Hrun unit placementgroup_stubs.stubTitle
           placementgroup_stubs.stubSetStatusCondition placementgroup_stubs.stubNow
           (placementgroup_stubs.stubReconciler
              (placementgroup_stubs.stubAWSPlacementGroup
                 machinev1.ManagedManagementState machinev1.UnmanagedManagementState)
              fake.nothing)
           ("openshift-machine-api", "pg-test") (mkWorld tt []) tt eq_refl).
Defined.

(** ** The describe call of [checkOrCreatePlacementGroup] *)

Section CheckOrCreateFacts.
Context {S : Type}.
Variable SetStatusCondition :
  list metav1.Condition -> metav1.Condition -> S -> list metav1.Condition * S.

Lemma wp_setStatusCondition (pg : machinev1.AWSPlacementGroup)
    (condition : metav1.Condition) (w : world S) Q :
  (forall conditions s',
     Q (Done (machinev1.set_Conditions pg conditions)) (mkWorld s' (trace w))) ->
  wp (awsplacementgroup.setStatusCondition SetStatusCondition pg condition) w Q.
Proof.
  intros H. unfold wp, awsplacementgroup.setStatusCondition.
  destruct (SetStatusCondition _ _ _) as [conditions s']. apply H.
Qed.

(** The tags of the create request: those of [buildTagList] for no tag
    of the object itself. *)
Lemma buildPlacementGroupTagList_eq name (i : configv1.Infrastructure) :
  awsplacementgroup.buildPlacementGroupTagList name [] (Some i)
  = Done (map Tags.toTag
            (filter (fun t => ~ Tags.reserved (machinev1beta1.TagSpecification_Name t))
               (Tags.first_occurrences machinev1beta1.TagSpecification_Name
                  (Tags.infraResourceTags (Some i))))
          ++ [ Tags.clusterTag
                 (configv1.InfrastructureStatus_InfrastructureName
                    (configv1.Infrastructure_Status i));
               Tags.nameTag name ]).
Proof.
  change (awsplacementgroup.buildPlacementGroupTagList name [] (Some i))
    with (Tags.buildTagList name
            (configv1.InfrastructureStatus_InfrastructureName
               (configv1.Infrastructure_Status i)) [] (Some i)).
  by rewrite buildTagList_eq.
Qed.

End CheckOrCreateFacts.

(** [isAWS4xxError] holds of the 4xx-shaped errors and of no other. *)
Lemma isAWS4xxError_clientError (e : error) :
  awsplacementgroup.isAWS4xxError e = true <-> awsplacementgroup.clientError e.
Proof.
  unfold awsplacementgroup.clientError. split.
  - destruct e as [statusCode message| | | | |]; cbn; try discriminate.
    intros [Hlow Hhigh]%andb_true_iff. exists statusCode, message. split; [done|lia].
  - intros (statusCode & message & -> & Hrange). cbn. apply andb_true_iff. lia.
Qed.

(** C7.  Let the describe call of [checkOrCreatePlacementGroup] fail with
    the error [e].  If [e] is not 4xx-shaped, that is, not a request
    failure with a status code from 400 to 499, the function returns [e],
    wrapped, and makes no further call.  If [e] is 4xx-shaped and the
    answer lists no placement group (as for an unknown name), [e] is not
    returned: the function goes on to the create call, for the strategy
    of the group type of the object, and what it returns is decided by
    the answer of the create call alone. *)
Theorem checkOrCreatePlacementGroup_describe_error {S : Type}
    (strings_Title : string -> string)
    (SetStatusCondition :
       list metav1.Condition -> metav1.Condition -> S -> list metav1.Condition * S)
    (client : awsclient.Client S) (pg : machinev1.AWSPlacementGroup)
    (infra : option configv1.Infrastructure) (w : world S)
    (output : option ec2.DescribePlacementGroupsOutput) (e : error) (s1 : S) :
  awsclient.DescribePlacementGroups client (awsplacementgroup.describeByName pg) (env w)
  = ((output, Some e), s1) ->
  let run :=
    awsplacementgroup.checkOrCreatePlacementGroup strings_Title SetStatusCondition
      client pg infra w in
  let described :=
    DescribePlacementGroupsCall (awsplacementgroup.describeByName pg) output (Some e) in
  (~ awsplacementgroup.clientError e ->
   run = (Done (pg, Some (Wrapf "failed to check aws placement group: could not describe aws placement groups: %w" e)),
          mkWorld s1 (trace w ++ [described])))
  /\ (awsplacementgroup.clientError e ->
      forall out i managed strategy partitionCount,
        output = Some out ->
        ec2.DescribePlacementGroupsOutput_PlacementGroups out = [] ->
        infra = Some i ->
        machinev1.ManagementSpec_Managed
          (machinev1.Spec_ManagementSpec (machinev1.Spec pg)) = Some managed ->
        awsplacementgroup.strategyOf managed = Some (strategy, partitionCount) ->
        exists created cerr,
          fst (awsclient.CreatePlacementGroup client
                 (awsplacementgroup.createRequest pg i strategy partitionCount) s1)
          = (created, cerr)
          /\ trace (snd run)
             = trace w ++
               [ described;
                 CreatePlacementGroupCall
                   (awsplacementgroup.createRequest pg i strategy partitionCount)
                   created cerr ]
          /\ match cerr with
             | Some ce =>
                 exists pg',
                   fst run
                   = Done (pg', Some (Wrapf "failed to create aws placement group: %w" ce))
             | None =>
                 awsplacementgroup.created_named created ->
                 exists pg', fst run = Done (pg', None)
             end).
Proof.
  intros Hdescribe run described. split.
  - intros H4xx. rewrite <- isAWS4xxError_clientError in H4xx.
    apply not_true_is_false in H4xx. subst run described.
    unfold awsplacementgroup.checkOrCreatePlacementGroup, bind, call.
    fold (awsplacementgroup.describeByName pg). rewrite Hdescribe.
    unfold awsplacementgroup.describeFailed. by rewrite H4xx.
  - intros H4xx out i managed strategy partitionCount -> Hnone -> Hmanaged Hstrategy.
    apply isAWS4xxError_clientError in H4xx. subst run described.
    pattern (fst (awsplacementgroup.checkOrCreatePlacementGroup strings_Title
                    SetStatusCondition client pg (Some i) w)),
            (snd (awsplacementgroup.checkOrCreatePlacementGroup strings_Title
                    SetStatusCondition client pg (Some i) w)).
    apply wp_intro.
    unfold awsplacementgroup.checkOrCreatePlacementGroup.
    apply wp_bind, wp_call. fold (awsplacementgroup.describeByName pg).
    intros output err s1' Hcall. rewrite Hdescribe in Hcall.
    injection Hcall as <- <- <-.
    unfold awsplacementgroup.describeFailed. rewrite H4xx. cbn [negb].
    rewrite Hnone.
    apply wp_bind, wp_lift. rewrite buildPlacementGroupTagList_eq.
    rewrite Hmanaged.
    assert (Hcreate :
      wp (let* (out0, err) :=
            call (awsclient.CreatePlacementGroup client) CreatePlacementGroupCall
              (awsplacementgroup.createRequest pg i strategy partitionCount) in
          match err with
          | Some e0 =>
              let werr := Wrapf "failed to create aws placement group: %w" e0 in
              let* pg0 :=
                awsplacementgroup.setStatusCondition SetStatusCondition pg
                  (metav1.mkCondition awsplacementgroup.readyConditionType
                     metav1.ConditionFalse
                     awsplacementgroup.creationFailedConditionReason (Some werr)) in
              ret (pg0, Some werr)
          | None =>
              let* pg0 :=
                awsplacementgroup.setStatusCondition SetStatusCondition pg
                  (metav1.mkCondition awsplacementgroup.readyConditionType
                     metav1.ConditionTrue
                     awsplacementgroup.creationSucceededConditionReason None) in
              match out0 with
              | None => panic
              | Some out0 =>
                  match ec2.CreatePlacementGroupOutput_PlacementGroup out0 with
                  | None => panic
                  | Some created =>
                      match ec2.PlacementGroup_GroupName created,
                            ec2.PlacementGroup_GroupId created with
                      | Some _, Some _ => ret (pg0, None)
                      | _, _ => panic
                      end
                  end
              end
          end)
        (mkWorld s1
           (trace w ++
            [DescribePlacementGroupsCall (awsplacementgroup.describeByName pg)
               (Some out) (Some e)]))
        (fun g w0 =>
           exists created cerr,
             fst (awsclient.CreatePlacementGroup client
                    (awsplacementgroup.createRequest pg i strategy partitionCount) s1)
             = (created, cerr)
             /\ trace w0
                = trace w ++
                  [ DescribePlacementGroupsCall (awsplacementgroup.describeByName pg)
                      (Some out) (Some e);
                    CreatePlacementGroupCall
                      (awsplacementgroup.createRequest pg i strategy partitionCount)
                      created cerr ]
             /\ match cerr with
                | Some ce =>
                    exists pg',
                      g = Done (pg', Some (Wrapf "failed to create aws placement group: %w" ce))
                | None =>
                    awsplacementgroup.created_named created ->
                    exists pg', g = Done (pg', None)
                end)).
    { apply wp_bind, wp_call. intros created cerr s2 Hcall. cbn [env] in Hcall.
      exists created, cerr. rewrite Hcall.
      assert (Htrace : forall s : S,
        trace (mkWorld s
                 ((trace w ++
                   [DescribePlacementGroupsCall (awsplacementgroup.describeByName pg)
                      (Some out) (Some e)]) ++
                  [CreatePlacementGroupCall
                     (awsplacementgroup.createRequest pg i strategy partitionCount)
                     created cerr]))
        = trace w ++
          [ DescribePlacementGroupsCall (awsplacementgroup.describeByName pg)
              (Some out) (Some e);
            CreatePlacementGroupCall
              (awsplacementgroup.createRequest pg i strategy partitionCount)
              created cerr ]).
      { intros s. cbn [trace]. by rewrite <- app_assoc. }
      destruct cerr as [ce|].
      - apply wp_bind, wp_setStatusCondition. intros conditions s3. apply wp_ret.
        split; [done|]. split; [apply Htrace|]. by eexists.
      - apply wp_bind, wp_setStatusCondition. intros conditions s3.
        destruct created as [o|];
          [|apply wp_panic; split; [done|]; split; [apply Htrace|];
            by intros (? & ? & ? & ? & [=] & _)].
        destruct (ec2.CreatePlacementGroupOutput_PlacementGroup o) as [g|] eqn:Hg;
          [|apply wp_panic; split; [done|]; split; [apply Htrace|];
            intros (? & ? & ? & ? & [= <-] & ? & _); congruence].
        destruct (ec2.PlacementGroup_GroupName g) as [name|] eqn:Hname;
          [|apply wp_panic; split; [done|]; split; [apply Htrace|];
            intros (? & ? & ? & ? & [= <-] & ? & ? & _); congruence].
        destruct (ec2.PlacementGroup_GroupId g) as [id|] eqn:Hid;
          [|apply wp_panic; split; [done|]; split; [apply Htrace|];
            intros (? & ? & ? & ? & [= <-] & ? & ? & ?); congruence].
        apply wp_ret. split; [done|]. split; [apply Htrace|]. by eexists. }
    unfold awsplacementgroup.strategyOf in Hstrategy.
    unfold machinev1.AWSSpreadPlacementGroupType, machinev1.AWSClusterPlacementGroupType,
      machinev1.AWSPartitionPlacementGroupType.
    destruct (String.eqb (machinev1.Managed_GroupType managed) "Spread");
      [injection Hstrategy as <- <-; exact Hcreate|].
    destruct (String.eqb (machinev1.Managed_GroupType managed) "Cluster");
      [injection Hstrategy as <- <-; exact Hcreate|].
    destruct (String.eqb (machinev1.Managed_GroupType managed) "Partition");
      [|discriminate Hstrategy].
    injection Hstrategy as <- <-.
    destruct (machinev1.Managed_Partition managed) as [partition|]; [|exact Hcreate].
    destruct (machinev1.AWSPartitionPlacement_Count partition =? 0)%Z; exact Hcreate.
Qed.

(** The two runs the claim tells apart, in the stub cloud that knows no
    placement group: after a 400 the group is created, with the tags of
    the cluster; after a 500 the error is returned and nothing is
    created. *)
Example checkOrCreatePlacementGroup_test_unknown :
  let run :=
    placementgroup_stubs.stubCheckOrCreate
      (RequestFailure 400 "InvalidPlacementGroup.Unknown") in
  (exists pg', fst run = Done (pg', None))
  /\ trace (snd run)
     = [ DescribePlacementGroupsCall (ec2.mkDescribePlacementGroupsInput ["pg-test"])
           (Some (ec2.mkDescribePlacementGroupsOutput []))
           (Some (RequestFailure 400 "InvalidPlacementGroup.Unknown"));
         CreatePlacementGroupCall
           (ec2.mkCreatePlacementGroupInput (Some "pg-test") None (Some "cluster")
              [ec2.mkTagSpecification (Some "placement-group")
                 [ ec2.tag "environment" "test";
                   ec2.tag "kubernetes.io/cluster/test-cluster" "owned";
                   ec2.tag "Name" "pg-test" ]])
           (Some (ec2.mkCreatePlacementGroupOutput
                    (Some (placementgroup_stubs.stubPlacementGroup
                             placementgroup_stubs.ownedTags))))
           None ].
Proof. split; [eexists|]; vm_compute; reflexivity. Qed.

Example checkOrCreatePlacementGroup_test_unavailable :
  placementgroup_stubs.stubCheckOrCreate (RequestFailure 500 "InternalError")
  = (Done
       (placementgroup_stubs.stubAWSPlacementGroup
          machinev1.ManagedManagementState machinev1.ManagedManagementState,
        Some (Wrapf "failed to check aws placement group: could not describe aws placement groups: %w"
                (RequestFailure 500 "InternalError"))),
     mkWorld tt
       [ DescribePlacementGroupsCall (ec2.mkDescribePlacementGroupsInput ["pg-test"])
           (Some (ec2.mkDescribePlacementGroupsOutput []))
           (Some (RequestFailure 500 "InternalError")) ]).
Proof. vm_compute. reflexivity. Qed.

Lemma checkOrCreatePlacementGroup_describe_error_witness :
  exists pg',
    fst (placementgroup_stubs.stubCheckOrCreate
           (RequestFailure 400 "InvalidPlacementGroup.Unknown"))
    = Done (pg', None).
Proof.
  destruct (checkOrCreatePlacementGroup_describe_error
              placementgroup_stubs.stubTitle placementgroup_stubs.stubSetStatusCondition
              (fake.NewClient
                 (placementgroup_stubs.stubUnknownAnswers
                    (RequestFailure 400 "InvalidPlacementGroup.Unknown")))
              (placementgroup_stubs.stubAWSPlacementGroup
                 machinev1.ManagedManagementState machinev1.ManagedManagementState)
              (Some placementgroup_stubs.stubInfrastructure) (mkWorld tt [])
              (Some (ec2.mkDescribePlacementGroupsOutput []))
              (RequestFailure 400 "InvalidPlacementGroup.Unknown") tt eq_refl)
    as [_ H4xx].
  assert (Hshape : awsplacementgroup.clientError
                     (RequestFailure 400 "InvalidPlacementGroup.Unknown")).
  { exists 400%Z, "InvalidPlacementGroup.Unknown". split; [reflexivity|lia]. }
  destruct (H4xx Hshape (ec2.mkDescribePlacementGroupsOutput [])
              placementgroup_stubs.stubInfrastructure
              (machinev1.mkManagedAWSPlacementGroup machinev1.AWSClusterPlacementGroupType
                 None)
              ec2.PlacementStrategyCluster None eq_refl eq_refl eq_refl eq_refl eq_refl)
    as (created & cerr & Hcreate & _ & Hresult).
  vm_compute in Hcreate. injection Hcreate as <- <-.
  apply Hresult. by repeat eexists.
Defined.

(** ** The annotations for scaling from zero *)

Section AnnotationFacts.

(** The four assignments of [reconcile], key by key. *)
Lemma annotations_lookup (annotations : gmap string string) (cpu memory gpu labels : string)
    (key : string) :
  <[machineset.labelsKey := labels]>
    (<[machineset.gpuKey := gpu]>
       (<[machineset.memoryKey := memory]>
          (<[machineset.cpuKey := cpu]> annotations))) !! key
  = if decide (key = machineset.cpuKey) then Some cpu
    else if decide (key = machineset.memoryKey) then Some memory
    else if decide (key = machineset.gpuKey) then Some gpu
    else if decide (key = machineset.labelsKey) then Some labels
    else annotations !! key.
Proof.
  assert (Hne : forall k k' : string, k <> k' -> k' <> k) by (intros k k'; apply not_eq_sym).
  repeat case_decide; subst;
    rewrite ?lookup_insert_eq;
    repeat (rewrite lookup_insert_ne by first [by apply Hne | by intros [=]];
            rewrite ?lookup_insert_eq);
    reflexivity.
Qed.

End AnnotationFacts.

(** ** The merge of the labels *)

Section SplitFacts.

Lemma String_app_cons (c : ascii) (a b : string) :
  String c a +:+ b = String c (a +:+ b).
Proof. reflexivity. Qed.

Lemma list_ascii_of_string_app (a b : string) :
  list_ascii_of_string (a +:+ b) = list_ascii_of_string a ++ list_ascii_of_string b.
Proof.
  induction a as [|c a IH]; [reflexivity|].
  rewrite String_app_cons. cbn [list_ascii_of_string]. by rewrite IH.
Qed.

(** A string without the separator is one piece. *)
Lemma Split_free (s : string) (sep : ascii) :
  Forall (fun c => c <> sep) (list_ascii_of_string s) ->
  Split s sep = [s].
Proof.
  induction s as [|c s IH]; [done|]. cbn [list_ascii_of_string Split].
  intros [Hc Hs]%Forall_cons. rewrite (proj2 (Ascii.eqb_neq c sep) Hc).
  by rewrite (IH Hs).
Qed.

(** The first piece ends at the first separator. *)
Lemma Split_app (a b : string) (sep : ascii) :
  Forall (fun c => c <> sep) (list_ascii_of_string a) ->
  Split (a +:+ String sep b) sep = a :: Split b sep.
Proof.
  induction a as [|c a IH].
  - intros _. change ("" +:+ String sep b) with (String sep b).
    cbn [Split]. by rewrite Ascii.eqb_refl.
  - cbn [list_ascii_of_string]. intros [Hc Ha]%Forall_cons.
    rewrite String_app_cons. cbn [Split].
    rewrite (proj2 (Ascii.eqb_neq c sep) Hc). by rewrite (IH Ha).
Qed.

End SplitFacts.

Section MergeFacts.
Import machineset.

Lemma plain_free (s : string) (sep : ascii) :
  plain s -> sep = ","%char \/ sep = "="%char ->
  Forall (fun c => c <> sep) (list_ascii_of_string s).
Proof.
  intros Hs Hsep. eapply Forall_impl; [exact Hs|].
  intros c [Hcomma Hequals]. by destruct Hsep as [-> | ->].
Qed.

Lemma Split_labelEntry (k v : string) :
  plain k -> plain v -> Split (labelEntry (k, v)) "=" = [k; v].
Proof.
  intros Hk Hv. change (labelEntry (k, v)) with (k +:+ String "="%char v).
  rewrite Split_app by (apply plain_free; auto).
  by rewrite Split_free by (apply plain_free; auto).
Qed.

Lemma labelEntry_free (k v : string) :
  plain k -> plain v ->
  Forall (fun c => c <> ","%char) (list_ascii_of_string (labelEntry (k, v))).
Proof.
  intros Hk Hv. change (labelEntry (k, v)) with (k +:+ String "="%char v).
  rewrite list_ascii_of_string_app. apply Forall_app. split.
  - apply plain_free; auto.
  - cbn [list_ascii_of_string]. apply Forall_cons. split; [done|].
    apply plain_free; auto.
Qed.

Lemma Split_labelList (entries : list (string * string)) :
  plainEntries entries -> entries <> [] ->
  Split (labelList entries) "," = map labelEntry entries.
Proof.
  unfold labelList. induction 1 as [|[k v] rest [Hk Hv] Hrest IH]; [done|]. intros _.
  destruct rest as [|kv rest'].
  - cbn [map Join]. apply Split_free. by apply labelEntry_free.
  - change (Join (map labelEntry ((k, v) :: kv :: rest')) ",")
      with (labelEntry (k, v) +:+ String ","%char (Join (map labelEntry (kv :: rest')) ",")).
    rewrite Split_app by (by apply labelEntry_free).
    by rewrite IH.
Qed.

(** Reading a well-formed list puts its entries into the map, in order. *)
Lemma mergeList_labelList (merged : gmap string string) (entries : list (string * string)) :
  plainEntries entries ->
  util.mergeList merged (labelList entries)
  = foldl (fun merged kv => <[kv.1 := kv.2]> merged) merged entries.
Proof.
  intros Hplain. unfold util.mergeList.
  destruct entries as [|kv rest]; [reflexivity|].
  rewrite Split_labelList by done.
  revert merged. induction Hplain as [|[k v] entries [Hk Hv] _ IH]; intros merged; [done|].
  cbn [map foldl]. rewrite Split_labelEntry by done. apply IH.
Qed.

(** The value of a key after the entries were put into the map: that of
    its last entry, or the one the map had. *)
Lemma foldl_insert_lookup (entries : list (string * string)) (merged : gmap string string)
    (k v : string) :
  foldl (fun merged kv => <[kv.1 := kv.2]> merged) merged entries !! k = Some v
  <-> lastEntry entries k v \/ ((k ∉ entries.*1) /\ merged !! k = Some v).
Proof.
  revert merged. induction entries as [|[k0 v0] rest IH]; intros merged.
  - cbn. split.
    + intros H. right. split; [apply not_elem_of_nil|done].
    + intros [(before & after & H & _)|[_ H]]; [|done].
      by destruct before.
  - cbn [foldl fst snd]. rewrite IH. cbn [fmap list_fmap fst]. split.
    + intros [(before & after & -> & Hlast)|[Hrest Hk]].
      * left. by exists ((k0, v0) :: before), after.
      * destruct (decide (k = k0)) as [->|Hne].
        -- rewrite lookup_insert_eq in Hk. injection Hk as ->.
           left. by exists [], rest.
        -- rewrite lookup_insert_ne in Hk by done. right. split; [|done].
           by intros [?|?]%elem_of_cons.
    + intros [(before & after & Heq & Hlast)|[Hnot Hk]].
      * destruct before as [|x before]; cbn in Heq.
        -- injection Heq as Hk0 Hv0 Hrest. subst. right. split; [done|].
           by rewrite lookup_insert_eq.
        -- injection Heq as Hx Hrest. subst. left. by exists before, after.
      * apply not_elem_of_cons in Hnot as [Hne Hrest]. right. split; [done|].
        by rewrite lookup_insert_ne.
Qed.

Lemma plainEntries_arch (arch : string) :
  plain arch -> plainEntries [("kubernetes.io/arch", arch)].
Proof.
  intros Harch. apply Forall_cons. split; [|constructor]. split; [|done].
  unfold plain. apply (bool_decide_unpack _). by vm_compute.
Qed.

(** The merge of the entry of the architecture with a well-formed labels
    annotation: the entries of the annotation stay, each key with its
    last value, and the entry of the architecture joins them unless the
    annotation has an entry of that key. *)
Lemma MergeCommaSeparatedKeyValuePairs_labels (arch : string)
    (entries : list (string * string)) :
  plain arch -> plainEntries entries ->
  exists merged,
    util.MergeCommaSeparatedKeyValuePairs [archLabel arch; labelList entries]
    = labelList merged
    /\ NoDup merged.*1
    /\ forall k v,
         (k, v) ∈ merged
         <-> lastEntry entries k v
             \/ (k = "kubernetes.io/arch" /\ v = arch /\ (k ∉ entries.*1)).
Proof.
  intros Harch Hentries. unfold util.MergeCommaSeparatedKeyValuePairs. cbn [foldl].
  change (archLabel arch) with (labelList [("kubernetes.io/arch", arch)]).
  rewrite (mergeList_labelList _ entries) by done.
  rewrite (mergeList_labelList ∅ [("kubernetes.io/arch", arch)])
    by (by apply plainEntries_arch).
  cbn [foldl fst snd].
  set (m := foldl _ _ entries).
  destruct (Permutation_map_inv (fun kv : string * string => kv.1 +:+ "=" +:+ kv.2)
              (map_to_list m)
              (merge_sort_Permutation String.le
                 (map (fun kv : string * string => kv.1 +:+ "=" +:+ kv.2) (map_to_list m))))
    as (merged & Hsorted & Hperm).
  exists merged. split; [by rewrite Hsorted|]. split.
  - rewrite <- Hperm. apply NoDup_fst_map_to_list.
  - intros k v. rewrite <- Hperm, elem_of_map_to_list. subst m.
    rewrite foldl_insert_lookup. rewrite lookup_insert_Some, lookup_empty.
    intuition congruence.
Qed.

(** With no labels annotation the merge is the entry of the
    architecture. *)
Lemma MergeCommaSeparatedKeyValuePairs_fresh (arch : string) :
  plain arch ->
  util.MergeCommaSeparatedKeyValuePairs [archLabel arch; ""] = archLabel arch.
Proof.
  intros Harch. unfold util.MergeCommaSeparatedKeyValuePairs. cbn [foldl].
  change (archLabel arch) with (labelList [("kubernetes.io/arch", arch)]).
  change (util.mergeList ?m "") with m.
  rewrite (mergeList_labelList ∅ [("kubernetes.io/arch", arch)])
    by (by apply plainEntries_arch).
  cbn [foldl fst snd].
  rewrite insert_empty, map_to_list_singleton. reflexivity.
Qed.

End MergeFacts.

Section ReconcileFacts.
Context {S : Type}.
Variable ProviderSpecFromRawExtension :
  option machineset_api.RawExtension
  -> option machinev1beta1.AWSMachineProviderConfig * option error.
Variable r : machineset.Reconciler S.
Variable machineSet : machineset_api.MachineSet.
Variable w : world S.

Variable providerConfig : machinev1beta1.AWSMachineProviderConfig.
Variable credentialsSecret : machinev1beta1.LocalObjectReference.
Variable awsClient : awsclient.Client S.
Variable instanceType : machineset_api.InstanceType.
Variable err : option error.
Variables s1 s2 : S.

Hypothesis Hconfig :
  ProviderSpecFromRawExtension (machineset_api.MachineSet_ProviderSpecValue machineSet)
  = (Some providerConfig, None).
Hypothesis Hsecret :
  machinev1beta1.CredentialsSecret providerConfig = Some credentialsSecret.
Hypothesis Hclient :
  machineset.AwsClientBuilder r
    (machinev1beta1.LocalObjectReference_Name credentialsSecret,
     machineset_api.MachineSet_Namespace machineSet,
     machinev1beta1.Placement_Region (machinev1beta1.Placement_ providerConfig)) (env w)
  = ((awsClient, None), s1).
Hypothesis Hcache :
  machineset.InstanceTypesCache_GetInstanceType r
    (awsClient,
     machinev1beta1.Placement_Region (machinev1beta1.Placement_ providerConfig),
     machinev1beta1.InstanceType providerConfig) s1
  = ((instanceType, err), s2).

(** What a run of [reconcile] that reaches the instance-types cache
    returns and leaves behind. *)
Lemma reconcile_run :
  machineset.reconcile ProviderSpecFromRawExtension r machineSet w
  = match err with
    | Some _ =>
        (Done (machineSet, (ctrl.mkResult false 0, None)),
         mkWorld s2
           (trace w ++
            machineset.lookupCalls machineSet providerConfig credentialsSecret
              instanceType err ++ [machineset.failedUpdate machineSet]))
    | None =>
        (Done
           (machineset_api.set_Annotations machineSet
              (Some
                 (<[machineset.labelsKey :=
                      util.MergeCommaSeparatedKeyValuePairs
                        [ machineset.archLabel
                            (machineset_api.InstanceType_CPUArchitecture instanceType);
                          machineset.index (machineset.annotationsOf machineSet)
                            machineset.labelsKey ]]>
                    (<[machineset.gpuKey :=
                         Itoa (machineset_api.InstanceType_GPU instanceType)]>
                       (<[machineset.memoryKey :=
                            Itoa (machineset_api.InstanceType_MemoryMb instanceType)]>
                          (<[machineset.cpuKey :=
                               Itoa (machineset_api.InstanceType_VCPU instanceType)]>
                             (machineset.annotationsOf machineSet)))))),
            (ctrl.mkResult false 0, None)),
         mkWorld s2
           (trace w ++
            machineset.lookupCalls machineSet providerConfig credentialsSecret
              instanceType err))
    end.
Proof.
  unfold machineset.reconcile. rewrite Hconfig, Hsecret.
  unfold bind at 1. unfold call at 1. rewrite Hclient.
  unfold bind at 1. unfold call at 1. cbn [env trace fst snd]. rewrite Hcache.
  unfold machineset.lookupCalls. destruct err as [e|].
  - unfold bind, emit, ret. cbn [env trace fst snd]. unfold machineset.failedUpdate.
    by rewrite <- !app_assoc.
  - unfold ret. rewrite <- app_assoc. cbn [app].
    do 3 f_equal. f_equal. f_equal. f_equal.
    unfold machineset.index, machineset.annotationsOf.
    rewrite !lookup_insert_ne by (by intros [=]). reflexivity.
Qed.

End ReconcileFacts.

(** The cases of the test of the reconciler: a known instance type on a
    MachineSet without annotations, on one with annotations of its own
    and a label, on one whose labels name another architecture, and an
    unknown instance type. *)
Example reconcile_test_p2_16xlarge :
  machineset_stubs.stubReconcile "p2.16xlarge" (Some ∅)
  = (Done
       (machineset_stubs.newTestMachineSet "p2.16xlarge"
          (Some {[ machineset.cpuKey := "64";
                   machineset.memoryKey := "749568";
                   machineset.gpuKey := "16";
                   machineset.labelsKey := "kubernetes.io/arch=amd64" ]}),
        (ctrl.mkResult false 0, None)),
     mkWorld tt
       [ AwsClientBuilderCall "aws-credentials-secret" "openshift-machine-api"
           "us-east-1" None;
         GetInstanceTypeCall "us-east-1" "p2.16xlarge"
           (machineset_api.mkInstanceType "p2.16xlarge" 64 749568 16 "amd64") None ]).
Proof. vm_compute. reflexivity. Qed.

Example reconcile_test_existing_annotations :
  fst (machineset_stubs.stubReconcile "a1.2xlarge"
         (Some {[ "existing" := "annotation";
                  machineset.labelsKey := "topology.kubernetes.io/zone=a,disk=ssd" ]}))
  = Done
      (machineset_stubs.newTestMachineSet "a1.2xlarge"
         (Some {[ "existing" := "annotation";
                  machineset.cpuKey := "8";
                  machineset.memoryKey := "16384";
                  machineset.gpuKey := "0";
                  machineset.labelsKey
                    := "disk=ssd,kubernetes.io/arch=amd64,topology.kubernetes.io/zone=a" ]}),
       (ctrl.mkResult false 0, None)).
Proof. vm_compute. reflexivity. Qed.

Example reconcile_test_existing_architecture :
  fst (machineset_stubs.stubReconcile "a1.2xlarge"
         (Some {[ machineset.labelsKey := "kubernetes.io/arch=arm64" ]}))
  = Done
      (machineset_stubs.newTestMachineSet "a1.2xlarge"
         (Some {[ machineset.cpuKey := "8";
                  machineset.memoryKey := "16384";
                  machineset.gpuKey := "0";
                  machineset.labelsKey := "kubernetes.io/arch=arm64" ]}),
       (ctrl.mkResult false 0, None)).
Proof. vm_compute. reflexivity. Qed.

Example reconcile_test_invalid :
  machineset_stubs.stubReconcile "invalid" (Some {[ "existing" := "annotation" ]})
  = (Done
       (machineset_stubs.newTestMachineSet "invalid"
          (Some {[ "existing" := "annotation" ]}),
        (ctrl.mkResult false 0, None)),
     mkWorld tt
       [ AwsClientBuilderCall "aws-credentials-secret" "openshift-machine-api"
           "us-east-1" None;
         GetInstanceTypeCall "us-east-1" "invalid"
           (machineset_api.mkInstanceType "" 0 0 0 "")
           (Some (Errorf "instance type %q not found: The valid instance types in the current region are: %q"));
         Eventf "test-machineset" "Warning" "FailedUpdate"
           "Failed to set autoscaling from zero annotations, instance type unknown"
           None ]).
Proof. vm_compute. reflexivity. Qed.

(** C9.  Let [reconcile] reach the instance-types cache: the provider spec
    decodes, it names a credentials secret, and the client of the cloud
    is built.

    If the cache knows the instance type, [reconcile] records no event
    and returns no error, and changes nothing of the MachineSet but its
    annotations: the vCPU, memory and GPU annotations are the decimal
    numbers of the instance type, the labels annotation is the merge of
    [kubernetes.io/arch=<architecture>] with the labels annotation the
    MachineSet had (the empty string if it had none), and every other
    annotation is as it was.

    The merge overwrites no existing entry.  Let the labels annotation
    the MachineSet had be the comma-separated list of the entries
    [entries], of keys and values without comma and equals sign, and let
    the architecture be such a value.  Then the new labels annotation is
    the comma-separated list of entries [merged] with one entry per key:
    the entries of [entries], each key with the value of its last entry,
    and the entry of the architecture if and only if [entries] has no
    entry with the key [kubernetes.io/arch].  Without a labels annotation
    it is [kubernetes.io/arch=<architecture>] alone.

    For 64 vCPU, 749568 MiB, 16 GPU and [amd64] the annotations are
    ["64"], ["749568"], ["16"] and labels that are
    [kubernetes.io/arch=amd64] if the MachineSet had none, and that hold
    the entry [kubernetes.io/arch=amd64] beside the entries the MachineSet
    had if none of them is for that key.

    If the cache does not know the instance type, [reconcile] returns the
    MachineSet unchanged, with an empty result and no error, and records
    one event after its two calls: the warning [FailedUpdate]. *)
Theorem reconcile_autoscaling_annotations {S : Type}
    (ProviderSpecFromRawExtension :
       option machineset_api.RawExtension
       -> option machinev1beta1.AWSMachineProviderConfig * option error)
    (r : machineset.Reconciler S) (machineSet : machineset_api.MachineSet)
    (w : world S) (providerConfig : machinev1beta1.AWSMachineProviderConfig)
    (credentialsSecret : machinev1beta1.LocalObjectReference)
    (awsClient : awsclient.Client S) (instanceType : machineset_api.InstanceType)
    (err : option error) (s1 s2 : S) :
  ProviderSpecFromRawExtension (machineset_api.MachineSet_ProviderSpecValue machineSet)
  = (Some providerConfig, None) ->
  machinev1beta1.CredentialsSecret providerConfig = Some credentialsSecret ->
  machineset.AwsClientBuilder r
    (machinev1beta1.LocalObjectReference_Name credentialsSecret,
     machineset_api.MachineSet_Namespace machineSet,
     machinev1beta1.Placement_Region (machinev1beta1.Placement_ providerConfig)) (env w)
  = ((awsClient, None), s1) ->
  machineset.InstanceTypesCache_GetInstanceType r
    (awsClient,
     machinev1beta1.Placement_Region (machinev1beta1.Placement_ providerConfig),
     machinev1beta1.InstanceType providerConfig) s1
  = ((instanceType, err), s2) ->
  let run := machineset.reconcile ProviderSpecFromRawExtension r machineSet w in
  let calls :=
    machineset.lookupCalls machineSet providerConfig credentialsSecret instanceType err in
  let arch := machineset_api.InstanceType_CPUArchitecture instanceType in
  let previous :=
    machineset.index (machineset.annotationsOf machineSet) machineset.labelsKey in
  (err = None ->
   exists machineSet' annotations,
     run = (Done (machineSet', (ctrl.mkResult false 0, None)),
            mkWorld s2 (trace w ++ calls))
     /\ machineSet' = machineset_api.set_Annotations machineSet (Some annotations)
     /\ annotations !! machineset.cpuKey
        = Some (Itoa (machineset_api.InstanceType_VCPU instanceType))
     /\ annotations !! machineset.memoryKey
        = Some (Itoa (machineset_api.InstanceType_MemoryMb instanceType))
     /\ annotations !! machineset.gpuKey
        = Some (Itoa (machineset_api.InstanceType_GPU instanceType))
     /\ annotations !! machineset.labelsKey
        = Some (util.MergeCommaSeparatedKeyValuePairs [machineset.archLabel arch; previous])
     /\ (forall key, key ∉ machineset.autoscalingKeys ->
           annotations !! key = machineset.annotationsOf machineSet !! key)
     /\ (machineset.plain arch ->
         (previous = "" ->
          annotations !! machineset.labelsKey = Some (machineset.archLabel arch))
         /\ forall entries,
              machineset.plainEntries entries ->
              previous = machineset.labelList entries ->
              exists merged,
                annotations !! machineset.labelsKey = Some (machineset.labelList merged)
                /\ NoDup merged.*1
                /\ forall k v,
                     (k, v) ∈ merged
                     <-> machineset.lastEntry entries k v
                         \/ (k = "kubernetes.io/arch" /\ v = arch /\ (k ∉ entries.*1)))
     /\ (machineset_api.InstanceType_VCPU instanceType = 64%Z ->
         machineset_api.InstanceType_MemoryMb instanceType = 749568%Z ->
         machineset_api.InstanceType_GPU instanceType = 16%Z ->
         arch = "amd64" ->
         annotations !! machineset.cpuKey = Some "64"
         /\ annotations !! machineset.memoryKey = Some "749568"
         /\ annotations !! machineset.gpuKey = Some "16"
         /\ (previous = "" ->
             annotations !! machineset.labelsKey = Some "kubernetes.io/arch=amd64")
         /\ forall entries,
              machineset.plainEntries entries ->
              previous = machineset.labelList entries ->
              "kubernetes.io/arch" ∉ entries.*1 ->
              exists merged,
                annotations !! machineset.labelsKey = Some (machineset.labelList merged)
                /\ ("kubernetes.io/arch", "amd64") ∈ merged
                /\ forall kv, kv ∈ merged <-> kv = ("kubernetes.io/arch", "amd64")
                                              \/ machineset.lastEntry entries kv.1 kv.2))
  /\ (forall e, err = Some e ->
      run = (Done (machineSet, (ctrl.mkResult false 0, None)),
             mkWorld s2 (trace w ++ calls ++ [machineset.failedUpdate machineSet]))
      /\ filter (fun event => machineset.isRecorded event = true)
           (calls ++ [machineset.failedUpdate machineSet])
         = [Eventf (machineset_api.MachineSet_Name machineSet) "Warning" "FailedUpdate"
              "Failed to set autoscaling from zero annotations, instance type unknown"
              None]).
Proof.
  intros Hconfig Hsecret Hclient Hcache run calls arch previous.
  pose proof (reconcile_run ProviderSpecFromRawExtension
                r machineSet w providerConfig credentialsSecret awsClient instanceType
                err s1 s2 Hconfig Hsecret Hclient Hcache) as Hrun.
  fold run in Hrun. fold calls in Hrun. fold arch in Hrun. fold previous in Hrun.
  assert (Hlabels : forall annotations : gmap string string,
            annotations !! machineset.labelsKey
            = Some (util.MergeCommaSeparatedKeyValuePairs
                      [machineset.archLabel arch; previous]) ->
            machineset.plain arch ->
            (previous = "" ->
             annotations !! machineset.labelsKey = Some (machineset.archLabel arch))
            /\ forall entries,
                 machineset.plainEntries entries ->
                 previous = machineset.labelList entries ->
                 exists merged,
                   annotations !! machineset.labelsKey = Some (machineset.labelList merged)
                   /\ NoDup merged.*1
                   /\ forall k v,
                        (k, v) ∈ merged
                        <-> machineset.lastEntry entries k v
                            \/ (k = "kubernetes.io/arch" /\ v = arch /\ (k ∉ entries.*1))).
  { intros annotations Hlookup Harch. split.
    - intros Hnone. rewrite Hlookup, Hnone.
      by rewrite MergeCommaSeparatedKeyValuePairs_fresh.
    - intros entries Hentries Hprevious.
      destruct (MergeCommaSeparatedKeyValuePairs_labels arch entries Harch Hentries)
        as (merged & Hmerged & Hkeys & Hin).
      exists merged. by rewrite Hlookup, Hprevious, Hmerged. }
  split.
  - intros ->. eexists _, _. split; [exact Hrun|]. split; [reflexivity|].
    match goal with
    | |- context [?a !! machineset.cpuKey] => set (annotations := a)
    end.
    assert (Hcpu : annotations !! machineset.cpuKey
                   = Some (Itoa (machineset_api.InstanceType_VCPU instanceType)))
      by (subst annotations; by rewrite annotations_lookup).
    assert (Hmemory : annotations !! machineset.memoryKey
                      = Some (Itoa (machineset_api.InstanceType_MemoryMb instanceType)))
      by (subst annotations; by rewrite annotations_lookup).
    assert (Hgpu : annotations !! machineset.gpuKey
                   = Some (Itoa (machineset_api.InstanceType_GPU instanceType)))
      by (subst annotations; by rewrite annotations_lookup).
    assert (Hmerged : annotations !! machineset.labelsKey
                      = Some (util.MergeCommaSeparatedKeyValuePairs
                                [machineset.archLabel arch; previous]))
      by (subst annotations; by rewrite annotations_lookup).
    split; [exact Hcpu|]. split; [exact Hmemory|]. split; [exact Hgpu|].
    split; [exact Hmerged|]. split; [|split].
    + intros key Hkey. subst annotations. rewrite annotations_lookup.
      clear -Hkey. repeat case_decide; try reflexivity; exfalso; apply Hkey;
        unfold machineset.autoscalingKeys; set_solver.
    + by apply Hlabels.
    + intros Hv Hm Hg Harch.
      assert (Hplain : machineset.plain arch).
      { rewrite Harch. unfold machineset.plain. apply (bool_decide_unpack _).
        by vm_compute. }
      destruct (Hlabels annotations Hmerged Hplain) as [Hfresh Hmerge].
      rewrite Hcpu, Hmemory, Hgpu, Hv, Hm, Hg.
      split; [reflexivity|]. split; [reflexivity|]. split; [reflexivity|]. split.
      * intros Hnone. rewrite (Hfresh Hnone). by rewrite Harch.
      * intros entries Hentries Hprevious Hkey.
        destruct (Hmerge entries Hentries Hprevious) as (merged & Hlist & _ & Hin).
        exists merged. split; [exact Hlist|]. rewrite Harch in Hin. split.
        -- apply Hin. by right.
        -- intros [k v]. rewrite Hin. cbn [fst snd]. split.
           ++ intros [?|(-> & -> & _)]; [by right|by left].
           ++ intros [[= -> ->]|?]; [by right|by left].
  - intros e ->. split; [exact Hrun|]. reflexivity.
Qed.

Lemma reconcile_autoscaling_annotations_witness :
  exists annotations,
    fst (machineset_stubs.stubReconcile "p2.16xlarge" None)
    = Done (machineset_api.set_Annotations
              (machineset_stubs.newTestMachineSet "p2.16xlarge" None) (Some annotations),
            (ctrl.mkResult false 0, None))
    /\ annotations !! machineset.cpuKey = Some "64"
    /\ annotations !! machineset.memoryKey = Some "749568"
    /\ annotations !! machineset.gpuKey = Some "16"
    /\ annotations !! machineset.labelsKey = Some "kubernetes.io/arch=amd64".
Proof.
  destruct (reconcile_autoscaling_annotations
              machineset_stubs.stubProviderSpec
              machineset_stubs.stubReconciler
              (machineset_stubs.newTestMachineSet "p2.16xlarge" None) (mkWorld tt [])
              (machineset_stubs.stubProviderConfig "p2.16xlarge")
              (machinev1beta1.mkLocalObjectReference "aws-credentials-secret")
              (fake.NewClient fake.nothing)
              (machineset_api.mkInstanceType "p2.16xlarge" 64 749568 16 "amd64")
              None tt tt eq_refl eq_refl eq_refl eq_refl) as [Hknown _].
  destruct (Hknown eq_refl)
    as (machineSet' & annotations & Hrun & -> & _ & _ & _ & _ & _ & _ & Hexample).
  exists annotations. split.
  - unfold machineset_stubs.stubReconcile. by rewrite Hrun.
  - destruct (Hexample eq_refl eq_refl eq_refl eq_refl)
      as (Hcpu & Hmemory & Hgpu & Hlabels & _).
    split; [exact Hcpu|]. split; [exact Hmemory|]. split; [exact Hgpu|].
    apply Hlabels. reflexivity.
Defined.

(** The whole pass for an unknown instance type, with the feature gate
    off: the MachineSet is patched as it was read, and [Reconcile]
    returns an empty result and no error, so the request is not
    requeued. *)
Lemma Reconcile_unknown_instance_type {S : Type}
    (ProviderSpecFromRawExtension :
       option machineset_api.RawExtension
       -> option machinev1beta1.AWSMachineProviderConfig * option error)
    (conditions_IsTrue : machineset_api.MachineSet -> string -> bool)
    (PausedCondition FeatureGateMachineAPIMigration : string)
    (r : machineset.Reconciler S) (req : string * string)
    (machineSet answer : machineset_api.MachineSet)
    (w : world S) (providerConfig : machinev1beta1.AWSMachineProviderConfig)
    (credentialsSecret : machinev1beta1.LocalObjectReference)
    (awsClient : awsclient.Client S) (instanceType : machineset_api.InstanceType)
    (e : error) (s0 s1 s2 s3 : S) :
  machineset.Client_Get r req (env w) = ((machineSet, None), s0) ->
  metav1.IsZero (machineset_api.MachineSet_DeletionTimestamp machineSet) = true ->
  machineset.Gate_Enabled r FeatureGateMachineAPIMigration = false ->
  ProviderSpecFromRawExtension (machineset_api.MachineSet_ProviderSpecValue machineSet)
  = (Some providerConfig, None) ->
  machinev1beta1.CredentialsSecret providerConfig = Some credentialsSecret ->
  machineset.AwsClientBuilder r
    (machinev1beta1.LocalObjectReference_Name credentialsSecret,
     machineset_api.MachineSet_Namespace machineSet,
     machinev1beta1.Placement_Region (machinev1beta1.Placement_ providerConfig)) s0
  = ((awsClient, None), s1) ->
  machineset.InstanceTypesCache_GetInstanceType r
    (awsClient,
     machinev1beta1.Placement_Region (machinev1beta1.Placement_ providerConfig),
     machinev1beta1.InstanceType providerConfig) s1
  = ((instanceType, Some e), s2) ->
  machineset.Client_Patch r (machineSet, machineSet) s2 = ((answer, None), s3) ->
  machineset.Reconcile ProviderSpecFromRawExtension
    conditions_IsTrue PausedCondition FeatureGateMachineAPIMigration r req w
  = (Done (ctrl.mkResult false 0, None),
     mkWorld s3
       (trace w ++
        [GetMachineSetCall (fst req) (snd req) machineSet None] ++
        machineset.lookupCalls machineSet providerConfig credentialsSecret
          instanceType (Some e) ++
        [ machineset.failedUpdate machineSet;
          PatchMachineSetCall machineSet machineSet answer None ])).
Proof.
  intros Hget Hzero Hgate Hconfig Hsecret Hclient Hcache Hpatch.
  unfold machineset.Reconcile. unfold bind at 1. unfold call at 1. rewrite Hget.
  rewrite Hzero, Hgate. cbn [negb].
  unfold bind at 1.
  rewrite (reconcile_run ProviderSpecFromRawExtension
             r machineSet
             (mkWorld s0 (trace w ++ [GetMachineSetCall (fst req) (snd req) machineSet None]))
             providerConfig credentialsSecret awsClient instanceType
             (Some e) s1 s2 Hconfig Hsecret Hclient Hcache).
  unfold bind, ret, call. cbn [env trace fst snd]. rewrite Hpatch.
  cbn [machineset.isInvalidConfigurationError].
  by rewrite <- !app_assoc.
Qed.

(** * Further properties *)

(** ** [removeDuplicatedTags] *)

Section DedupFacts.
Import Tags.

Lemma first_occurrences_sublist {A : Type} (key : A -> string) (l : list A) :
  first_occurrences key l `sublist_of` l.
Proof.
  induction l as [|x l IH]; simpl; [constructor|].
  apply sublist_skip. etrans; [apply sublist_filter|done].
Qed.

Lemma first_occurrences_first {A : Type} (key : A -> string) (l : list A) (x : A) :
  x ∈ first_occurrences key l ->
  exists i, l !! i = Some x /\ forall j u, (j < i)%nat -> l !! j = Some u -> key u <> key x.
Proof.
  induction l as [|a l IH]; simpl; [by intros ?%elem_of_nil|].
  intros [->|Hin]%elem_of_cons.
  - exists 0%nat. split; [done|]. intros; lia.
  - apply list_elem_of_filter in Hin as [Hne Hin].
    destruct (IH Hin) as (i & Hi & Hfirst). exists (S i). split; [done|].
    intros [|j] u Hj Hu; simpl in Hu.
    + injection Hu as <-. congruence.
    + apply (Hfirst j); [lia|done].
Qed.

Lemma first_occurrences_covers {A : Type} (key : A -> string) (l : list A) (x : A) :
  x ∈ l -> exists y, y ∈ first_occurrences key l /\ key y = key x.
Proof.
  induction l as [|a l IH]; simpl; [by intros ?%elem_of_nil|].
  intros [->|Hin]%elem_of_cons.
  - exists a. split; [left|done].
  - destruct (IH Hin) as (y & Hy & Hkey).
    destruct (decide (key y = key a)) as [Heq|Hne].
    + exists a. split; [left|congruence].
    + exists y. split; [|done]. right. by apply list_elem_of_filter.
Qed.

Lemma removeDuplicatedTags_loop_Panic (tags : list ec2.Tag) (m : gmap string bool)
    (result : list ec2.Tag) :
  removeDuplicatedTags_loop tags m result = Panic
  <-> Exists (fun t => ec2.Tag_Key t = None) tags.
Proof.
  revert m result. induction tags as [|entry rest IH]; intros m result; simpl.
  - split; [done|]. by intros ?%Exists_nil.
  - rewrite Exists_cons. destruct (ec2.Tag_Key entry) as [k|] eqn:Hk.
    + destruct (m !! k); rewrite IH; intuition congruence.
    + tauto.
Qed.

End DedupFacts.

(** X1.  On tags that all carry a key, [removeDuplicatedTags] returns
    the first occurrences of the keys, in the order of the input: the
    first tag, followed by the first occurrences among the other tags
    without those of its key.  So the result is a sublist of the input
    with one tag per key, and of the tags with one key it is the first of
    the input that is kept: the first found value gets precedence. *)
Theorem removeDuplicatedTags_first_found (tags : list ec2.Tag) :
  Forall (fun t => is_Some (ec2.Tag_Key t)) tags ->
  exists result,
    Tags.removeDuplicatedTags tags = Done result
    /\ result = Tags.first_occurrences Tags.keyOf tags
    /\ result `sublist_of` tags
    /\ NoDup (map Tags.keyOf result)
    /\ forall t, t ∈ tags ->
         exists i t',
           tags !! i = Some t' /\ t' ∈ result /\ Tags.keyOf t' = Tags.keyOf t
           /\ forall j u, (j < i)%nat -> tags !! j = Some u -> Tags.keyOf u <> Tags.keyOf t.
Proof.
  intros Hkeys. exists (Tags.first_occurrences Tags.keyOf tags).
  split; [by apply removeDuplicatedTags_spec|]. split; [reflexivity|].
  split; [apply first_occurrences_sublist|].
  split; [apply first_occurrences_keys|].
  intros t Ht.
  destruct (first_occurrences_covers Tags.keyOf tags t Ht) as (t' & Ht' & Hkey).
  destruct (first_occurrences_first Tags.keyOf tags t' Ht') as (i & Hi & Hfirst).
  exists i, t'. repeat split; try done.
  intros j u Hj Hu. rewrite <- Hkey. by apply (Hfirst j).
Qed.

Lemma removeDuplicatedTags_first_found_witness :
  Tags.removeDuplicatedTags
    [ec2.tag "a" "1"; ec2.tag "b" "2"; ec2.tag "a" "3"; ec2.tag "b" "2"]
  = Done [ec2.tag "a" "1"; ec2.tag "b" "2"].
Proof.
  destruct (removeDuplicatedTags_first_found
              [ec2.tag "a" "1"; ec2.tag "b" "2"; ec2.tag "a" "3"; ec2.tag "b" "2"])
    as (result & Hrun & Hresult & _).
  - repeat constructor; by eexists.
  - rewrite Hrun, Hresult. vm_compute. reflexivity.
Defined.

(** X2.  [removeDuplicatedTags] panics exactly when some tag carries no
    key, wherever it stands and whatever the other tags are. *)
Theorem removeDuplicatedTags_nil_key (tags : list ec2.Tag) :
  Tags.removeDuplicatedTags tags = Panic
  <-> Exists (fun t => ec2.Tag_Key t = None) tags.
Proof. apply removeDuplicatedTags_loop_Panic. Qed.

(** ** Market options, for a market type that is set *)

Section MarketFacts.
Import machinev1beta1.

Lemma set_MarketType_same (c : AWSMachineProviderConfig) :
  set_MarketType c (MarketType c) = c.
Proof. by destruct c. Qed.

(** The outcomes of [getInstanceMarketOptionsRequest], by the market type
    and the spot options of the config. *)
Lemma getInstanceMarketOptionsRequest_cases (c : AWSMachineProviderConfig) :
  Instances.getInstanceMarketOptionsRequest c
  = if decide (MarketType c = "") then
      match SpotMarketOptions_ c with
      | Some options =>
          Done (set_MarketType c "Spot", (Some (launcher_spec.spotRequest options), None))
      | None => Done (set_MarketType c "OnDemand", (None, None))
      end
    else if decide (MarketType c = "CapacityBlock") then
      match SpotMarketOptions_ c with
      | Some _ =>
          Done (c, (None,
                    Some (Errorf "can't create spot capacity-blocks, remove spot market request")))
      | None =>
          if decide (CapacityReservationID c = "")
          then Done (c, (None,
                         Some (Errorf "capacityReservationID is required when CapacityBlock is enabled")))
          else Done (c, (Some (ec2.mkInstanceMarketOptionsRequest (Some "capacity-block")
                                 None), None))
      end
    else if decide (MarketType c = "Spot") then
      match SpotMarketOptions_ c with
      | Some options => Done (c, (Some (launcher_spec.spotRequest options), None))
      | None => Panic
      end
    else if decide (MarketType c = "OnDemand") then Done (c, (None, None))
    else Done (c, (None, Some (Errorf "invalid MarketType %q"))).
Proof.
  unfold Instances.getInstanceMarketOptionsRequest.
  unfold MarketTypeCapacityBlock, MarketTypeSpot, MarketTypeOnDemand.
  destruct (SpotMarketOptions_ c) as [[maxPrice]|] eqn:Hspot.
  - rewrite (bool_decide_eq_true_2 (Some _ <> None)) by done.
    destruct (decide (MarketType c = "")) as [Hmt|Hmt].
    { rewrite Hmt. cbn. rewrite Hspot. by destruct maxPrice as [[|? ?]|]. }
    apply String.eqb_neq in Hmt as Hmt'. rewrite Hmt'. cbn [negb andb].
    destruct (decide (MarketType c = "CapacityBlock")) as [Hcb|Hcb].
    { rewrite Hcb. reflexivity. }
    apply String.eqb_neq in Hcb as Hcb'. rewrite Hcb', Hmt'. cbn [negb andb].
    rewrite Hcb'.
    destruct (decide (MarketType c = "Spot")) as [Hsp|Hsp].
    { rewrite Hsp. cbn. rewrite Hspot. by destruct maxPrice as [[|? ?]|]. }
    apply String.eqb_neq in Hsp as Hsp'. rewrite Hsp'.
    destruct (decide (MarketType c = "OnDemand")) as [Hod|Hod].
    { rewrite Hod. reflexivity. }
    apply String.eqb_neq in Hod as Hod'. by rewrite Hod'.
  - rewrite (bool_decide_eq_false_2 (None <> None)) by (intros H; by apply H).
    rewrite !andb_false_r. cbn [andb].
    destruct (decide (MarketType c = "")) as [Hmt|Hmt].
    { rewrite Hmt. reflexivity. }
    apply String.eqb_neq in Hmt as Hmt'. rewrite Hmt'.
    destruct (decide (MarketType c = "CapacityBlock")) as [Hcb|Hcb].
    { rewrite Hcb. cbn [String.eqb Ascii.eqb Bool.eqb].
      destruct (decide (CapacityReservationID c = "")) as [Hid|Hid].
      - by rewrite Hid.
      - apply String.eqb_neq in Hid. by rewrite Hid. }
    apply String.eqb_neq in Hcb as Hcb'. rewrite Hcb'.
    destruct (decide (MarketType c = "Spot")) as [Hsp|Hsp].
    { rewrite Hsp. cbn. by rewrite Hspot. }
    apply String.eqb_neq in Hsp as Hsp'. rewrite Hsp'.
    destruct (decide (MarketType c = "OnDemand")) as [Hod|Hod].
    { rewrite Hod. reflexivity. }
    apply String.eqb_neq in Hod as Hod'. by rewrite Hod'.
Qed.

End MarketFacts.

(** The outcome of a run, read off the table of the cases. *)
Ltac market_table c :=
  rewrite (getInstanceMarketOptionsRequest_cases c);
  repeat case_decide;
  try destruct (machinev1beta1.SpotMarketOptions_ c) as [?|] eqn:?.

(** X3.  [getInstanceMarketOptionsRequest] panics exactly when the market
    type is set to [Spot] and there are no spot options: the maximal price
    is read through the nil pointer. *)
Theorem getInstanceMarketOptionsRequest_panic
    (providerConfig : machinev1beta1.AWSMachineProviderConfig) :
  Instances.getInstanceMarketOptionsRequest providerConfig = Panic
  <-> machinev1beta1.MarketType providerConfig = machinev1beta1.MarketTypeSpot
      /\ machinev1beta1.SpotMarketOptions_ providerConfig = None.
Proof.
  unfold machinev1beta1.MarketTypeSpot.
  market_table providerConfig; split; try discriminate; try done;
    intros [Hmt Hspot]; congruence.
Qed.

(** X4.  A successful [getInstanceMarketOptionsRequest] changes nothing of
    the provider config but an unset market type, which it fills in; the
    market type is then [OnDemand], [Spot] or [CapacityBlock], and a
    second call on the config it leaves behind returns the same request
    and leaves the same config. *)
Theorem getInstanceMarketOptionsRequest_settles
    (providerConfig providerConfig' : machinev1beta1.AWSMachineProviderConfig)
    (request : option ec2.InstanceMarketOptionsRequest) :
  Instances.getInstanceMarketOptionsRequest providerConfig
  = Done (providerConfig', (request, None)) ->
  providerConfig'
  = machinev1beta1.set_MarketType providerConfig
      (machinev1beta1.MarketType providerConfig')
  /\ (machinev1beta1.MarketType providerConfig <> "" -> providerConfig' = providerConfig)
  /\ (machinev1beta1.MarketType providerConfig' = machinev1beta1.MarketTypeOnDemand
      \/ machinev1beta1.MarketType providerConfig' = machinev1beta1.MarketTypeSpot
      \/ machinev1beta1.MarketType providerConfig'
         = machinev1beta1.MarketTypeCapacityBlock)
  /\ Instances.getInstanceMarketOptionsRequest providerConfig'
     = Done (providerConfig', (request, None)).
Proof.
  unfold machinev1beta1.MarketTypeOnDemand, machinev1beta1.MarketTypeSpot,
    machinev1beta1.MarketTypeCapacityBlock.
  intros Hrun.
  assert (Hsame : forall request',
            Instances.getInstanceMarketOptionsRequest providerConfig
            = Done (providerConfig, (request', None)) ->
            providerConfig' = providerConfig -> request' = request ->
            machinev1beta1.MarketType providerConfig <> "" ->
            (machinev1beta1.MarketType providerConfig = "OnDemand"
             \/ machinev1beta1.MarketType providerConfig = "Spot"
             \/ machinev1beta1.MarketType providerConfig = "CapacityBlock") ->
            providerConfig'
            = machinev1beta1.set_MarketType providerConfig
                (machinev1beta1.MarketType providerConfig')
            /\ (machinev1beta1.MarketType providerConfig <> "" ->
                providerConfig' = providerConfig)
            /\ (machinev1beta1.MarketType providerConfig' = "OnDemand"
                \/ machinev1beta1.MarketType providerConfig' = "Spot"
                \/ machinev1beta1.MarketType providerConfig' = "CapacityBlock")
            /\ Instances.getInstanceMarketOptionsRequest providerConfig'
               = Done (providerConfig', (request, None))).
  { intros request' Hrun' -> -> Hset Hmt.
    by rewrite set_MarketType_same. }
  revert Hrun. market_table providerConfig; intros [= <- <-].
  - (* unset, spot options: Spot is filled in *)
    split; [reflexivity|]. split; [done|]. split; [by right; left|].
    rewrite getInstanceMarketOptionsRequest_cases. cbn.
    match goal with H : machinev1beta1.SpotMarketOptions_ _ = _ |- _ => by rewrite H end.
  - (* unset, no spot options: OnDemand is filled in *)
    split; [reflexivity|]. split; [done|]. split; [by left|].
    rewrite getInstanceMarketOptionsRequest_cases. reflexivity.
  - (* CapacityBlock *)
    eapply Hsame; try done; [|by right; right].
    rewrite getInstanceMarketOptionsRequest_cases.
    rewrite decide_False, decide_True by done.
    match goal with H : machinev1beta1.SpotMarketOptions_ _ = _ |- _ => rewrite H end.
    by rewrite decide_False by done.
  - (* Spot *)
    eapply Hsame; try done; [|by right; left].
    rewrite getInstanceMarketOptionsRequest_cases.
    rewrite !decide_False, decide_True by done.
    match goal with H : machinev1beta1.SpotMarketOptions_ _ = _ |- _ => by rewrite H end.
  - (* OnDemand, with spot options *)
    eapply Hsame; try done; [|by left].
    rewrite getInstanceMarketOptionsRequest_cases.
    by rewrite !decide_False, decide_True by done.
  - (* OnDemand, without *)
    eapply Hsame; try done; [|by left].
    rewrite getInstanceMarketOptionsRequest_cases.
    by rewrite !decide_False, decide_True by done.
Qed.

Lemma getInstanceMarketOptionsRequest_settles_witness :
  let providerConfig :=
    machinev1beta1.mkAWSMachineProviderConfig
      (machinev1beta1.mkAWSResourceReference None None None) "" [] None None None 0 None ""
      [] (machinev1beta1.mkAWSResourceReference None None None)
      (machinev1beta1.mkPlacement "" "" "") []
      (Some (machinev1beta1.mkSpotMarketOptions (Some "0.5")))
      (machinev1beta1.mkMetadataServiceOptions "") "" None "" "" in
  Instances.getInstanceMarketOptionsRequest
    (machinev1beta1.set_MarketType providerConfig machinev1beta1.MarketTypeSpot)
  = Done (machinev1beta1.set_MarketType providerConfig machinev1beta1.MarketTypeSpot,
          (Some (ec2.mkInstanceMarketOptionsRequest (Some "spot")
                   (Some (ec2.mkSpotMarketOptions (Some "terminate") (Some "0.5")
                            (Some "one-time")))), None)).
Proof.
  intros providerConfig.
  exact (proj2 (proj2 (proj2
           (getInstanceMarketOptionsRequest_settles providerConfig
              (machinev1beta1.set_MarketType providerConfig machinev1beta1.MarketTypeSpot)
              (Some (ec2.mkInstanceMarketOptionsRequest (Some "spot")
                       (Some (ec2.mkSpotMarketOptions (Some "terminate") (Some "0.5")
                                (Some "one-time")))))
              eq_refl)))).
Defined.

(** X5.  A request that [getInstanceMarketOptionsRequest] returns comes
    without an error and is either a spot request, with spot options that
    terminate on interruption, are one-time and carry no empty maximal
    price, for a config with spot options; or a capacity-block request
    without spot options, for a config that names a capacity reservation
    and has no spot options.  A capacity block is never requested as
    spot. *)
Theorem getInstanceMarketOptionsRequest_request
    (providerConfig providerConfig' : machinev1beta1.AWSMachineProviderConfig)
    (request : ec2.InstanceMarketOptionsRequest) (err : option error) :
  Instances.getInstanceMarketOptionsRequest providerConfig
  = Done (providerConfig', (Some request, err)) ->
  err = None
  /\ ((ec2.MarketOptions_MarketType request = Some "spot"
       /\ (exists maxPrice,
             ec2.MarketOptions_SpotOptions request
             = Some (ec2.mkSpotMarketOptions (Some "terminate") maxPrice (Some "one-time"))
             /\ maxPrice <> Some "")
       /\ machinev1beta1.SpotMarketOptions_ providerConfig <> None
       /\ machinev1beta1.MarketType providerConfig <> machinev1beta1.MarketTypeCapacityBlock)
      \/ (ec2.MarketOptions_MarketType request = Some "capacity-block"
          /\ ec2.MarketOptions_SpotOptions request = None
          /\ machinev1beta1.SpotMarketOptions_ providerConfig = None
          /\ machinev1beta1.CapacityReservationID providerConfig <> ""
          /\ machinev1beta1.MarketType providerConfig
             = machinev1beta1.MarketTypeCapacityBlock)).
Proof.
  unfold machinev1beta1.MarketTypeCapacityBlock.
  assert (Hspot : forall options,
            exists maxPrice,
              ec2.MarketOptions_SpotOptions (launcher_spec.spotRequest options)
              = Some (ec2.mkSpotMarketOptions (Some "terminate") maxPrice (Some "one-time"))
              /\ maxPrice <> Some "").
  { intros [[[|c p]|]]; eexists; (split; [reflexivity|done]). }
  market_table providerConfig; intros [= <- <- <-]; (split; [reflexivity|]).
  - left. split; [done|]. split; [apply Hspot|]. split; congruence.
  - right. by repeat split.
  - left. split; [done|]. split; [apply Hspot|]. split; congruence.
Qed.

Lemma getInstanceMarketOptionsRequest_request_witness :
  machinev1beta1.CapacityReservationID
    (machinev1beta1.mkAWSMachineProviderConfig
       (machinev1beta1.mkAWSResourceReference None None None) "" [] None None None 0 None
       "" [] (machinev1beta1.mkAWSResourceReference None None None)
       (machinev1beta1.mkPlacement "" "" "") [] None
       (machinev1beta1.mkMetadataServiceOptions "") "" None "cr-0123456789abcdef0"
       machinev1beta1.MarketTypeCapacityBlock)
  <> "".
Proof.
  destruct (getInstanceMarketOptionsRequest_request
              (machinev1beta1.mkAWSMachineProviderConfig
                 (machinev1beta1.mkAWSResourceReference None None None) "" [] None None
                 None 0 None "" [] (machinev1beta1.mkAWSResourceReference None None None)
                 (machinev1beta1.mkPlacement "" "" "") [] None
                 (machinev1beta1.mkMetadataServiceOptions "") "" None
                 "cr-0123456789abcdef0" machinev1beta1.MarketTypeCapacityBlock)
              _ (ec2.mkInstanceMarketOptionsRequest (Some "capacity-block") None) None
              eq_refl) as [_ [(Hspot & _)|(_ & _ & _ & Hid & _)]].
  - discriminate Hspot.
  - exact Hid.
Defined.

(** ** Placement of the instance *)

(** X6.  [constructInstancePlacement] fails exactly for a tenancy other
    than the empty one, [default], [dedicated] and [host].  Otherwise the
    placement it returns names the availability zone only when the subnet
    is not given by ID, a partition only within a placement group, and the
    tenancy as configured; it is nil exactly when none of these is set. *)
Theorem constructInstancePlacement_spec (machine : machinev1beta1.Machine)
    (machineProviderConfig : machinev1beta1.AWSMachineProviderConfig) :
  let tenancy :=
    machinev1beta1.Placement_Tenancy (machinev1beta1.Placement_ machineProviderConfig) in
  let zone :=
    machinev1beta1.Placement_AvailabilityZone
      (machinev1beta1.Placement_ machineProviderConfig) in
  let groupName := machinev1beta1.PlacementGroupName machineProviderConfig in
  let byID :=
    machinev1beta1.AWSResourceReference_ID (machinev1beta1.Subnet machineProviderConfig) in
  let result := Instances.constructInstancePlacement machine machineProviderConfig in
  (snd result <> None <-> ~ placement_spec.validTenancy tenancy)
  /\ (snd result <> None -> fst result = None)
  /\ (snd result = None ->
      (fst result = None <-> (zone = "" \/ byID <> None) /\ groupName = "" /\ tenancy = "")
      /\ forall placement, fst result = Some placement ->
           ec2.Placement_AvailabilityZone placement
           = (if decide (zone <> "" /\ byID = None) then Some zone else None)
           /\ ec2.Placement_GroupName placement
              = (if decide (groupName = "") then None else Some groupName)
           /\ ec2.Placement_PartitionNumber placement
              = (if decide (groupName = "") then None
                 else machinev1beta1.PlacementGroupPartition machineProviderConfig)
           /\ ec2.Placement_Tenancy placement
              = (if decide (tenancy = "") then None else Some tenancy)).
Proof.
  intros tenancy zone groupName byID result. subst result.
  unfold Instances.constructInstancePlacement.
  fold tenancy zone groupName byID.
  unfold machinev1beta1.DefaultTenancy, machinev1beta1.DedicatedTenancy,
    machinev1beta1.HostTenancy, placement_spec.validTenancy.
  clearbody tenancy zone groupName byID.
  set (az := if negb (String.eqb zone "") && bool_decide (byID = None)
             then Some zone else None).
  set (gn := if negb (String.eqb groupName "") then Some groupName else None).
  set (pn := if negb (String.eqb groupName "")
             then machinev1beta1.PlacementGroupPartition machineProviderConfig else None).
  assert (Haz : az = if decide (zone <> "" /\ byID = None) then Some zone else None).
  { subst az. destruct (String.eqb_spec zone "") as [Hz|Hz];
      destruct (bool_decide_reflect (byID = None)) as [Hid|Hid]; cbn [negb andb];
      destruct (decide (zone <> "" /\ byID = None)); try reflexivity; exfalso; tauto. }
  assert (Hgn : gn = if decide (groupName = "") then None else Some groupName).
  { subst gn. destruct (String.eqb_spec groupName ""); cbn [negb];
      destruct (decide (groupName = "")); try reflexivity; exfalso; tauto. }
  assert (Hpn : pn = if decide (groupName = "") then None
                     else machinev1beta1.PlacementGroupPartition machineProviderConfig).
  { subst pn. destruct (String.eqb_spec groupName ""); cbn [negb];
      destruct (decide (groupName = "")); try reflexivity; exfalso; tauto. }
  clearbody az gn pn.
  destruct (String.eqb_spec tenancy "") as [Ht|Ht].
  { (* no tenancy *)
    rewrite (decide_True (P := tenancy = "")) by done.
    subst az gn pn.
    destruct (decide (zone <> "" /\ byID = None)) as [Hd|Hd];
      destruct (decide (groupName = "")) as [Hg|Hg]; cbn [fst snd].
    all: split; [split; [done|]; intros Hn; exfalso; apply Hn; by left|].
    all: split; [done|]; intros _.
    all: split; [|by intros placement [= <-]].
    all: split; try done; try (intros (_ & ? & _); done).
    - intros ([?|?] & _); tauto.
    - intros _. split; [|done].
      destruct (decide (zone = "")); [by left|right]. intros Hid. apply Hd. done. }
  rewrite (decide_False (P := tenancy = "")) by done.
  destruct (String.eqb_spec tenancy "default") as [Ht1|Ht1]; cbn [orb];
    [|destruct (String.eqb_spec tenancy "dedicated") as [Ht2|Ht2]; cbn [orb];
      [|destruct (String.eqb_spec tenancy "host") as [Ht3|Ht3]; cbn [orb]]].
  4:{ (* an invalid tenancy *)
      cbn [fst snd]. split; [|done]. split; [|done]. intros _. tauto. }
  all: assert (Hvalid : tenancy = "" \/ tenancy = "default" \/ tenancy = "dedicated"
                        \/ tenancy = "host") by tauto.
  all: destruct az, gn, pn; cbn [fst snd].
  all: split; [split; [done|]; intros Hn; exfalso; by apply Hn|].
  all: split; [done|]; intros _.
  all: split; [split; [done|]; by intros (_ & _ & ?)|].
  all: by intros placement [= <-].
Qed.

(** ** Block device mappings *)

Section BlockDeviceFacts.
Import machinev1beta1 blockdevice_spec.

(** The mapping the loop builds for one spec. *)
Lemma mapped_intro (rootDeviceName deviceName : option string)
    (spec : BlockDeviceMappingSpec) (ebs : EBSBlockDeviceSpec) :
  BlockDeviceMappingSpec_EBS spec = Some ebs ->
  deviceName = match BlockDeviceMappingSpec_DeviceName spec with
               | Some deviceName => Some deviceName
               | None => rootDeviceName
               end ->
  mapped rootDeviceName spec
    (ec2.mkBlockDeviceMapping deviceName
       (Some (ec2.mkEbsBlockDevice (EBS_VolumeSize ebs) (EBS_VolumeType ebs)
                (EBS_Encrypted ebs) (Some true)
                (if String.eqb (StringValue (EBS_VolumeType ebs)) ec2.VolumeTypeIo1
                    || String.eqb (StringValue (EBS_VolumeType ebs)) ec2.VolumeTypeIo2
                    || String.eqb (StringValue (EBS_VolumeType ebs)) ec2.VolumeTypeGp3
                 then match EBS_Iops ebs with
                      | Some n => if (0 <? n)%Z then Some n else None
                      | None => None
                      end
                 else None)
                (if negb (String.eqb
                            (StringValue (AWSResourceReference_ID (EBS_KMSKey ebs))) "")
                 then AWSResourceReference_ID (EBS_KMSKey ebs)
                 else if negb (String.eqb
                                 (StringValue (AWSResourceReference_ARN (EBS_KMSKey ebs)))
                                 "")
                 then AWSResourceReference_ARN (EBS_KMSKey ebs)
                 else None)))).
Proof.
  intros Hebs Hname. exists ebs. eexists. split; [done|]. split; [reflexivity|].
  cbn [ec2.BlockDeviceMapping_DeviceName ec2.Ebs_VolumeSize ec2.Ebs_VolumeType
       ec2.Ebs_Encrypted ec2.Ebs_DeleteOnTermination ec2.Ebs_Iops ec2.Ebs_KmsKeyId].
  repeat (split; [done|]). split.
  - intros n.
    assert (Hio : String.eqb (StringValue (EBS_VolumeType ebs)) ec2.VolumeTypeIo1
                  || String.eqb (StringValue (EBS_VolumeType ebs)) ec2.VolumeTypeIo2
                  || String.eqb (StringValue (EBS_VolumeType ebs)) ec2.VolumeTypeGp3 = true
                  <-> iopsVolume (EBS_VolumeType ebs)).
    { unfold iopsVolume. rewrite !orb_true_iff, !String.eqb_eq. tauto. }
    destruct (_ || _ || _).
    + destruct (EBS_Iops ebs) as [m|]; [|split; [done|by intros [[=] _]]].
      destruct (Z.ltb_spec 0 m).
      * split; [intros [= ->]; tauto|by intros [[= ->] _]].
      * split; [done|]. intros [[= ->] [? _]]. lia.
    + split; [done|]. intros (_ & _ & Hv). apply Hio in Hv. discriminate Hv.
  - cbn zeta.
    destruct (String.eqb_spec (StringValue (AWSResourceReference_ID (EBS_KMSKey ebs))) "");
      destruct (String.eqb_spec (StringValue (AWSResourceReference_ARN (EBS_KMSKey ebs))) "");
      cbn [negb]; tauto.
Qed.

Lemma getBlockDeviceMappings_loop_spec (specs : list BlockDeviceMappingSpec)
    (rootDeviceName : option string) (rootDeviceFound : bool)
    (blockDeviceMappings : list ec2.BlockDeviceMapping) :
  let unnamed := length (filter unnamedEBS specs) in
  let tooMany := if rootDeviceFound then (1 <= unnamed)%nat else (2 <= unnamed)%nat in
  (tooMany ->
   Instances.getBlockDeviceMappings_loop specs rootDeviceName rootDeviceFound
     blockDeviceMappings
   = ([], Some (Errorf "non root device must have name")))
  /\ (~ tooMany ->
      exists mappings,
        Instances.getBlockDeviceMappings_loop specs rootDeviceName rootDeviceFound
          blockDeviceMappings
        = (blockDeviceMappings ++ mappings, None)
        /\ Forall2 (mapped rootDeviceName) (filter hasEBS specs) mappings).
Proof.
  revert rootDeviceFound blockDeviceMappings.
  induction specs as [|spec rest IH]; intros rootDeviceFound blockDeviceMappings.
  { cbn. split; [destruct rootDeviceFound; lia|]. intros _. exists [].
    by rewrite app_nil_r. }
  cbn [Instances.getBlockDeviceMappings_loop].
  destruct (BlockDeviceMappingSpec_EBS spec) as [ebs|] eqn:Hebs.
  2:{ rewrite (filter_cons_False unnamedEBS) by (intros [Hn _]; by apply Hn).
      rewrite (filter_cons_False hasEBS) by (intros Hn; by apply Hn).
      apply IH. }
  rewrite (filter_cons_True hasEBS) by (unfold hasEBS; congruence).
  destruct (BlockDeviceMappingSpec_DeviceName spec) as [deviceName|] eqn:Hname.
  - rewrite (filter_cons_False unnamedEBS) by (intros [_ Hn]; congruence).
    destruct (IH rootDeviceFound
                (blockDeviceMappings ++
                 [ec2.mkBlockDeviceMapping (Some deviceName)
                    (Some (ec2.mkEbsBlockDevice (EBS_VolumeSize ebs) (EBS_VolumeType ebs)
                             (EBS_Encrypted ebs) (Some true)
                             (if String.eqb (StringValue (EBS_VolumeType ebs))
                                   ec2.VolumeTypeIo1
                                 || String.eqb (StringValue (EBS_VolumeType ebs))
                                      ec2.VolumeTypeIo2
                                 || String.eqb (StringValue (EBS_VolumeType ebs))
                                      ec2.VolumeTypeGp3
                              then match EBS_Iops ebs with
                                   | Some n => if (0 <? n)%Z then Some n else None
                                   | None => None
                                   end
                              else None)
                             (if negb (String.eqb
                                         (StringValue
                                            (AWSResourceReference_ID (EBS_KMSKey ebs))) "")
                              then AWSResourceReference_ID (EBS_KMSKey ebs)
                              else if negb (String.eqb
                                              (StringValue
                                                 (AWSResourceReference_ARN
                                                    (EBS_KMSKey ebs))) "")
                              then AWSResourceReference_ARN (EBS_KMSKey ebs)
                              else None)))])) as [IHbad IHok].
    split; [exact IHbad|]. intros Hok. destruct (IHok Hok) as (mappings & -> & Hall).
    eexists (_ :: mappings). rewrite <- app_assoc. split; [reflexivity|].
    constructor; [|exact Hall]. apply mapped_intro; [done|by rewrite Hname].
  - rewrite (filter_cons_True unnamedEBS) by (split; congruence).
    cbn [length]. destruct rootDeviceFound.
    { split; [done|]. intros Hn. exfalso. apply Hn. lia. }
    destruct (IH true
                (blockDeviceMappings ++
                 [ec2.mkBlockDeviceMapping rootDeviceName
                    (Some (ec2.mkEbsBlockDevice (EBS_VolumeSize ebs) (EBS_VolumeType ebs)
                             (EBS_Encrypted ebs) (Some true)
                             (if String.eqb (StringValue (EBS_VolumeType ebs))
                                   ec2.VolumeTypeIo1
                                 || String.eqb (StringValue (EBS_VolumeType ebs))
                                      ec2.VolumeTypeIo2
                                 || String.eqb (StringValue (EBS_VolumeType ebs))
                                      ec2.VolumeTypeGp3
                              then match EBS_Iops ebs with
                                   | Some n => if (0 <? n)%Z then Some n else None
                                   | None => None
                                   end
                              else None)
                             (if negb (String.eqb
                                         (StringValue
                                            (AWSResourceReference_ID (EBS_KMSKey ebs))) "")
                              then AWSResourceReference_ID (EBS_KMSKey ebs)
                              else if negb (String.eqb
                                              (StringValue
                                                 (AWSResourceReference_ARN
                                                    (EBS_KMSKey ebs))) "")
                              then AWSResourceReference_ARN (EBS_KMSKey ebs)
                              else None)))])) as [IHbad IHok].
    split.
    + intros Hbad. apply IHbad. cbn zeta. lia.
    + intros Hok. destruct IHok as (mappings & -> & Hall); [cbn zeta; lia|].
      eexists (_ :: mappings). rewrite <- app_assoc. split; [reflexivity|].
      constructor; [|exact Hall]. apply mapped_intro; [done|by rewrite Hname].
Qed.

End BlockDeviceFacts.

(** With specs, [getBlockDeviceMappings] describes the image. *)
Lemma getBlockDeviceMappings_nonempty {S : Type} (machine : string * string)
    (blockDeviceMappingSpecs : list machinev1beta1.BlockDeviceMappingSpec)
    (AMI : string) (client : awsclient.Client S) :
  blockDeviceMappingSpecs <> [] ->
  Instances.getBlockDeviceMappings machine blockDeviceMappingSpecs AMI client
  = let* (describeAMIResult, err) :=
      call (awsclient.DescribeImages client) DescribeImagesCall
        (ec2.mkDescribeImagesInput [] [AMI]) in
    match err with
    | Some e =>
        let* _ := emit (RegisterFailedInstanceCreate (fst machine) (snd machine)
                          "error describing AMI") in
        ret ([], Some (Wrapf "error describing AMI: %v" e))
    | None =>
        match describeAMIResult with
        | None => panic
        | Some result =>
            match ec2.DescribeImagesOutput_Images result with
            | [] => ret ([], Some (Errorf "no image for given AMI not found"))
            | image :: _ =>
                ret (Instances.getBlockDeviceMappings_loop blockDeviceMappingSpecs
                       (ec2.Image_RootDeviceName image) false [])
            end
        end
    end.
Proof. by destruct blockDeviceMappingSpecs. Qed.

(** X7.  When the image of the AMI is found, [getBlockDeviceMappings]
    fails exactly when two or more specs of an EBS device have no device
    name (only the root device may be unnamed).  Otherwise it returns, in
    the order of the specs, one mapping per spec with an EBS device: an
    unnamed one gets the root device name of the first image; size, type
    and encryption are those of the spec; [DeleteOnTermination] is always
    true; IOPS are set only when positive and for [io1], [io2] or [gp3];
    the KMS key is the ID when it is not empty and else the ARN. *)
Theorem getBlockDeviceMappings_root_device {S : Type}
    (machine : string * string)
    (blockDeviceMappingSpecs : list machinev1beta1.BlockDeviceMappingSpec)
    (AMI : string) (client : awsclient.Client S) (w : world S)
    (out : ec2.DescribeImagesOutput) (image : ec2.Image) (images : list ec2.Image)
    (s' : S) :
  blockDeviceMappingSpecs <> [] ->
  awsclient.DescribeImages client (ec2.mkDescribeImagesInput [] [AMI]) (env w)
  = ((Some out, None), s') ->
  ec2.DescribeImagesOutput_Images out = image :: images ->
  let unnamed := length (filter blockdevice_spec.unnamedEBS blockDeviceMappingSpecs) in
  exists mappings err,
    fst (Instances.getBlockDeviceMappings machine blockDeviceMappingSpecs AMI client w)
    = Done (mappings, err)
    /\ (err <> None <-> (2 <= unnamed)%nat)
    /\ (err <> None -> mappings = [])
    /\ (err = None ->
        Forall2 (blockdevice_spec.mapped (ec2.Image_RootDeviceName image))
          (filter blockdevice_spec.hasEBS blockDeviceMappingSpecs) mappings).
Proof.
  intros Hspecs Hcall Himages unnamed.
  rewrite getBlockDeviceMappings_nonempty by done.
  unfold bind, call. rewrite Hcall. cbn [fst]. rewrite Himages. cbn [ret fst].
  destruct (getBlockDeviceMappings_loop_spec blockDeviceMappingSpecs
              (ec2.Image_RootDeviceName image) false []) as [Hbad Hok].
  fold unnamed in Hbad, Hok. cbn zeta in Hbad, Hok.
  destruct (decide (2 <= unnamed)%nat) as [Hmany|Hfew].
  - rewrite (Hbad Hmany). eexists _, _. split; [reflexivity|]. by repeat split.
  - destruct (Hok Hfew) as (mappings & -> & Hall). eexists _, _.
    split; [reflexivity|]. split; [split; [done|lia]|]. split; [done|]. intros _. exact Hall.
Qed.

Lemma getBlockDeviceMappings_root_device_witness :
  exists mappings,
    fst (Instances.getBlockDeviceMappings ("machine", "namespace")
           [ machinev1beta1.mkBlockDeviceMappingSpec None
               (Some (machinev1beta1.mkEBSBlockDeviceSpec (Some false) None
                        (machinev1beta1.mkAWSResourceReference None None None)
                        (Some 0%Z) (Some 120%Z) (Some "gp3"))) ]
           "ami-a9acbbd6"
           (fake.NewClient
              (fake.mkAnswers
                 (Some (ec2.mkDescribeImagesOutput
                          [ec2.mkImage (Some "ami-a9acbbd6") None (Some "/dev/xvda")]),
                  None)
                 (fake.subnets fake.nothing) (fake.zones fake.nothing)
                 (fake.securityGroups fake.nothing) (fake.placementGroups fake.nothing)
                 (fake.reservation fake.nothing) (fake.instances fake.nothing)
                 (fake.createdPlacementGroup fake.nothing)
                 (fake.deletedPlacementGroup fake.nothing)))
           (mkWorld tt []))
    = Done (mappings, None)
    /\ mappings
       = [ ec2.mkBlockDeviceMapping (Some "/dev/xvda")
             (Some (ec2.mkEbsBlockDevice (Some 120%Z) (Some "gp3") None (Some true)
                      None None)) ].
Proof.
  destruct (getBlockDeviceMappings_root_device ("machine", "namespace")
              [ machinev1beta1.mkBlockDeviceMappingSpec None
                  (Some (machinev1beta1.mkEBSBlockDeviceSpec (Some false) None
                           (machinev1beta1.mkAWSResourceReference None None None)
                           (Some 0%Z) (Some 120%Z) (Some "gp3"))) ]
              "ami-a9acbbd6"
              (fake.NewClient
                 (fake.mkAnswers
                    (Some (ec2.mkDescribeImagesOutput
                             [ec2.mkImage (Some "ami-a9acbbd6") None (Some "/dev/xvda")]),
                     None)
                    (fake.subnets fake.nothing) (fake.zones fake.nothing)
                    (fake.securityGroups fake.nothing) (fake.placementGroups fake.nothing)
                    (fake.reservation fake.nothing) (fake.instances fake.nothing)
                    (fake.createdPlacementGroup fake.nothing)
                    (fake.deletedPlacementGroup fake.nothing)))
              (mkWorld tt []) _ _ [] tt ltac:(done) eq_refl eq_refl)
    as (mappings & err & Hrun & _ & _ & _).
  vm_compute in Hrun. injection Hrun as <- <-. eexists. split; reflexivity.
Defined.

(** X8.  [getBlockDeviceMappings] asks the cloud nothing when there are
    no specs, and returns no mapping.  With specs it describes the image
    of the AMI, once and by its ID; when this call fails it registers a
    failed instance create and returns an error, and when the cloud knows
    no such image it returns an error. *)
Theorem getBlockDeviceMappings_calls {S : Type} (machine : string * string)
    (blockDeviceMappingSpecs : list machinev1beta1.BlockDeviceMappingSpec)
    (AMI : string) (client : awsclient.Client S) (w : world S) :
  let run :=
    Instances.getBlockDeviceMappings machine blockDeviceMappingSpecs AMI client w in
  (blockDeviceMappingSpecs = [] -> run = (Done ([], None), w))
  /\ (blockDeviceMappingSpecs <> [] ->
      exists out err s',
        awsclient.DescribeImages client (ec2.mkDescribeImagesInput [] [AMI]) (env w)
        = ((out, err), s')
        /\ trace (snd run)
           = trace w
             ++ DescribeImagesCall (ec2.mkDescribeImagesInput [] [AMI]) out err
             :: match err with
                | Some _ =>
                    [RegisterFailedInstanceCreate (fst machine) (snd machine)
                       "error describing AMI"]
                | None => []
                end
        /\ (forall e, err = Some e ->
              fst run = Done ([], Some (Wrapf "error describing AMI: %v" e)))
        /\ (forall o, err = None -> out = Some o ->
              ec2.DescribeImagesOutput_Images o = [] ->
              fst run = Done ([], Some (Errorf "no image for given AMI not found")))).
Proof.
  intros run. subst run. split.
  - by intros ->.
  - intros Hspecs. rewrite getBlockDeviceMappings_nonempty by done.
    unfold bind, call.
    destruct (awsclient.DescribeImages client _ (env w)) as [[out err] s'] eqn:Hcall.
    exists out, err, s'. split; [reflexivity|].
    destruct err as [e|].
    + cbn. rewrite <- app_assoc. split; [reflexivity|]. split; [by intros ? [= <-]|done].
    + destruct out as [o|]; [|by cbn].
      destruct (ec2.DescribeImagesOutput_Images o) eqn:Himages; cbn.
      * split; [reflexivity|]. split; [done|]. by intros ? _ [= <-] _.
      * split; [reflexivity|]. split; [done|]. intros ? _ [= <-]. by rewrite Himages.
Qed.

(** ** Security groups *)

Section SecurityGroupFacts.
Import machinev1beta1 resolver_spec.
Context {S : Type}.

Lemma omap_cons_Some {A B : Type} (f : A -> option B) (x : A) (y : B) (l : list A) :
  f x = Some y -> omap f (x :: l) = y :: omap f l.
Proof. intros H. cbn. by rewrite H. Qed.

Lemma getSecurityGroupsIDs_loop_by_id (securityGroups : list AWSResourceReference)
    (client : awsclient.Client S) (securityGroupIDs : list string) (w : world S) :
  Forall (fun g => is_Some (AWSResourceReference_ID g)) securityGroups ->
  Instances.getSecurityGroupsIDs_loop securityGroups client securityGroupIDs w
  = (Done (match securityGroupIDs ++ omap AWSResourceReference_ID securityGroups with
           | [] => ([], Some (Errorf "no security group found"))
           | ids => (ids, None)
           end), w).
Proof.
  intros Hall. revert securityGroupIDs.
  induction Hall as [|g rest [id Hid] _ IH]; intros securityGroupIDs.
  - cbn. rewrite app_nil_r. by destruct securityGroupIDs.
  - cbn [Instances.getSecurityGroupsIDs_loop]. rewrite Hid, IH.
    rewrite (omap_cons_Some _ _ _ _ Hid). by rewrite <- app_assoc.
Qed.

(** The run of the loop: what it asks and what it returns. *)
Lemma getSecurityGroupsIDs_loop_run (securityGroups : list AWSResourceReference)
    (client : awsclient.Client S) (securityGroupIDs : list string) (w : world S) :
  wp (Instances.getSecurityGroupsIDs_loop securityGroups client securityGroupIDs) w
    (fun r w' =>
       exists evs made todo,
         trace w' = trace w ++ evs
         /\ describeRequests securityGroups = made ++ todo
         /\ Forall2 describes evs made
         /\ forall ids err, r = Done (ids, err) ->
              (err = None <-> ids <> [])
              /\ (err = None ->
                  todo = []
                  /\ forall id, id ∈ securityGroupIDs
                                \/ Some id ∈ map AWSResourceReference_ID securityGroups ->
                                id ∈ ids)).
Proof.
  revert securityGroupIDs w.
  induction securityGroups as [|g rest IH]; intros securityGroupIDs w.
  - cbn [Instances.getSecurityGroupsIDs_loop].
    destruct securityGroupIDs as [|id ids']; apply wp_ret; exists [], [], [];
      rewrite app_nil_r; (split; [done|]); (split; [done|]); (split; [constructor|]);
      intros ids err [= <- <-]; (split; [done|]).
    + done.
    + intros _. split; [done|]. intros id' [Hin|Hin]; [done|].
      cbn in Hin. by apply elem_of_nil in Hin.
  - cbn [Instances.getSecurityGroupsIDs_loop]. unfold describeRequests.
    destruct (AWSResourceReference_ID g) as [id|] eqn:Hid.
    + (* given by ID: no call *)
      assert (Hrequests : describeRequests (g :: rest) = describeRequests rest).
      { unfold describeRequests. cbn. by rewrite Hid. }
      fold (describeRequests (g :: rest)). rewrite Hrequests.
      eapply wp_mono; [apply IH|].
      intros r w' (evs & made & todo & Htrace & Hsplit & Hevs & Hres).
      exists evs, made, todo. split; [done|]. split; [done|]. split; [done|].
      intros ids err Hr. destruct (Hres ids err Hr) as [Hiff Hin]. split; [done|].
      intros Hnone. destruct (Hin Hnone) as [Htodo Hids]. split; [done|].
      intros id' Hid'. apply Hids.
      rewrite elem_of_app, list_elem_of_singleton.
      destruct Hid' as [?|Hid']; [by left; left|].
      cbn in Hid'. rewrite Hid in Hid'. apply elem_of_cons in Hid' as [[= ->]|?]; auto.
    + destruct (AWSResourceReference_Filters g) as [filters|] eqn:Hfilters.
      * (* given by filters: one call *)
        assert (Hrequests :
                  describeRequests (g :: rest)
                  = ec2.mkDescribeSecurityGroupsInput (Instances.buildEC2Filters filters)
                    :: describeRequests rest).
        { unfold describeRequests. cbn. by rewrite Hid, Hfilters. }
        fold (describeRequests (g :: rest)). rewrite Hrequests.
        apply wp_bind, wp_call. intros out err s' _.
        assert (Hcall : describes
                          (DescribeSecurityGroupsCall
                             (ec2.mkDescribeSecurityGroupsInput
                                (Instances.buildEC2Filters filters)) out err)
                          (ec2.mkDescribeSecurityGroupsInput
                             (Instances.buildEC2Filters filters))).
        { by exists out, err. }
        destruct err as [e|].
        { apply wp_ret. eexists [_], [_], _. split; [done|]. split; [done|].
          split; [by repeat constructor|]. by intros ids err [= <- <-]. }
        destruct out as [result|].
        2:{ apply wp_panic. eexists [_], [_], _. split; [done|]. split; [done|].
            split; [by repeat constructor|]. done. }
        apply wp_bind, wp_lift.
        destruct (Instances.groupIDs _) as [found|].
        2:{ eexists [_], [_], _. split; [done|]. split; [done|].
            split; [by repeat constructor|]. done. }
        eapply wp_mono; [apply IH|].
        intros r w' (evs & made & todo & Htrace & Hsplit & Hevs & Hres).
        eexists (_ :: evs), (_ :: made), todo.
        split; [rewrite Htrace; cbn [trace]; by rewrite <- app_assoc|].
        split; [by rewrite Hsplit|]. split; [by constructor|].
        intros ids err Hr. destruct (Hres ids err Hr) as [Hiff Hin]. split; [done|].
        intros Hnone. destruct (Hin Hnone) as [Htodo Hids]. split; [done|].
        intros id' Hid'. apply Hids.
        rewrite elem_of_app.
        destruct Hid' as [?|Hid']; [by left; left|].
        cbn in Hid'. rewrite Hid in Hid'. apply elem_of_cons in Hid' as [[=]|?]; auto.
      * (* neither: skipped *)
        assert (Hrequests : describeRequests (g :: rest) = describeRequests rest).
        { unfold describeRequests. cbn. by rewrite Hid, Hfilters. }
        fold (describeRequests (g :: rest)). rewrite Hrequests.
        eapply wp_mono; [apply IH|].
        intros r w' (evs & made & todo & Htrace & Hsplit & Hevs & Hres).
        exists evs, made, todo. split; [done|]. split; [done|]. split; [done|].
        intros ids err Hr. destruct (Hres ids err Hr) as [Hiff Hin]. split; [done|].
        intros Hnone. destruct (Hin Hnone) as [Htodo Hids]. split; [done|].
        intros id' Hid'. apply Hids.
        destruct Hid' as [?|Hid']; [by left|].
        cbn in Hid'. rewrite Hid in Hid'. apply elem_of_cons in Hid' as [[=]|?]; auto.
Qed.

End SecurityGroupFacts.

(** X9.  For security groups that are all given by ID,
    [getSecurityGroupsIDs] asks the cloud nothing and returns the IDs in
    the order of the references; for no reference at all it returns the
    error that no security group was found. *)
Theorem getSecurityGroupsIDs_by_id {S : Type}
    (securityGroups : list machinev1beta1.AWSResourceReference)
    (client : awsclient.Client S) (w : world S) :
  Forall (fun g => is_Some (machinev1beta1.AWSResourceReference_ID g)) securityGroups ->
  Instances.getSecurityGroupsIDs securityGroups client w
  = (Done (match securityGroups with
           | [] => ([], Some (Errorf "no security group found"))
           | _ => (omap machinev1beta1.AWSResourceReference_ID securityGroups, None)
           end), w)
  /\ length (omap machinev1beta1.AWSResourceReference_ID securityGroups)
     = length securityGroups.
Proof.
  intros Hall. unfold Instances.getSecurityGroupsIDs.
  rewrite getSecurityGroupsIDs_loop_by_id by done. cbn [app]. split.
  - destruct Hall as [|g rest [id Hid] _]; [done|].
    by rewrite (omap_cons_Some _ _ _ _ Hid).
  - induction Hall as [|g rest [id Hid] _ IH]; [done|].
    rewrite (omap_cons_Some _ _ _ _ Hid). cbn. by rewrite IH.
Qed.

Lemma getSecurityGroupsIDs_by_id_witness :
  Instances.getSecurityGroupsIDs
    [ machinev1beta1.mkAWSResourceReference (Some "sg-00868b02fbe29de17") None None;
      machinev1beta1.mkAWSResourceReference (Some "sg-0a4658991dc5eb40a") None
        (Some [machinev1beta1.mkFilter "tag:Name" ["ignored"]]) ]
    (fake.NewClient fake.nothing) (mkWorld tt [])
  = (Done (["sg-00868b02fbe29de17"; "sg-0a4658991dc5eb40a"], None), mkWorld tt []).
Proof.
  apply (getSecurityGroupsIDs_by_id
           [ machinev1beta1.mkAWSResourceReference (Some "sg-00868b02fbe29de17") None None;
             machinev1beta1.mkAWSResourceReference (Some "sg-0a4658991dc5eb40a") None
               (Some [machinev1beta1.mkFilter "tag:Name" ["ignored"]]) ]
           (fake.NewClient fake.nothing) (mkWorld tt [])).
  repeat constructor; by eexists.
Defined.

(** X10.  In every run of [getSecurityGroupsIDs] the calls to the cloud
    are [DescribeSecurityGroups] calls, one for each reference that is
    not given by ID and has filters, for the filters of that reference
    and in the order of the references, up to the reference the run ends
    at; a run that succeeds has made the calls for all these references.
    The function never returns an empty list without an error, nor a
    list with an error; and when it succeeds, every ID given directly is
    in the list. *)
Theorem getSecurityGroupsIDs_result {S : Type}
    (securityGroups : list machinev1beta1.AWSResourceReference)
    (client : awsclient.Client S) (w : world S) :
  let run := Instances.getSecurityGroupsIDs securityGroups client w in
  exists evs made todo,
    trace (snd run) = trace w ++ evs
    /\ resolver_spec.describeRequests securityGroups = made ++ todo
    /\ Forall2 resolver_spec.describes evs made
    /\ forall ids err, fst run = Done (ids, err) ->
         (err = None <-> ids <> [])
         /\ (err = None ->
             todo = []
             /\ forall g id, g ∈ securityGroups ->
                             machinev1beta1.AWSResourceReference_ID g = Some id ->
                             id ∈ ids).
Proof.
  intros run. subst run. unfold Instances.getSecurityGroupsIDs.
  destruct (getSecurityGroupsIDs_loop_run securityGroups client [] w)
    as (evs & made & todo & Htrace & Hsplit & Hevs & Hres).
  exists evs, made, todo. repeat (split; [done|]).
  intros ids err Hr. destruct (Hres ids err Hr) as [Hiff Hin]. split; [done|].
  intros Hnone. destruct (Hin Hnone) as [Htodo Hids]. split; [done|].
  intros g id Hg Hid. apply Hids. right.
  rewrite <- Hid. by apply list_elem_of_fmap_2.
Qed.

(** ** Subnets *)

(** A run is determined by what it ends in. *)
Lemma wp_run_eq {S A : Type} (m : M S A) (w : world S) (r : go A) (w' : world S) :
  wp m w (fun r0 w0 => r0 = r /\ w0 = w') -> m w = (r, w').
Proof. unfold wp. destruct (m w) as [r0 w0]. cbn. by intros [-> ->]. Qed.

(** A statement about the result and the last world of a run, as a
    postcondition. *)
Ltac run_to_wp w :=
  match goal with
  | |- context [fst (?m w)] => pattern (fst (m w)), (snd (m w)); apply wp_intro
  end.

(** The answer of a call that is known. *)
Ltac known_call H :=
  apply wp_call;
  let output := fresh "output" in
  let err := fresh "err" in
  let s := fresh "s" in
  let Hcall := fresh "Hcall" in
  intros output err s Hcall; cbn [env] in Hcall; rewrite H in Hcall;
  injection Hcall as <- <- <-.

(** X11.  For a subnet given by ID, [getSubnetIDs] returns this ID alone
    and never an error: it describes the subnet once, by the ID, to
    compare the availability zones, and neither a failure of this call,
    nor an unknown subnet, nor a mismatch of the zones changes the
    result. *)
Theorem getSubnetIDs_by_id {S : Type} (machine : string * string)
    (subnet : machinev1beta1.AWSResourceReference) (availabilityZone : string)
    (client : awsclient.Client S) (w : world S) (id : string) :
  machinev1beta1.AWSResourceReference_ID subnet = Some id ->
  let run := Instances.getSubnetIDs machine subnet availabilityZone client w in
  fst run = Done ([id], None)
  /\ exists out err,
       trace (snd run)
       = trace w ++ [DescribeSubnetsCall (ec2.mkDescribeSubnetsInput (Some false) [] [id])
                       out err].
Proof.
  intros Hid run. subst run. unfold Instances.getSubnetIDs. rewrite Hid.
  unfold Instances.getAvalabilityZoneFromSubnetID, bind, call.
  destruct (awsclient.DescribeSubnets client _ (env w)) as [[out err] s'].
  destruct err as [e|]; [cbn; eauto|].
  destruct out as [result|]; [|cbn; eauto].
  destruct (ec2.DescribeSubnetsOutput_Subnets result); cbn; eauto.
Qed.

Lemma getSubnetIDs_by_id_witness :
  fst (Instances.getSubnetIDs ("machine", "namespace")
         (machinev1beta1.mkAWSResourceReference (Some "subnet-0e56b13a64ff8a941") None None)
         "us-east-1a"
         (fake.NewClient
            (fake.mkAnswers (fake.images fake.nothing)
               (None, Some (RequestFailure 503 "Unavailable"))
               (fake.zones fake.nothing) (fake.securityGroups fake.nothing)
               (fake.placementGroups fake.nothing) (fake.reservation fake.nothing)
               (fake.instances fake.nothing) (fake.createdPlacementGroup fake.nothing)
               (fake.deletedPlacementGroup fake.nothing)))
         (mkWorld tt []))
  = Done (["subnet-0e56b13a64ff8a941"], None).
Proof.
  apply (getSubnetIDs_by_id ("machine", "namespace")
           (machinev1beta1.mkAWSResourceReference (Some "subnet-0e56b13a64ff8a941")
              None None)).
  reflexivity.
Defined.

(** X12.  For a subnet not given by ID and a config that names an
    availability zone, [getSubnetIDs] first describes this zone; when
    that call fails it registers a failed instance create and returns an
    error without describing any subnet.  Otherwise it describes the
    subnets by the filter [availabilityZone] followed by the filters of
    the reference, and returns the IDs of the answer in its order, or an
    error when the answer is empty. *)
Theorem getSubnetIDs_in_zone {S : Type} (machine : string * string)
    (subnet : machinev1beta1.AWSResourceReference) (availabilityZone : string)
    (client : awsclient.Client S) (w : world S)
    (zones : option ec2.DescribeAvailabilityZonesOutput) (zerr : option error) (s1 : S) :
  machinev1beta1.AWSResourceReference_ID subnet = None ->
  availabilityZone <> "" ->
  awsclient.DescribeAvailabilityZones client
    (ec2.mkDescribeAvailabilityZonesInput None [availabilityZone]) (env w)
  = ((zones, zerr), s1) ->
  let run := Instances.getSubnetIDs machine subnet availabilityZone client w in
  let zoneCall :=
    DescribeAvailabilityZonesCall
      (ec2.mkDescribeAvailabilityZonesInput None [availabilityZone]) zones zerr in
  let request :=
    ec2.mkDescribeSubnetsInput None
      (Instances.buildEC2Filters
         (machinev1beta1.mkFilter "availabilityZone" [availabilityZone]
          :: default [] (machinev1beta1.AWSResourceReference_Filters subnet))) [] in
  (forall e, zerr = Some e ->
     run = (Done ([], Some (Wrapf "error describing availability zones: %v" e)),
            mkWorld s1
              (trace w ++
               [ zoneCall;
                 RegisterFailedInstanceCreate (fst machine) (snd machine)
                   "error describing availability zones" ])))
  /\ (zerr = None ->
      forall out s2 ids,
        awsclient.DescribeSubnets client request s1 = ((Some out, None), s2) ->
        Instances.subnetIDsOf (ec2.DescribeSubnetsOutput_Subnets out) = Done ids ->
        run = (Done (match ids with
                     | [] => ([], Some (Errorf "no subnet IDs were found"))
                     | _ => (ids, None)
                     end),
               mkWorld s2 (trace w ++ [zoneCall; DescribeSubnetsCall request (Some out) None]))
        /\ map ec2.Subnet_SubnetId (ec2.DescribeSubnetsOutput_Subnets out) = map Some ids).
Proof.
  intros Hid Hzone Hzones run zoneCall request. subst run zoneCall request.
  unfold Instances.getSubnetIDs. rewrite Hid.
  apply String.eqb_neq in Hzone. rewrite Hzone. cbn [negb app]. split.
  - intros e ->. apply wp_run_eq, wp_bind. known_call Hzones.
    apply wp_bind, wp_emit, wp_ret. cbn [env trace]. by rewrite <- app_assoc.
  - intros -> out s2 ids Hsubnets Hids. split.
    + apply wp_run_eq, wp_bind. known_call Hzones.
      apply wp_bind. known_call Hsubnets.
      apply wp_bind, wp_lift. rewrite Hids.
      destruct ids; apply wp_ret; cbn [trace]; by rewrite <- app_assoc.
    + clear -Hids. revert ids Hids.
      induction (ec2.DescribeSubnetsOutput_Subnets out) as [|n rest IH]; intros ids Hids.
      * by injection Hids as <-.
      * cbn in Hids. destruct (ec2.Subnet_SubnetId n) as [id|] eqn:Hn; [|done].
        destruct (Instances.subnetIDsOf rest) as [ids'|]; [|done].
        injection Hids as <-. cbn. rewrite Hn. f_equal. by apply IH.
Qed.

Lemma getSubnetIDs_in_zone_witness :
  fst (Instances.getSubnetIDs ("machine", "namespace")
         (machinev1beta1.mkAWSResourceReference None None
            (Some [machinev1beta1.mkFilter "tag:Name" ["private"]]))
         "us-east-1a"
         (fake.NewClient (stubs.stubAnswers "us-east-1a" "availability-zone"))
         (mkWorld tt []))
  = Done (["subnet-0e56b13a64ff8a941"], None).
Proof.
  destruct (getSubnetIDs_in_zone ("machine", "namespace")
              (machinev1beta1.mkAWSResourceReference None None
                 (Some [machinev1beta1.mkFilter "tag:Name" ["private"]]))
              "us-east-1a"
              (fake.NewClient (stubs.stubAnswers "us-east-1a" "availability-zone"))
              (mkWorld tt []) _ None tt eq_refl ltac:(discriminate) eq_refl)
    as [_ Hdescribed].
  destruct (Hdescribed eq_refl _ tt ["subnet-0e56b13a64ff8a941"] eq_refl eq_refl)
    as [Hrun _].
  by rewrite Hrun.
Defined.

(** ** The AMI *)

(** X13.  An AMI given by ID is used as it is, without a call to the
    cloud, even when filters are given too; an AMI with neither an ID nor
    a filter is an error, without a call.  Only an AMI given by filters
    alone is looked up: by one describe call for these filters, whose
    failure registers a failed instance create and is returned as an
    error, as is an answer without an image. *)
Theorem getAMI_calls {S : Type}
    (time_Parse_RFC3339 : string -> metav1.Time * option error)
    (machine : string * string) (AMI : machinev1beta1.AWSResourceReference)
    (client : awsclient.Client S) (w : world S) :
  let run := Instances.getAMI time_Parse_RFC3339 machine AMI client w in
  (forall id, machinev1beta1.AWSResourceReference_ID AMI = Some id ->
     run = (Done (Some id, None), w))
  /\ (machinev1beta1.AWSResourceReference_ID AMI = None ->
      default [] (machinev1beta1.AWSResourceReference_Filters AMI) = [] ->
      run = (Done (None, Some (Errorf "AMI ID or AMI filters need to be specified")), w))
  /\ (machinev1beta1.AWSResourceReference_ID AMI = None ->
      default [] (machinev1beta1.AWSResourceReference_Filters AMI) <> [] ->
      let request :=
        ec2.mkDescribeImagesInput
          (Instances.buildEC2Filters
             (default [] (machinev1beta1.AWSResourceReference_Filters AMI))) [] in
      exists out err s',
        awsclient.DescribeImages client request (env w) = ((out, err), s')
        /\ trace (snd run)
           = trace w
             ++ DescribeImagesCall request out err
             :: match err with
                | Some _ =>
                    [RegisterFailedInstanceCreate (fst machine) (snd machine)
                       "error describing AMI"]
                | None => []
                end
        /\ (forall e, err = Some e ->
              fst run = Done (None, Some (Wrapf "error describing AMI: %v" e)))
        /\ (forall o, err = None -> out = Some o ->
              ec2.DescribeImagesOutput_Images o = [] ->
              fst run = Done (None, Some (Errorf "no image for given filters not found")))).
Proof.
  intros run. subst run. unfold Instances.getAMI.
  destruct (machinev1beta1.AWSResourceReference_ID AMI) as [amiID|].
  { split; [by intros ? [= <-]|]. by split. }
  split; [done|].
  destruct (machinev1beta1.AWSResourceReference_Filters AMI) as [[|f filters]|];
    cbn [default].
  1,3: by split.
  split; [done|]. intros _ _.
  run_to_wp w. apply wp_bind, wp_call. intros out err s' Hcall.
  exists out, err, s'. split; [done|].
  destruct err as [e|].
  - apply wp_bind, wp_emit, wp_ret. cbn [trace]. rewrite <- app_assoc.
    split; [done|]. split; [by intros ? [= <-]|done].
  - destruct out as [o|]; [|by apply wp_panic].
    destruct (ec2.DescribeImagesOutput_Images o) as [|image rest] eqn:Himages.
    + apply wp_ret. split; [done|]. split; [done|]. by intros ? _ [= <-] _.
    + assert (Hnot : forall (r' : go (option string * option error)) (w' : world S),
                trace w' = trace (mkWorld s' (trace w ++
                                    [DescribeImagesCall
                                       (ec2.mkDescribeImagesInput
                                          (Instances.buildEC2Filters (f :: filters)) [])
                                       (Some o) None])) ->
                trace w' = trace w ++
                           [DescribeImagesCall
                              (ec2.mkDescribeImagesInput
                                 (Instances.buildEC2Filters (f :: filters)) [])
                              (Some o) None]
                /\ (forall e : error, @None error = Some e ->
                      r' = Done (None, Some (Wrapf "error describing AMI: %v" e)))
                /\ (forall o0, @None error = None -> Some o = Some o0 ->
                      ec2.DescribeImagesOutput_Images o0 = [] ->
                      r' = Done (None,
                                 Some (Errorf "no image for given filters not found")))).
      { intros r' w' ->. split; [done|]. split; [done|].
        intros ? _ [= <-]. by rewrite Himages. }
      destruct (ec2.Image_CreationDate image); [|by apply wp_panic, Hnot].
      destruct (time_Parse_RFC3339 _) as [latestTime [e|]].
      * destruct (ec2.Image_ImageId image); [apply wp_ret|apply wp_panic]; by apply Hnot.
      * apply wp_lift. by apply Hnot.
Qed.

(** ** Validation of a placement group *)

Section ValidationFacts.
Import machinev1 placementgroup_spec.

Lemma validManaged_check (managed : ManagedAWSPlacementGroup) :
  (if negb (String.eqb (Managed_GroupType managed) AWSClusterPlacementGroupType
            || String.eqb (Managed_GroupType managed) AWSPartitionPlacementGroupType
            || String.eqb (Managed_GroupType managed) AWSSpreadPlacementGroupType)
   then Some (Errorf "invalid aws placement group. spec.managementSpec.managed.groupType must either be %s, %s or %s")
   else
     match Managed_Partition managed with
     | Some partition =>
         if (AWSPartitionPlacement_Count partition <? 1)%Z
            || (7 <? AWSPartitionPlacement_Count partition)%Z
         then Some (Errorf "invalid aws placement group. spec.managementSpec.managed.partition.count must be greater or equal than 1 and less or equal than 7")
         else None
     | None => None
     end) = None
  <-> validManaged managed.
Proof.
  unfold validManaged, AWSClusterPlacementGroupType, AWSPartitionPlacementGroupType,
    AWSSpreadPlacementGroupType.
  destruct (String.eqb_spec (Managed_GroupType managed) "Cluster") as [Hc|Hc];
    destruct (String.eqb_spec (Managed_GroupType managed) "Partition") as [Hp|Hp];
    destruct (String.eqb_spec (Managed_GroupType managed) "Spread") as [Hs|Hs];
    cbn [orb negb];
    try (split; [done|]; intros [[?|[?|?]] _]; done).
  all: destruct (Managed_Partition managed) as [partition|];
    [|split; [intros _; split; [tauto|done]|done]].
  all: destruct (Z.ltb_spec (AWSPartitionPlacement_Count partition) 1);
    destruct (Z.ltb_spec 7 (AWSPartitionPlacement_Count partition)); cbn [orb].
  all: split; try done.
  all: try (intros [_ Hcount]; specialize (Hcount partition eq_refl); lia).
  all: intros _; split; [tauto|]; intros ? [= <-]; lia.
Qed.

End ValidationFacts.

(** X14.  [validateAWSPlacementGroup] accepts exactly the objects whose
    management state is [Managed] or [Unmanaged]; that, when [Managed],
    have a managed part and a status that does not record [Unmanaged];
    and whose managed part, if there is one (in either state), has the
    group type [Cluster], [Partition] or [Spread] and, if it gives a
    partition (for any group type), a count from 1 to 7. *)
Theorem validateAWSPlacementGroup_valid (pg : machinev1.AWSPlacementGroup) :
  awsplacementgroup.validateAWSPlacementGroup pg = None <-> placementgroup_spec.valid pg.
Proof.
  unfold awsplacementgroup.validateAWSPlacementGroup, placementgroup_spec.valid.
  unfold machinev1.ManagedManagementState, machinev1.UnmanagedManagementState.
  set (state := machinev1.ManagementSpec_ManagementState _).
  set (managed := machinev1.ManagementSpec_Managed _).
  cbn zeta.
  destruct (String.eqb_spec state "Managed") as [Hm|Hm].
  - cbn [orb negb]. destruct managed as [m|].
    + destruct (String.eqb_spec (machinev1.Status_ManagementState (machinev1.Status pg))
                  "Unmanaged") as [Hu|Hu].
      * split; [done|]. intros (_ & Hs & _). by destruct (Hs Hm).
      * rewrite validManaged_check. split.
        -- intros Hv. split; [by left|]. split; [done|]. by intros ? [= <-].
        -- intros (_ & _ & Hv). by apply Hv.
    + split; [done|]. intros (_ & Hs & _). by destruct (Hs Hm).
  - destruct (String.eqb_spec state "Unmanaged") as [Hu|Hu]; cbn [orb negb].
    + destruct managed as [m|].
      * rewrite validManaged_check. split.
        -- intros Hv. split; [by right|]. split; [done|]. by intros ? [= <-].
        -- intros (_ & _ & Hv). by apply Hv.
      * split; [|done]. intros _. split; [by right|]. by split.
    + split; [done|]. intros ([?|?] & _); done.
Qed.

(** X15.  [validateExistingPlacementGroupConfig] accepts a placement
    group of the cloud exactly when its name is the name of the object,
    its strategy is the one of the group type of the managed spec, and,
    for the group type [Partition] with a partition count that is set
    (not zero), its partition count is that count.  It panics exactly
    when the names agree and the spec has no managed part. *)
Theorem validateExistingPlacementGroupConfig_matches (pg : machinev1.AWSPlacementGroup)
    (placementGroup : ec2.PlacementGroup) :
  let managed :=
    machinev1.ManagementSpec_Managed (machinev1.Spec_ManagementSpec (machinev1.Spec pg)) in
  let result :=
    awsplacementgroup.validateExistingPlacementGroupConfig pg (Some placementGroup) in
  (result = Done None
   <-> exists m, managed = Some m /\ placementgroup_spec.matches pg m placementGroup)
  /\ (result = Panic
      <-> StringValue (ec2.PlacementGroup_GroupName placementGroup) = machinev1.Name pg
          /\ managed = None).
Proof.
  intros managed result. subst result.
  unfold awsplacementgroup.validateExistingPlacementGroupConfig,
    placementgroup_spec.matches, placementgroup_spec.strategyFor.
  fold managed. clearbody managed.
  unfold machinev1.AWSSpreadPlacementGroupType, machinev1.AWSClusterPlacementGroupType,
    machinev1.AWSPartitionPlacementGroupType, ec2.PlacementStrategySpread,
    ec2.PlacementStrategyCluster, ec2.PlacementStrategyPartition.
  destruct (String.eqb_spec (StringValue (ec2.PlacementGroup_GroupName placementGroup))
              (machinev1.Name pg)) as [Hname|Hname]; cbn [negb].
  2:{ split; (split; [done|]).
      - intros (m & _ & Hn & _). done.
      - intros [Hn _]. done. }
  destruct managed as [m|].
  2:{ split; [|done]. split; [done|]. by intros (m & [=] & _). }
  split; [|split; [|by intros [_ [=]]]].
  2:{ repeat case_match; done. }
  set (strategy := StringValue (ec2.PlacementGroup_Strategy placementGroup)).
  assert (Hex : forall P : machinev1.ManagedAWSPlacementGroup -> Prop,
            (exists m', Some m = Some m' /\ P m') <-> P m).
  { intros P. split; [by intros (? & [= <-] & ?)|eauto]. }
  rewrite Hex. clear Hex.
  destruct (String.eqb_spec (machinev1.Managed_GroupType m) "Spread") as [Hs|Hs].
  { rewrite Hs. cbn [String.eqb Ascii.eqb Bool.eqb andb].
    destruct (String.eqb_spec strategy "spread") as [Hst|Hst]; cbn [negb].
    - split; [|done]. intros _. split; [done|]. split; [by rewrite Hst|done].
    - split; [done|]. intros (_ & [= Heq] & _). done. }
  destruct (String.eqb_spec (machinev1.Managed_GroupType m) "Cluster") as [Hc|Hc].
  { rewrite Hc. cbn [String.eqb Ascii.eqb Bool.eqb andb].
    destruct (String.eqb_spec strategy "cluster") as [Hst|Hst]; cbn [negb].
    - split; [|done]. intros _. split; [done|]. split; [by rewrite Hst|done].
    - split; [done|]. intros (_ & [= Heq] & _). done. }
  destruct (String.eqb_spec (machinev1.Managed_GroupType m) "Partition") as [Hp|Hp].
  2:{ split; [done|]. by intros (_ & [=] & _). }
  destruct (String.eqb_spec strategy "partition") as [Hst|Hst]; cbn [negb].
  2:{ split; [done|]. intros (_ & [= Heq] & _). done. }
  destruct (machinev1.Managed_Partition m) as [partition|].
  2:{ split; [|done]. intros _. split; [done|]. split; [by rewrite Hst|done]. }
  destruct (Z.eqb_spec (machinev1.AWSPartitionPlacement_Count partition) 0) as [H0|H0];
    cbn [negb andb].
  { split; [|done]. intros _. split; [done|]. split; [by rewrite Hst|].
    intros _ ? [= <-] Hn. done. }
  destruct (Z.eqb_spec (machinev1.AWSPartitionPlacement_Count partition)
              (Int64Value (ec2.PlacementGroup_PartitionCount placementGroup)))
    as [Hcount|Hcount]; cbn [negb].
  - split; [|done]. intros _. split; [done|]. split; [by rewrite Hst|].
    by intros _ ? [= <-] _.
  - split; [done|]. intros (_ & _ & Hn). exfalso. apply Hcount. by apply (Hn Hp).
Qed.

(** ** The observed configuration *)

(** X16.  [setObservedConfiguration] records the group type and the
    partition count of the cloud in the status, the count always as a
    partition, and sets the condition [Ready]: to true, for the reason
    [ConfigurationInSync], exactly when the managed part of the spec has
    this group type and a partition with this count; to false, for the
    reason [ConfigurationMismatch], otherwise.  A spec without a managed
    part, or whose managed part gives no partition, is never in sync. *)
Theorem setObservedConfiguration_in_sync {S : Type} (strings_Title : string -> string)
    (SetStatusCondition :
       list metav1.Condition -> metav1.Condition -> S -> list metav1.Condition * S)
    (pg : machinev1.AWSPlacementGroup) (placementGroup : ec2.PlacementGroup)
    (w : world S) :
  let observed :=
    machinev1.mkManagedAWSPlacementGroup
      (strings_Title (StringValue (ec2.PlacementGroup_Strategy placementGroup)))
      (Some (machinev1.mkAWSPartitionPlacement
               (int32 (Int64Value (ec2.PlacementGroup_PartitionCount placementGroup))))) in
  let managed :=
    machinev1.ManagementSpec_Managed (machinev1.Spec_ManagementSpec (machinev1.Spec pg)) in
  exists condition,
    awsplacementgroup.setObservedConfiguration strings_Title SetStatusCondition pg
      placementGroup w
    = awsplacementgroup.setStatusCondition SetStatusCondition
        (machinev1.set_ObservedConfiguration pg observed) condition w
    /\ (managed = Some observed ->
        condition = metav1.mkCondition "Ready" "True" "ConfigurationInSync" None)
    /\ (managed <> Some observed ->
        condition = metav1.mkCondition "Ready" "False" "ConfigurationMismatch" None)
    /\ (forall m, managed = Some m -> machinev1.Managed_Partition m = None ->
        condition = metav1.mkCondition "Ready" "False" "ConfigurationMismatch" None)
    /\ (managed = None ->
        condition = metav1.mkCondition "Ready" "False" "ConfigurationMismatch" None).
Proof.
  intros observed managed.
  unfold awsplacementgroup.setObservedConfiguration. fold observed.
  change (machinev1.ManagementSpec_Managed
            (machinev1.Spec_ManagementSpec
               (machinev1.Spec (machinev1.set_ObservedConfiguration pg observed))))
    with managed.
  change (machinev1.Status_ObservedConfiguration
            (machinev1.Status (machinev1.set_ObservedConfiguration pg observed)))
    with observed.
  destruct managed as [m|].
  - destruct (bool_decide_reflect (observed = m)) as [Heq|Hne].
    + eexists. split; [reflexivity|]. split; [done|]. split; [by rewrite Heq|].
      split; [|done]. intros ? [= <-]. by rewrite <- Heq.
    + eexists. split; [reflexivity|]. split; [intros [= ->]; done|]. by repeat split.
  - eexists. split; [reflexivity|]. by repeat split.
Qed.

(** ** The placement-group reconciler *)

Section ReconcilerFacts.
Import machinev1 placementgroup_spec.
Context {S : Type}.
Variable strings_Title : string -> string.
Variable SetStatusCondition :
  list metav1.Condition -> metav1.Condition -> S -> list metav1.Condition * S.
Variable time_Now : S -> metav1.Time * S.

Lemma wp_conj {A : Type} (m : M S A) (w : world S) (Q1 Q2 : go A -> world S -> Prop) :
  wp m w Q1 -> wp m w Q2 -> wp m w (fun r w' => Q1 r w' /\ Q2 r w').
Proof. unfold wp. tauto. Qed.

Lemma wp_now (w : world S) (Q : go metav1.Time -> world S -> Prop) :
  (forall t s', Q (Done t) (mkWorld s' (trace w))) ->
  wp (awsplacementgroup.now time_Now) w Q.
Proof.
  intros H. unfold wp, awsplacementgroup.now. destruct (time_Now (env w)). apply H.
Qed.

Lemma statusOnly_refl pg : statusOnly pg pg.
Proof. by repeat split. Qed.

Lemma statusOnly_trans pg pg' pg'' :
  statusOnly pg pg' -> statusOnly pg' pg'' -> statusOnly pg pg''.
Proof. unfold statusOnly. intuition congruence. Qed.

Lemma statusOnly_set_Status pg st : statusOnly pg (set_Status pg st).
Proof. by repeat split. Qed.

Lemma statusOnly_hasFinalizer pg pg' :
  statusOnly pg pg' -> hasFinalizer pg' = hasFinalizer pg.
Proof.
  intros (_ & _ & _ & Hf & _). unfold hasFinalizer, awsplacementgroup.ContainsFinalizer.
  by rewrite Hf.
Qed.

Lemma hasFinalizer_RemoveFinalizer pg :
  hasFinalizer
    (awsplacementgroup.RemoveFinalizer pg awsplacementgroup.awsPlacementGroupFinalizer)
  = false.
Proof.
  unfold hasFinalizer, awsplacementgroup.ContainsFinalizer,
    awsplacementgroup.RemoveFinalizer. cbn [Finalizers set_Finalizers].
  induction (Finalizers pg) as [|f fs IH]; [done|]. cbn [List.filter].
  destruct (String.eqb f awsplacementgroup.awsPlacementGroupFinalizer) eqn:Hf;
    cbn [negb existsb]; [done|]. by rewrite Hf.
Qed.

Lemma hasFinalizer_AddFinalizer pg :
  hasFinalizer
    (awsplacementgroup.AddFinalizer pg awsplacementgroup.awsPlacementGroupFinalizer)
  = true.
Proof.
  unfold hasFinalizer, awsplacementgroup.AddFinalizer.
  destruct (awsplacementgroup.ContainsFinalizer pg _) eqn:Hc; [done|].
  unfold awsplacementgroup.ContainsFinalizer. cbn [Finalizers set_Finalizers].
  rewrite existsb_app. cbn [existsb]. rewrite String.eqb_refl. by rewrite orb_true_r.
Qed.

Lemma setStatusCondition_keeps pg condition (w : world S) :
  wp (awsplacementgroup.setStatusCondition SetStatusCondition pg condition) w
    (keeps pg w).
Proof.
  apply wp_setStatusCondition. intros conditions s'. split; [done|].
  eexists. split; [reflexivity|]. split; [apply statusOnly_set_Status|done].
Qed.

Lemma setObservedConfiguration_keeps pg placementGroup (w : world S) :
  wp (awsplacementgroup.setObservedConfiguration strings_Title SetStatusCondition pg
        placementGroup) w (keeps pg w).
Proof.
  unfold awsplacementgroup.setObservedConfiguration.
  eapply wp_mono; [apply setStatusCondition_keeps|].
  intros r w' (Htrace & pg' & -> & Hst & He & Hm). split; [done|].
  exists pg'. split; [done|]. split; [|done].
  eapply statusOnly_trans; [|exact Hst]. apply statusOnly_set_Status.
Qed.

(** [requeueAt] makes no call and returns a duration that is not
    negative. *)
Lemma requeueAt_nonnegative (at_ : metav1.Time) (w : world S) :
  wp (awsplacementgroup.requeueAt time_Now at_) w
    (fun r w' => trace w' = trace w /\ exists d, r = Done d /\ (0 <= d)%Z).
Proof.
  unfold awsplacementgroup.requeueAt. apply wp_bind, wp_now. intros t s'.
  destruct (Z.ltb_spec (- (t - (at_ + 1 * metav1.Millisecond))) 0); apply wp_ret;
    (split; [done|]); eexists; (split; [reflexivity|]); lia.
Qed.

(** [reflectObservedConfiguration] only reads the cloud, changes the
    status only, and leaves an expiry behind when it succeeds. *)
Lemma reflectObservedConfiguration_reads (client : awsclient.Client S) pg (w : world S) :
  wp (awsplacementgroup.reflectObservedConfiguration strings_Title SetStatusCondition
        time_Now client pg) w
    (fun r w' =>
       (exists evs, trace w' = trace w ++ evs /\ Forall readOnly evs)
       /\ forall pg' err, r = Done (pg', err) ->
            statusOnly pg pg'
            /\ (err = None -> is_Some (Status_ExpiresAt (Status pg')))
            /\ Status_ManagementState (Status pg') = Status_ManagementState (Status pg)).
Proof.
  unfold awsplacementgroup.reflectObservedConfiguration.
  apply wp_bind, wp_call. intros placementGroups err s' _.
  assert (Hone : forall s : S,
            exists evs,
              trace (mkWorld s (trace w ++
                                [DescribePlacementGroupsCall
                                   (ec2.mkDescribePlacementGroupsInput [Name pg])
                                   placementGroups err]))
              = trace w ++ evs /\ Forall readOnly evs).
  { intros s. eexists [_]. split; [done|]. by repeat constructor. }
  destruct (awsplacementgroup.describeFailed err) as [e|].
  { apply wp_ret. split; [apply Hone|]. intros pg' err' [= <- <-].
    split; [apply statusOnly_refl|]. by split. }
  destruct placementGroups as [placementGroups|]; [|apply wp_panic; split; [apply Hone|done]].
  assert (Hexpire : forall pg0 (w0 : world S),
            statusOnly pg pg0 ->
            Status_ManagementState (Status pg0) = Status_ManagementState (Status pg) ->
            trace w0 = trace w ++
                       [DescribePlacementGroupsCall
                          (ec2.mkDescribePlacementGroupsInput [Name pg])
                          (Some placementGroups) err] ->
            wp (let* t := awsplacementgroup.now time_Now in
                ret (set_ExpiresAt pg0 (Some (t + 2 * metav1.Minute)%Z), None)) w0
              (fun r w' =>
                 (exists evs, trace w' = trace w ++ evs /\ Forall readOnly evs)
                 /\ forall pg' (err0 : option error), r = Done (pg', err0) ->
                      statusOnly pg pg'
                      /\ (err0 = None -> is_Some (Status_ExpiresAt (Status pg')))
                      /\ Status_ManagementState (Status pg')
                         = Status_ManagementState (Status pg))).
  { intros pg0 w0 Hst Hms Htrace. apply wp_bind, wp_now. intros t s0. apply wp_ret.
    split.
    - eexists [_]. split; [exact Htrace|]. by repeat constructor.
    - intros pg' err0 [= <- <-]. split; [|split; [by eexists|done]].
      eapply statusOnly_trans; [exact Hst|]. apply statusOnly_set_Status. }
  destruct (ec2.DescribePlacementGroupsOutput_PlacementGroups placementGroups)
    as [|placementGroup [|placementGroup' rest]].
  - apply Hexpire; [apply statusOnly_refl|done|done].
  - destruct (ec2.PlacementGroup_GroupId placementGroup);
      [|apply wp_panic; split; [apply Hone|done]].
    apply wp_bind. eapply wp_mono; [apply setObservedConfiguration_keeps|].
    intros r w' (Htrace & pg' & -> & Hst & He & Hm).
    apply Hexpire; [done|done|by rewrite Htrace].
  - apply wp_ret. split; [apply Hone|]. intros pg' err' [= <- <-].
    split; [apply statusOnly_refl|]. by split.
Qed.

End ReconcilerFacts.

Section ReconcileRuns.
Import machinev1 placementgroup_spec.
Context {S : Type}.
Variable strings_Title : string -> string.
Variable SetStatusCondition :
  list metav1.Condition -> metav1.Condition -> S -> list metav1.Condition * S.
Variable time_Now : S -> metav1.Time * S.

Lemma reconcile_sync (client : awsclient.Client S) (now_ : metav1.Time) pg (w : world S) :
  wp (if bool_decide (Status_ExpiresAt (Status pg) = None)
         || metav1.Before (Status_ExpiresAt (Status pg)) (Some now_)
      then awsplacementgroup.reflectObservedConfiguration strings_Title
             SetStatusCondition time_Now client pg
      else ret (pg, None)) w (synced pg w).
Proof.
  destruct (bool_decide_reflect (Status_ExpiresAt (Status pg) = None)) as [Hnone|Hsome];
    cbn [orb].
  2: destruct (metav1.Before _ _).
  1,2: eapply wp_mono; [apply reflectObservedConfiguration_reads|];
    intros r w' [Hevs Hres]; (split; [done|]); intros pg' err Hr;
    destruct (Hres pg' err Hr) as (? & ? & ?); by split.
  apply wp_ret. split; [exists []; by rewrite app_nil_r|].
  intros pg' err [= <- <-]. split; [apply statusOnly_refl|]. intros _.
  by destruct (Status_ExpiresAt (Status pg)).
Qed.

End ReconcileRuns.

(** The first steps of a run of [reconcile]. *)
Ltac reconcile_start w :=
  unfold awsplacementgroup.reconcile; run_to_wp w;
  apply wp_bind, wp_now;
  let now_ := fresh "now_" in
  let s0 := fresh "s0" in
  intros now_ s0; apply wp_bind;
  eapply wp_mono; [apply reconcile_sync|];
  let r := fresh "r" in
  let w' := fresh "w'" in
  let evs := fresh "evs" in
  let Htrace := fresh "Htrace" in
  let Hro := fresh "Hro" in
  let Hres := fresh "Hres" in
  intros r w' [(evs & Htrace & Hro) Hres]; cbn [trace] in Htrace.

(** X17.  [reconcile] of an object whose spec is [Unmanaged] only reads
    the cloud: it creates and deletes nothing there.  When it returns
    without an error it has recorded [Unmanaged] in the status; if the
    object carried the finalizer of the controller, the finalizer is
    removed and the object is requeued at once; otherwise the object is
    requeued after a delay that is not negative. *)
Theorem reconcile_unmanaged {S : Type} (strings_Title : string -> string)
    (SetStatusCondition :
       list metav1.Condition -> metav1.Condition -> S -> list metav1.Condition * S)
    (time_Now : S -> metav1.Time * S)
    (awsClient : awsclient.Client S) (infra : configv1.Infrastructure)
    (pg : machinev1.AWSPlacementGroup) (w : world S) :
  machinev1.ManagementSpec_ManagementState
    (machinev1.Spec_ManagementSpec (machinev1.Spec pg))
  = machinev1.UnmanagedManagementState ->
  let run :=
    awsplacementgroup.reconcile strings_Title SetStatusCondition time_Now awsClient infra
      pg w in
  exists evs,
    trace (snd run) = trace w ++ evs
    /\ Forall placementgroup_spec.readOnly evs
    /\ forall pg' result err, fst run = Done (pg', (result, err)) -> err = None ->
         machinev1.Status_ManagementState (machinev1.Status pg')
         = machinev1.UnmanagedManagementState
         /\ machinev1.Spec pg' = machinev1.Spec pg
         /\ placementgroup_spec.hasFinalizer pg' = false
         /\ if placementgroup_spec.hasFinalizer pg
            then result = ctrl.mkResult true 0
            else ctrl.Requeue result = false /\ (0 <= ctrl.RequeueAfter result)%Z.
Proof.
  intros Hstate run. subst run. reconcile_start w.
  destruct r as [[pg1 [e|]]|].
  - apply wp_ret. exists evs. split; [done|]. split; [done|].
    by intros pg' result err [= <- <- <-].
  - destruct (Hres pg1 None eq_refl) as [Hst [expiresAt Hexp]]; [done|].
    pose proof (statusOnly_hasFinalizer _ _ Hst) as Hfin.
    destruct Hst as (_ & _ & _ & _ & Hspec).
    cbn [machinev1.Spec machinev1.set_StatusManagementState machinev1.set_Status].
    rewrite Hspec, Hstate. cbn [String.eqb Ascii.eqb Bool.eqb andb].
    change (String.eqb machinev1.UnmanagedManagementState
              machinev1.UnmanagedManagementState) with true. cbn iota.
    change (awsplacementgroup.ContainsFinalizer
              (machinev1.set_StatusManagementState pg1 machinev1.UnmanagedManagementState)
              awsplacementgroup.awsPlacementGroupFinalizer)
      with (placementgroup_spec.hasFinalizer pg1).
    rewrite Hfin. destruct (placementgroup_spec.hasFinalizer pg) eqn:Hhas.
    + apply wp_ret. exists evs. split; [done|]. split; [done|].
      intros pg' result err [= <- <- <-] _. split; [done|]. split; [done|].
      split; [apply hasFinalizer_RemoveFinalizer|done].
    + cbn [machinev1.Status machinev1.set_StatusManagementState machinev1.set_Status
           machinev1.Status_ExpiresAt].
      rewrite Hexp. apply wp_bind.
      eapply wp_mono; [apply requeueAt_nonnegative|].
      intros r1 w1 (Htrace1 & d & -> & Hd). apply wp_ret.
      exists evs. split; [by rewrite Htrace1|]. split; [done|].
      intros pg' result err [= <- <- <-] _. split; [done|]. split; [done|].
      split; [by rewrite <- Hfin|done].
  - exists evs. by repeat split.
Qed.

Lemma reconcile_unmanaged_witness :
  Forall placementgroup_spec.readOnly
    (trace (snd (awsplacementgroup.reconcile placementgroup_stubs.stubTitle
                   placementgroup_stubs.stubSetStatusCondition placementgroup_stubs.stubNow
                   (fake.NewClient fake.nothing) placementgroup_stubs.stubInfrastructure
                   (placementgroup_stubs.stubAWSPlacementGroup
                      machinev1.UnmanagedManagementState machinev1.ManagedManagementState)
                   (mkWorld tt [])))).
Proof.
  destruct (reconcile_unmanaged placementgroup_stubs.stubTitle
              placementgroup_stubs.stubSetStatusCondition placementgroup_stubs.stubNow
              (fake.NewClient fake.nothing) placementgroup_stubs.stubInfrastructure
              (placementgroup_stubs.stubAWSPlacementGroup
                 machinev1.UnmanagedManagementState machinev1.ManagedManagementState)
              (mkWorld tt []) eq_refl) as (evs & Htrace & Hro & _).
  cbn [trace app] in Htrace. rewrite Htrace. exact Hro.
Defined.

Section ReconcileSteps.
Import machinev1 placementgroup_spec.
Context {S : Type}.
Variable strings_Title : string -> string.
Variable SetStatusCondition :
  list metav1.Condition -> metav1.Condition -> S -> list metav1.Condition * S.
Variable time_Now : S -> metav1.Time * S.

Lemma quiet_setStatusCondition (P : event -> Prop) pg condition :
  quiet (S := S) P (awsplacementgroup.setStatusCondition SetStatusCondition pg condition).
Proof.
  intros w. eapply wp_mono; [apply setStatusCondition_keeps|].
  intros r w' [Htrace _]. exists []. by rewrite app_nil_r.
Qed.

Lemma quiet_setObservedConfiguration (P : event -> Prop) pg placementGroup :
  quiet (S := S) P
    (awsplacementgroup.setObservedConfiguration strings_Title SetStatusCondition pg
       placementGroup).
Proof.
  intros w. eapply wp_mono; [apply setObservedConfiguration_keeps|].
  intros r w' [Htrace _]. exists []. by rewrite app_nil_r.
Qed.

Lemma deletePlacementGroup_creates_nothing (client : awsclient.Client S) pg infra :
  quiet notCreatePlacementGroup (awsplacementgroup.deletePlacementGroup client pg infra).
Proof. unfold awsplacementgroup.deletePlacementGroup. repeat quiet_step. Qed.

Lemma checkOrCreatePlacementGroup_deletes_nothing (client : awsclient.Client S) pg infra :
  quiet notDeletePlacementGroup
    (awsplacementgroup.checkOrCreatePlacementGroup strings_Title SetStatusCondition
       client pg infra).
Proof.
  unfold awsplacementgroup.checkOrCreatePlacementGroup.
  repeat first [ apply quiet_setStatusCondition
               | apply quiet_setObservedConfiguration
               | quiet_step ].
Qed.

(** [checkOrCreatePlacementGroup] changes the status only, and in it
    neither the expiry nor the management state. *)
Lemma checkOrCreatePlacementGroup_keeps (client : awsclient.Client S) pg infra
    (w : world S) :
  wp (awsplacementgroup.checkOrCreatePlacementGroup strings_Title SetStatusCondition
        client pg infra) w
    (fun r _ =>
       forall pg' err, r = Done (pg', err) ->
         statusOnly pg pg'
         /\ Status_ExpiresAt (Status pg') = Status_ExpiresAt (Status pg)
         /\ Status_ManagementState (Status pg') = Status_ManagementState (Status pg)).
Proof.
  assert (Hsame : forall (err : option error) (w0 : world S),
            wp (ret (pg, err)) w0
              (fun r _ =>
                 forall pg' err', r = Done (pg', err') ->
                   statusOnly pg pg'
                   /\ Status_ExpiresAt (Status pg') = Status_ExpiresAt (Status pg)
                   /\ Status_ManagementState (Status pg')
                      = Status_ManagementState (Status pg))).
  { intros err w0. apply wp_ret. intros pg' err' [= <- <-].
    split; [apply statusOnly_refl|done]. }
  assert (Hkept : forall (m : M S AWSPlacementGroup) (k : AWSPlacementGroup -> option error)
                         (w0 : world S),
            wp m w0 (keeps pg w0) ->
            wp (let* pg0 := m in ret (pg0, k pg0)) w0
              (fun r _ =>
                 forall pg' err', r = Done (pg', err') ->
                   statusOnly pg pg'
                   /\ Status_ExpiresAt (Status pg') = Status_ExpiresAt (Status pg)
                   /\ Status_ManagementState (Status pg')
                      = Status_ManagementState (Status pg))).
  { intros m k w0 Hm. apply wp_bind. eapply wp_mono; [exact Hm|].
    intros r w1 (_ & pg1 & -> & ? & ? & ?). apply wp_ret. by intros pg' err' [= <- <-]. }
  unfold awsplacementgroup.checkOrCreatePlacementGroup.
  apply wp_bind, wp_call. intros placementGroups err s' _.
  destruct (awsplacementgroup.describeFailed err); [apply Hsame|].
  destruct placementGroups as [placementGroups|]; [|by apply wp_panic].
  destruct (ec2.DescribePlacementGroupsOutput_PlacementGroups placementGroups)
    as [|placementGroup [|placementGroup' rest]]; [| |apply Hsame].
  - (* the create path *)
    apply wp_bind, wp_lift.
    destruct (awsplacementgroup.buildPlacementGroupTagList _ _ _) as [tagList|]; [|done].
    assert (Hcreate : forall input (w0 : world S),
              wp (let* (out, err0) :=
                    call (awsclient.CreatePlacementGroup client) CreatePlacementGroupCall
                      input in
                  match err0 with
                  | Some e =>
                      let werr := Wrapf "failed to create aws placement group: %w" e in
                      let* pg0 :=
                        awsplacementgroup.setStatusCondition SetStatusCondition pg
                          (metav1.mkCondition awsplacementgroup.readyConditionType
                             metav1.ConditionFalse
                             awsplacementgroup.creationFailedConditionReason (Some werr)) in
                      ret (pg0, Some werr)
                  | None =>
                      let* pg0 :=
                        awsplacementgroup.setStatusCondition SetStatusCondition pg
                          (metav1.mkCondition awsplacementgroup.readyConditionType
                             metav1.ConditionTrue
                             awsplacementgroup.creationSucceededConditionReason None) in
                      match out with
                      | None => panic
                      | Some out =>
                          match ec2.CreatePlacementGroupOutput_PlacementGroup out with
                          | None => panic
                          | Some created =>
                              match ec2.PlacementGroup_GroupName created,
                                    ec2.PlacementGroup_GroupId created with
                              | Some _, Some _ => ret (pg0, None)
                              | _, _ => panic
                              end
                          end
                      end
                  end) w0
                (fun r _ =>
                   forall pg' err', r = Done (pg', err') ->
                     statusOnly pg pg'
                     /\ Status_ExpiresAt (Status pg') = Status_ExpiresAt (Status pg)
                     /\ Status_ManagementState (Status pg')
                        = Status_ManagementState (Status pg))).
    { intros input w0. apply wp_bind, wp_call. intros out err0 s0 _.
      destruct err0 as [e|].
      - apply (Hkept _ (fun _ => Some _)). apply setStatusCondition_keeps.
      - apply wp_bind. eapply wp_mono; [apply setStatusCondition_keeps|].
        intros r w1 (_ & pg1 & -> & ? & ? & ?).
        destruct out as [out|]; [|by apply wp_panic].
        destruct (ec2.CreatePlacementGroupOutput_PlacementGroup out) as [created|];
          [|by apply wp_panic].
        destruct (ec2.PlacementGroup_GroupName created), (ec2.PlacementGroup_GroupId created);
          try (by apply wp_panic).
        apply wp_ret. by intros pg' err' [= <- <-]. }
    destruct (ManagementSpec_Managed _) as [managed|]; [|by apply wp_panic].
    repeat match goal with
           | |- wp (if ?b then _ else _) _ _ => destruct b
           end; try apply Hcreate. apply Hsame.
  - (* the group exists *)
    apply wp_bind, wp_lift.
    destruct (awsplacementgroup.validateExistingPlacementGroupConfig _ _) as [[e|]|];
      [| |done].
    + apply (Hkept _ (fun _ => Some _)). apply setStatusCondition_keeps.
    + apply (Hkept _ (fun _ => None)). apply setObservedConfiguration_keeps.
Qed.

End ReconcileSteps.
